(** * HandHero: the InvisibleBoundaryEngine hand-pose evaluator

    A shallow embedding of [src/Invisibleboundaryengine.js] and the
    properties its specification states about it.

    JavaScript numbers are IEEE 754 binary64 values, so they are modelled by
    Rocq's primitive floats, whose operations are the same binary64
    operations (round to nearest, ties to even).  Property reads on
    [undefined] raise a [TypeError]; this is modelled by the [outcome]
    monad. *)

From Stdlib Require Import Floats ZArith List String Bool Lia Sorted Permutation.
Import ListNotations.

Set Warnings "-inexact-float".

(** ** JavaScript values and primitives *)

Declare Scope js_scope.
Delimit Scope js_scope with js.

(** [a > b] and [a >= b] on numbers (false as soon as one side is NaN). *)
Notation "a >? b" := (PrimFloat.ltb b a) (at level 70, no associativity) : float_scope.
Notation "a >=? b" := (PrimFloat.leb b a) (at level 70, no associativity) : float_scope.

Open Scope float_scope.

(** [Math.hypot].  ECMAScript fixes its special cases and leaves the
    precision of the rest to the implementation; this is the algorithm of the
    V8 engine (Node.js, Chrome).  A first loop stores the absolute values of
    the arguments (0 for a NaN), notes whether one is NaN and finds the
    largest. *)
Definition hypotScan (args : list float) : list float * bool * float :=
  fold_left
    (fun '(absoluteValues, oneArgIsNaN, max) value =>
       if is_nan value then (absoluteValues ++ [0], true, max)
       else
         let absValue := abs value in
         (absoluteValues ++ [absValue], oneArgIsNaN,
          if absValue >? max then absValue else max))
    args ([], false, 0).

(** The second loop: the squares of the values, each divided by the largest,
    added with Kahan's compensated summation. *)
Definition hypotSum (absoluteValues : list float) (max : float) : float :=
  fst (fold_left
         (fun '(sum, compensation) a =>
            let n := a / max in
            let summand := n * n - compensation in
            let preliminary := sum + summand in
            (preliminary, (preliminary - sum) - summand))
         absoluteValues (0, 0)).

(** +Infinity if an argument is infinite, else NaN if one is NaN, else 0 if
    all are zeros (or there is none), else the square root of the scaled sum
    times the largest absolute value. *)
Definition Math_hypot (args : list float) : float :=
  let '(absoluteValues, oneArgIsNaN, max) := hypotScan args in
  if max =? infinity then infinity
  else if oneArgIsNaN then nan
  else if max =? 0 then 0
  else sqrt (hypotSum absoluteValues max) * max.

(** [Math.min] of two numbers: NaN if one is NaN; -0 counts as less than +0. *)
Definition Math_min (a b : float) : float :=
  if is_nan a || is_nan b then nan
  else if b <? a then b
  else if a <? b then a
  else match classify b with NZero => b | _ => a end.

(** [v || 0] on an optional number: [undefined], NaN and the zeros are falsy. *)
Definition orZero (v : option float) : float :=
  match v with
  | Some f => if is_nan f || is_zero f then 0 else f
  | None => 0
  end.

(** Truthiness of an optional boolean property. *)
Definition truthy (b : option bool) : bool :=
  match b with Some true => true | _ => false end.

(** Outcome of a call: a value, or a thrown exception. *)
Inductive JsError := TypeError.

Inductive outcome (A : Type) : Type :=
| Returns (a : A)
| Throws (e : JsError).
Arguments Returns {A} a.
Arguments Throws {A} e.

Definition bind {A B} (m : outcome A) (k : A -> outcome B) : outcome B :=
  match m with
  | Returns a => k a
  | Throws e => Throws e
  end.

Notation "v <- m ;; k" := (bind m (fun v => k))
  (at level 61, m at next level, right associativity) : js_scope.
Open Scope js_scope.

(** Reading a property of a value that may be [undefined]. *)
Definition deref {A} (o : option A) : outcome A :=
  match o with
  | Some a => Returns a
  | None => Throws TypeError
  end.

(** [arr[i]]: [undefined] outside the array. *)
Definition item {A} (arr : list A) (i : Z) : option A :=
  if (i <? 0)%Z then None else nth_error arr (Z.to_nat i).

(** [arr[i]] where the index itself may be [undefined]. *)
Definition itemAt {A} (arr : list A) (i : option Z) : option A :=
  match i with
  | Some k => item arr k
  | None => None
  end.

(** [arr.includes(i)] and [arr.indexOf(i)] on arrays of integers. *)
Definition includes (arr : list Z) (i : Z) : bool := existsb (Z.eqb i) arr.

Fixpoint indexOfFrom (arr : list Z) (v : Z) (k : Z) : Z :=
  match arr with
  | [] => (-1)%Z
  | a :: rest => if (a =? v)%Z then k else indexOfFrom rest v (k + 1)%Z
  end.

Definition indexOf (arr : list Z) (v : option Z) : Z :=
  match v with
  | Some k => indexOfFrom arr k 0%Z
  | None => (-1)%Z
  end.

(** [[...arr].sort((a, b) => a - b)]. *)
Fixpoint insertSorted (v : Z) (arr : list Z) : list Z :=
  match arr with
  | [] => [v]
  | a :: rest => if (v <=? a)%Z then v :: arr else a :: insertSorted v rest
  end.

Fixpoint sortAscending (arr : list Z) : list Z :=
  match arr with
  | [] => []
  | a :: rest => insertSorted a (sortAscending rest)
  end.

(** A [for] loop over the given indices, stopping at the first exception. *)
Fixpoint forEach {S} (body : S -> Z -> outcome S) (indices : list Z) (s : S) : outcome S :=
  match indices with
  | [] => Returns s
  | i :: rest => s' <- body s i ;; forEach body rest s'
  end.

(** ** Node mappings *)

Record FingerNodes := {
  name : string;
  mcp : Z;
  pip : Z;
  dip : Z;
  tip : Z
}.

Definition FINGER_NODES (fingerIdx : Z) : option FingerNodes :=
  match fingerIdx with
  | 0%Z => Some {| name := "thumb";  mcp := 1;  pip := 2;  dip := 3;  tip := 4  |}
  | 1%Z => Some {| name := "index";  mcp := 5;  pip := 6;  dip := 7;  tip := 8  |}
  | 2%Z => Some {| name := "middle"; mcp := 9;  pip := 10; dip := 11; tip := 12 |}
  | 3%Z => Some {| name := "ring";   mcp := 13; pip := 14; dip := 15; tip := 16 |}
  | 4%Z => Some {| name := "pinky";  mcp := 17; pip := 18; dip := 19; tip := 20 |}
  | _ => None
  end.

Definition FINGER_NAMES : list string := ["thumb"; "index"; "middle"; "ring"; "pinky"]%string.

Definition ALL_TIPS : list Z := [4; 8; 12; 16; 20]%Z.

Inductive Zone := GREEN | BLUE | YELLOW | RED.

Definition Zone_eqb (a b : Zone) : bool :=
  match a, b with
  | GREEN, GREEN | BLUE, BLUE | YELLOW, YELLOW | RED, RED => true
  | _, _ => false
  end.

(** ** Data model *)

(** A point [{x, y, z}]; [z] may be absent. *)
Record Landmark := { x : float; y : float; z : option float }.

Record HandFrame := {
  wrist : Landmark;
  handLength : float;
  handWidth : float;
  palmCenter : Landmark
}.

Record BoundaryLine := {
  start : Landmark;
  end_ : Landmark;
  level : string;
  referenceNode : option Z
}.

Record Boundaries := {
  greenBoundary : BoundaryLine;
  acceptableBoundary : BoundaryLine;
  lowBoundary : BoundaryLine
}.

(** Per-finger result objects; the classifiers set different properties, the
    ones a classifier does not set are absent ([None]). *)
Module FR.
Record t := {
  zone : Zone;
  score : float;
  extended : option bool;
  curled : option bool;
  pass : option bool;
  inSafeZone : option bool;
  violation : option bool;
  severity : option string;
  ignored : option bool;
  detail : option string;
  finger : option string;
  fingerIndex : option Z;
  isTarget : option bool
}.

(** [result.finger = ...; result.fingerIndex = ...; result.isTarget = ...]. *)
Definition tag (r : t) (f : option string) (i : option Z) (tg : option bool) : t :=
  {| zone := zone r; score := score r; extended := extended r; curled := curled r;
     pass := pass r; inSafeZone := inSafeZone r; violation := violation r;
     severity := severity r; ignored := ignored r; detail := detail r;
     finger := f; fingerIndex := i; isTarget := tg |}.
End FR.

(** ** Utility functions *)

Definition distance (p1 p2 : Landmark) : float :=
  Math_hypot [x p1 - x p2; y p1 - y p2; orZero (z p1) - orZero (z p2)].

Definition distance2D (p1 p2 : Landmark) : float :=
  Math_hypot [x p1 - x p2; y p1 - y p2].

Definition getHandFrame (landmarks : list Landmark) : outcome HandFrame :=
  let wrist := item landmarks 0 in
  let middleTip := item landmarks 12 in
  let indexMcp := item landmarks 5 in
  let pinkyMcp := item landmarks 17 in
  w <- deref wrist ;;
  mt <- deref middleTip ;;
  im <- deref indexMcp ;;
  pm <- deref pinkyMcp ;;
  l0 <- deref (item landmarks 0) ;;
  l5 <- deref (item landmarks 5) ;;
  l9 <- deref (item landmarks 9) ;;
  l13 <- deref (item landmarks 13) ;;
  l17 <- deref (item landmarks 17) ;;
  Returns {|
    wrist := w;
    handLength := distance w mt;
    handWidth := distance im pm;
    palmCenter := {|
      x := (x l0 + x l5 + x l9 + x l13 + x l17) / 5;
      y := (y l0 + y l5 + y l9 + y l13 + y l17) / 5;
      z := None |}
  |}.

Definition getYOnLine (px : float) (lineStart lineEnd : Landmark) : float :=
  if abs (x lineEnd - x lineStart) <? 0.0001 then
    (y lineStart + y lineEnd) / 2
  else
    let slope := (y lineEnd - y lineStart) / (x lineEnd - x lineStart) in
    y lineStart + slope * (px - x lineStart).

Definition isAboveLine (point lineStart lineEnd : Landmark) : bool :=
  let yOnLine := getYOnLine (x point) lineStart lineEnd in
  y point <? yOnLine.

(** ** Dynamic boundary creation *)

Definition createBoundaryForFinger (fingerIdx : Z) (landmarks : list Landmark)
    (frame : HandFrame) : outcome Boundaries :=
  nodes <- deref (FINGER_NODES fingerIdx) ;;
  pip_ <- deref (item landmarks (pip nodes)) ;;
  dip_ <- deref (item landmarks (dip nodes)) ;;
  mcp_ <- deref (item landmarks (mcp nodes)) ;;
  let lineExtent := handWidth frame * 1.5 in
  let greenBoundary := {|
    start := {| x := x pip_ - lineExtent; y := y pip_; z := None |};
    end_ := {| x := x pip_ + lineExtent; y := y pip_; z := None |};
    level := "GREEN";
    referenceNode := Some (pip nodes) |} in
  let acceptableBoundary := {|
    start := {| x := x dip_ - lineExtent; y := y dip_; z := None |};
    end_ := {| x := x dip_ + lineExtent; y := y dip_; z := None |};
    level := "ACCEPTABLE";
    referenceNode := Some (dip nodes) |} in
  let lowBoundary := {|
    start := {| x := x mcp_ - lineExtent; y := y mcp_; z := None |};
    end_ := {| x := x mcp_ + lineExtent; y := y mcp_; z := None |};
    level := "LOW";
    referenceNode := Some (mcp nodes) |} in
  Returns {| greenBoundary := greenBoundary;
             acceptableBoundary := acceptableBoundary;
             lowBoundary := lowBoundary |}.

Definition createBoundariesForTargets (targetFingers : list Z) (landmarks : list Landmark)
    (frame : HandFrame) : outcome Boundaries :=
  if (Z.of_nat (List.length targetFingers) =? 0)%Z then
    createBoundaryForFinger 2 landmarks frame
  else if (Z.of_nat (List.length targetFingers) =? 1)%Z then
    fingerIdx <- deref (item targetFingers 0) ;;
    createBoundaryForFinger fingerIdx landmarks frame
  else
    let sortedTargets := sortAscending targetFingers in
    leftFinger <- deref (item sortedTargets 0) ;;
    rightFinger <- deref (item sortedTargets (Z.of_nat (List.length sortedTargets) - 1)) ;;
    leftNodes <- deref (FINGER_NODES leftFinger) ;;
    rightNodes <- deref (FINGER_NODES rightFinger) ;;
    gs <- deref (item landmarks (pip leftNodes)) ;;
    ge <- deref (item landmarks (pip rightNodes)) ;;
    as_ <- deref (item landmarks (dip leftNodes)) ;;
    ae <- deref (item landmarks (dip rightNodes)) ;;
    ls <- deref (item landmarks (mcp leftNodes)) ;;
    le <- deref (item landmarks (mcp rightNodes)) ;;
    Returns {|
      greenBoundary := {| start := gs; end_ := ge; level := "GREEN"; referenceNode := None |};
      acceptableBoundary :=
        {| start := as_; end_ := ae; level := "ACCEPTABLE"; referenceNode := None |};
      lowBoundary := {| start := ls; end_ := le; level := "LOW"; referenceNode := None |}
    |}.

(** ** Finger evaluation *)

Definition evaluateTargetFinger (fingerIdx : Z) (landmarks : list Landmark)
    (frame : HandFrame) : outcome FR.t :=
  nodes <- deref (FINGER_NODES fingerIdx) ;;
  tip <- deref (item landmarks (tip nodes)) ;;
  dip <- deref (item landmarks (dip nodes)) ;;
  pip <- deref (item landmarks (pip nodes)) ;;
  mcp <- deref (item landmarks (mcp nodes)) ;;
  let tipAboveDip := y dip - y tip in
  let tipAbovePip := y pip - y tip in
  let tipAboveMcp := y mcp - y tip in
  let normalizedExtension := tipAboveMcp / handLength frame in
  w <- deref (item landmarks 0) ;;
  let tipToWrist := distance tip w in
  let mcpToWrist := distance mcp w in
  let extensionRatio := tipToWrist / mcpToWrist in
  let result zn sc ext dt : FR.t :=
    {| FR.zone := zn; FR.score := sc; FR.extended := Some ext; FR.curled := None;
       FR.pass := None; FR.inSafeZone := None; FR.violation := None;
       FR.severity := None; FR.ignored := None; FR.detail := Some dt;
       FR.finger := None; FR.fingerIndex := None; FR.isTarget := None |} in
  if (normalizedExtension >? 0.15) && (extensionRatio >? 1.3) then
    Returns (result GREEN (Math_min 1.0 (0.85 + normalizedExtension)) true "fully extended"%string)
  else if (normalizedExtension >? 0.08) && (extensionRatio >? 1.15) then
    Returns (result BLUE 0.75 true "well extended"%string)
  else if (normalizedExtension >? 0.02) && (extensionRatio >? 1.0) then
    Returns (result YELLOW 0.55 true "partially extended"%string)
  else if normalizedExtension >? -0.05 then
    Returns (result YELLOW 0.40 false "minimal extension"%string)
  else
    Returns (result RED 0.20 false "not extended"%string).

Definition evaluateNonTargetFinger (fingerIdx : Z) (landmarks : list Landmark)
    (boundaries : Boundaries) (frame : HandFrame) : outcome FR.t :=
  nodes <- deref (FINGER_NODES fingerIdx) ;;
  tip <- deref (item landmarks (tip nodes)) ;;
  let aboveGreen :=
    isAboveLine tip (start (greenBoundary boundaries)) (end_ (greenBoundary boundaries)) in
  let aboveAcceptable :=
    isAboveLine tip (start (acceptableBoundary boundaries))
                (end_ (acceptableBoundary boundaries)) in
  let result zn sc safe vi sev dt : FR.t :=
    {| FR.zone := zn; FR.score := sc; FR.extended := None; FR.curled := None;
       FR.pass := None; FR.inSafeZone := Some safe; FR.violation := Some vi;
       FR.severity := Some sev; FR.ignored := None; FR.detail := Some dt;
       FR.finger := None; FR.fingerIndex := None; FR.isTarget := None |} in
  if aboveGreen then
    Returns (result RED 0.3 false true "major" "finger extended into target zone")%string
  else if aboveAcceptable then
    Returns (result YELLOW 0.7 true false "none" "finger slightly raised but acceptable")%string
  else
    Returns (result GREEN 1.0 true false "none" "in safe zone")%string.

Definition evaluateThumb (landmarks : list Landmark) (frame : HandFrame)
    (isTarget : bool) : outcome FR.t :=
  let thumbTip := item landmarks 4 in
  let thumbIp := item landmarks 3 in
  let thumbMcp := item landmarks 2 in
  let indexMcp := item landmarks 5 in
  let wrist := item landmarks 0 in
  if isTarget then
    tt <- deref thumbTip ;;
    w <- deref wrist ;;
    tm <- deref thumbMcp ;;
    let tipToWrist := distance tt w in
    let mcpToWrist := distance tm w in
    let extensionRatio := tipToWrist / mcpToWrist in
    let thumbAwayFromPalm := distance tt (palmCenter frame) / handWidth frame in
    let result zn sc ps dt : FR.t :=
      {| FR.zone := zn; FR.score := sc; FR.extended := None; FR.curled := None;
         FR.pass := Some ps; FR.inSafeZone := None; FR.violation := None;
         FR.severity := None; FR.ignored := None; FR.detail := Some dt;
         FR.finger := None; FR.fingerIndex := None; FR.isTarget := None |} in
    if (extensionRatio >? 1.4) && (thumbAwayFromPalm >? 0.4) then
      Returns (result GREEN 1.0 true "thumb fully extended"%string)
    else if (extensionRatio >? 1.2) && (thumbAwayFromPalm >? 0.3) then
      Returns (result BLUE 0.75 true "thumb well extended"%string)
    else if extensionRatio >? 1.0 then
      Returns (result YELLOW 0.50 true "thumb partially extended"%string)
    else
      Returns (result RED 0.25 false "thumb not extended"%string)
  else
    tt <- deref thumbTip ;;
    im <- deref indexMcp ;;
    let thumbPastIndex := x tt <? x im - handWidth frame * 0.3 in
    w <- deref wrist ;;
    let thumbVeryExtended := distance tt w >? handLength frame * 0.6 in
    let result zn sc ign dt : FR.t :=
      {| FR.zone := zn; FR.score := sc; FR.extended := None; FR.curled := None;
         FR.pass := None; FR.inSafeZone := Some true; FR.violation := Some false;
         FR.severity := None; FR.ignored := ign; FR.detail := Some dt;
         FR.finger := None; FR.fingerIndex := None; FR.isTarget := None |} in
    if thumbPastIndex && thumbVeryExtended then
      Returns (result YELLOW 0.8 None "thumb extended but acceptable"%string)
    else
      Returns (result GREEN 1.0 (Some true) "thumb in safe zone (lenient)"%string).

(** ** Result objects of the exercise strategies *)

Module Viol.
Record t := {
  finger : option string;
  fingerIndex : option Z;
  severity : option string
}.
End Viol.

Module Iso.
Record t := {
  targets : list FR.t;
  nonTargets : list FR.t;
  thumb : option FR.t;
  violations : list Viol.t;
  overallZone : Zone;
  overallScore : float;
  passed : bool
}.
End Iso.

Module Pinch.
Record t := {
  distance : float;
  zone : Zone;
  score : float;
  passed : bool;
  violations : list Viol.t;
  involvedFingers : list Z;
  thumbHandling : string
}.
End Pinch.

Module Spread.
Record t := {
  fingerResults : list FR.t;
  extensionScore : float;
  gapScore : float;
  gaps : list float;
  zone : Zone;
  score : float;
  passed : bool
}.
End Spread.

Module Fist.
Record t := {
  fingerResults : list FR.t;
  zone : Zone;
  score : float;
  passed : bool
}.
End Fist.

Module Flat.
Record t := {
  fingerResults : list FR.t;
  extensionScore : float;
  togetherScore : float;
  zone : Zone;
  score : float;
  passed : bool
}.
End Flat.

Module Err.
Record t := {
  error : string;
  passed : bool;
  score : float;
  zone : Zone
}.
End Err.

(** [s === 'major'] on an optional string property. *)
Definition isMajor (s : option string) : bool :=
  match s with
  | Some v => String.eqb v "major"
  | None => false
  end.

(** ** Isolation *)

(** The local variables of [evaluateIsolation] that its loop updates. *)
Record IsoLoop := {
  results : Iso.t;
  targetScoreSum : float;
  targetCount : float;
  allTargetsOk : bool;
  hasMajorViolation : bool
}.

Definition isolationBody (landmarks : list Landmark) (targetFingers : list Z)
    (frame : HandFrame) (boundaries : Boundaries) (st : IsoLoop) (i : Z) : outcome IsoLoop :=
  let isTarget := includes targetFingers i in
  let fingerName := item FINGER_NAMES i in
  let res := results st in
  if (i =? 0)%Z then
    r <- evaluateThumb landmarks frame isTarget ;;
    let thumbResult := FR.tag r fingerName (Some i) (Some isTarget) in
    let res' := {| Iso.targets := Iso.targets res; Iso.nonTargets := Iso.nonTargets res;
                   Iso.thumb := Some thumbResult; Iso.violations := Iso.violations res;
                   Iso.overallZone := Iso.overallZone res;
                   Iso.overallScore := Iso.overallScore res; Iso.passed := Iso.passed res |} in
    if isTarget then
      Returns {| results := res';
                 targetScoreSum := targetScoreSum st + FR.score thumbResult;
                 targetCount := targetCount st + 1;
                 allTargetsOk :=
                   if negb (truthy (FR.pass thumbResult)) then false else allTargetsOk st;
                 hasMajorViolation := hasMajorViolation st |}
    else
      Returns {| results := res'; targetScoreSum := targetScoreSum st;
                 targetCount := targetCount st; allTargetsOk := allTargetsOk st;
                 hasMajorViolation := hasMajorViolation st |}
  else if isTarget then
    r <- evaluateTargetFinger i landmarks frame ;;
    let result := FR.tag r fingerName (Some i) (Some true) in
    let res' := {| Iso.targets := Iso.targets res ++ [result];
                   Iso.nonTargets := Iso.nonTargets res;
                   Iso.thumb := Iso.thumb res; Iso.violations := Iso.violations res;
                   Iso.overallZone := Iso.overallZone res;
                   Iso.overallScore := Iso.overallScore res; Iso.passed := Iso.passed res |} in
    Returns {| results := res';
               targetScoreSum := targetScoreSum st + FR.score result;
               targetCount := targetCount st + 1;
               allTargetsOk :=
                 if Zone_eqb (FR.zone result) RED then false else allTargetsOk st;
               hasMajorViolation := hasMajorViolation st |}
  else
    r <- evaluateNonTargetFinger i landmarks boundaries frame ;;
    let result := FR.tag r fingerName (Some i) (Some false) in
    let violations' :=
      if truthy (FR.violation result) then
        Iso.violations res ++
          [{| Viol.finger := fingerName; Viol.fingerIndex := Some i;
              Viol.severity := FR.severity result |}]
      else Iso.violations res in
    let res' := {| Iso.targets := Iso.targets res;
                   Iso.nonTargets := Iso.nonTargets res ++ [result];
                   Iso.thumb := Iso.thumb res; Iso.violations := violations';
                   Iso.overallZone := Iso.overallZone res;
                   Iso.overallScore := Iso.overallScore res; Iso.passed := Iso.passed res |} in
    Returns {| results := res'; targetScoreSum := targetScoreSum st;
               targetCount := targetCount st; allTargetsOk := allTargetsOk st;
               hasMajorViolation :=
                 if truthy (FR.violation result) && isMajor (FR.severity result)
                 then true else hasMajorViolation st |}.

Definition evaluateIsolation (landmarks : list Landmark) (targetFingers : list Z)
    : outcome Iso.t :=
  frame <- getHandFrame landmarks ;;
  boundaries <- createBoundariesForTargets
                  (filter (fun f => negb (f =? 0)%Z) targetFingers) landmarks frame ;;
  let results0 := {| Iso.targets := []; Iso.nonTargets := []; Iso.thumb := None;
                     Iso.violations := []; Iso.overallZone := RED;
                     Iso.overallScore := 0; Iso.passed := false |} in
  st <- forEach (isolationBody landmarks targetFingers frame boundaries) [0; 1; 2; 3; 4]%Z
          {| results := results0; targetScoreSum := 0; targetCount := 0;
             allTargetsOk := true; hasMajorViolation := false |} ;;
  let avgScore0 :=
    if targetCount st >? 0 then targetScoreSum st / targetCount st else 0 in
  let avgScore :=
    if hasMajorViolation st then avgScore0 * 0.5
    else if (0 <? List.length (Iso.violations (results st)))%nat then avgScore0 * 0.85
    else avgScore0 in
  let overallZone :=
    if avgScore >=? 0.85 then GREEN
    else if avgScore >=? 0.65 then BLUE
    else if avgScore >=? 0.40 then YELLOW
    else RED in
  Returns {| Iso.targets := Iso.targets (results st);
             Iso.nonTargets := Iso.nonTargets (results st);
             Iso.thumb := Iso.thumb (results st);
             Iso.violations := Iso.violations (results st);
             Iso.overallZone := overallZone;
             Iso.overallScore := avgScore;
             Iso.passed :=
               allTargetsOk st && negb (hasMajorViolation st) && (avgScore >=? 0.65) |}.

(** ** Pinch *)

Definition pinchBody (landmarks : list Landmark) (involvedFingers : list Z)
    (boundaries : Boundaries) (frame : HandFrame) (violations : list Viol.t) (i : Z)
    : outcome (list Viol.t) :=
  if includes involvedFingers i then Returns violations
  else
    result <- evaluateNonTargetFinger i landmarks boundaries frame ;;
    if truthy (FR.violation result) && isMajor (FR.severity result) then
      Returns (violations ++
                 [{| Viol.finger := item FINGER_NAMES i; Viol.fingerIndex := None;
                     Viol.severity := Some "major"%string |}])
    else Returns violations.

Definition evaluatePinch (landmarks : list Landmark) (pinchPair : list Z)
    : outcome Pinch.t :=
  frame <- getHandFrame landmarks ;;
  let tip1Idx := item pinchPair 0 in
  let tip2Idx := item pinchPair 1 in
  let tip1 := itemAt landmarks tip1Idx in
  let tip2 := itemAt landmarks tip2Idx in
  t1 <- deref tip1 ;;
  t2 <- deref tip2 ;;
  let dist := distance t1 t2 in
  let normalizedDist := dist / handWidth frame in
  let '(zone, score) :=
    if normalizedDist <? 0.05 then (GREEN, 1.0)
    else if normalizedDist <? 0.08 then (GREEN, 0.90)
    else if normalizedDist <? 0.12 then (BLUE, 0.75)
    else if normalizedDist <? 0.18 then (YELLOW, 0.55)
    else if normalizedDist <? 0.28 then (YELLOW, 0.40)
    else (RED, 0.20) in
  let involvedTips := [tip1Idx; tip2Idx] in
  let involvedFingers := map (indexOf ALL_TIPS) involvedTips in
  let nonThumbInvolved := filter (fun f => negb (f =? 0)%Z) involvedFingers in
  boundaries <- (if (0 <? List.length nonThumbInvolved)%nat
                 then createBoundariesForTargets nonThumbInvolved landmarks frame
                 else createBoundaryForFinger 2 landmarks frame) ;;
  violations <- forEach (pinchBody landmarks involvedFingers boundaries frame)
                  [1; 2; 3; 4]%Z [] ;;
  let penalised := (0 <? List.length violations)%nat in
  let finalScore := if penalised then score * 0.7 else score in
  let zone' := if penalised && Zone_eqb zone GREEN then BLUE else zone in
  Returns {| Pinch.distance := normalizedDist;
             Pinch.zone := zone';
             Pinch.score := finalScore;
             Pinch.passed := finalScore >=? 0.65;
             Pinch.violations := violations;
             Pinch.involvedFingers := involvedFingers;
             Pinch.thumbHandling := "lenient" |}.

(** ** Spread, fist and flat *)

(** The per-finger extension loop shared (textually) by spread and flat:
    accumulates the result objects and the sum of their scores. *)
Definition extensionBody (landmarks : list Landmark) (frame : HandFrame) (withIndex : bool)
    (st : list FR.t * float) (i : Z) : outcome (list FR.t * float) :=
  r <- (if (i =? 0)%Z then evaluateThumb landmarks frame true
        else evaluateTargetFinger i landmarks frame) ;;
  let result := FR.tag r (item FINGER_NAMES i) (if withIndex then Some i else None) None in
  Returns (fst st ++ [result], snd st + FR.score result).

Definition spreadGapBody (landmarks : list Landmark) (frame : HandFrame)
    (st : float * list float) (i : Z) : outcome (float * list float) :=
  a <- deref (itemAt landmarks (item ALL_TIPS i)) ;;
  b <- deref (itemAt landmarks (item ALL_TIPS (i + 1))) ;;
  let gap := distance a b in
  let normalizedGap := gap / handWidth frame in
  let gaps := snd st ++ [normalizedGap] in
  let gapScore := fst st in
  if normalizedGap >? 0.30 then Returns (gapScore + 1.0, gaps)
  else if normalizedGap >? 0.20 then Returns (gapScore + 0.80, gaps)
  else if normalizedGap >? 0.12 then Returns (gapScore + 0.60, gaps)
  else if normalizedGap >? 0.06 then Returns (gapScore + 0.40, gaps)
  else Returns (gapScore + 0.20, gaps).

Definition evaluateSpread (landmarks : list Landmark) : outcome Spread.t :=
  frame <- getHandFrame landmarks ;;
  st <- forEach (extensionBody landmarks frame true) [0; 1; 2; 3; 4]%Z ([], 0) ;;
  let '(results, totalScore) := st in
  let extensionScore := totalScore / 5 in
  gp <- forEach (spreadGapBody landmarks frame) [0; 1; 2; 3]%Z (0, []) ;;
  let '(gapScore0, gaps) := gp in
  let gapScore := gapScore0 / 4 in
  let finalScore := (extensionScore * 0.5) + (gapScore * 0.5) in
  let zone :=
    if finalScore >=? 0.85 then GREEN
    else if finalScore >=? 0.65 then BLUE
    else if finalScore >=? 0.45 then YELLOW
    else RED in
  Returns {| Spread.fingerResults := results;
             Spread.extensionScore := extensionScore;
             Spread.gapScore := gapScore;
             Spread.gaps := gaps;
             Spread.zone := zone;
             Spread.score := finalScore;
             Spread.passed := finalScore >=? 0.65 |}.

Definition fistBody (landmarks : list Landmark) (frame : HandFrame)
    (st : list FR.t * float) (i : Z) : outcome (list FR.t * float) :=
  nodes <- deref (FINGER_NODES i) ;;
  tip <- deref (item landmarks (tip nodes)) ;;
  mcp <- deref (item landmarks (mcp nodes)) ;;
  let tipBelowMcp := y tip - y mcp in
  let normalizedCurl := tipBelowMcp / handLength frame in
  w <- deref (item landmarks 0) ;;
  let tipToWrist := distance tip w in
  let mcpToWrist := distance mcp w in
  let curlRatio := tipToWrist / mcpToWrist in
  let '(zone, score, curled) :=
    if (normalizedCurl >? 0.08) && (curlRatio <? 0.9) then (GREEN, 1.0, true)
    else if (normalizedCurl >? 0.02) && (curlRatio <? 1.0) then (BLUE, 0.75, true)
    else if (normalizedCurl >? -0.05) && (curlRatio <? 1.1) then (YELLOW, 0.50, true)
    else (RED, 0.25, false) in
  let result :=
    {| FR.zone := zone; FR.score := score; FR.extended := None; FR.curled := Some curled;
       FR.pass := None; FR.inSafeZone := None; FR.violation := None;
       FR.severity := None; FR.ignored := None; FR.detail := None;
       FR.finger := item FINGER_NAMES i; FR.fingerIndex := Some i;
       FR.isTarget := None |} in
  Returns (fst st ++ [result], snd st + score).

Definition evaluateFist (landmarks : list Landmark) : outcome Fist.t :=
  frame <- getHandFrame landmarks ;;
  st <- forEach (fistBody landmarks frame) [0; 1; 2; 3; 4]%Z ([], 0) ;;
  let '(results, totalScore) := st in
  let finalScore := totalScore / 5 in
  let zone :=
    if finalScore >=? 0.80 then GREEN
    else if finalScore >=? 0.60 then BLUE
    else if finalScore >=? 0.45 then YELLOW
    else RED in
  Returns {| Fist.fingerResults := results;
             Fist.zone := zone;
             Fist.score := finalScore;
             Fist.passed := finalScore >=? 0.55 |}.

Definition flatGapBody (landmarks : list Landmark) (frame : HandFrame)
    (togetherScore : float) (i : Z) : outcome float :=
  a <- deref (itemAt landmarks (item ALL_TIPS i)) ;;
  b <- deref (itemAt landmarks (item ALL_TIPS (i + 1))) ;;
  let gap := distance a b in
  let normalizedGap := gap / handWidth frame in
  if normalizedGap <? 0.06 then Returns (togetherScore + 1.0)
  else if normalizedGap <? 0.10 then Returns (togetherScore + 0.80)
  else if normalizedGap <? 0.15 then Returns (togetherScore + 0.60)
  else if normalizedGap <? 0.22 then Returns (togetherScore + 0.40)
  else Returns (togetherScore + 0.20).

Definition evaluateFlat (landmarks : list Landmark) : outcome Flat.t :=
  frame <- getHandFrame landmarks ;;
  st <- forEach (extensionBody landmarks frame false) [0; 1; 2; 3; 4]%Z ([], 0) ;;
  let '(results, extensionScore0) := st in
  let extensionScore := extensionScore0 / 5 in
  togetherScore0 <- forEach (flatGapBody landmarks frame) [0; 1; 2; 3]%Z 0 ;;
  let togetherScore := togetherScore0 / 4 in
  let finalScore := (extensionScore * 0.6) + (togetherScore * 0.4) in
  let zone :=
    if finalScore >=? 0.85 then GREEN
    else if finalScore >=? 0.65 then BLUE
    else if finalScore >=? 0.45 then YELLOW
    else RED in
  Returns {| Flat.fingerResults := results;
             Flat.extensionScore := extensionScore;
             Flat.togetherScore := togetherScore;
             Flat.zone := zone;
             Flat.score := finalScore;
             Flat.passed := finalScore >=? 0.65 |}.

(** ** The dispatcher *)

Record Exercise := {
  type : option string;
  targetFingers : option (list Z);
  pinchPair : option (list Z)
}.

Inductive EvaluationResult :=
| IsolationResult (r : Iso.t)
| PinchResult (r : Pinch.t)
| SpreadResult (r : Spread.t)
| FistResult (r : Fist.t)
| FlatResult (r : Flat.t)
| ErrorResult (r : Err.t).

(** [v || dflt] on an optional array (every array, even an empty one, is truthy). *)
Definition orElse {A} (v : option A) (dflt : A) : A :=
  match v with Some a => a | None => dflt end.

Definition typeIs (t : option string) (s : string) : bool :=
  match t with Some v => String.eqb v s | None => false end.

(** [evaluate(landmarks, exercise)]; a [null] or [undefined] argument is [None]. *)
Definition evaluate (landmarks : option (list Landmark)) (exercise : option Exercise)
    : outcome EvaluationResult :=
  match landmarks with
  | None =>
      Returns (ErrorResult {| Err.error := "Invalid landmarks"; Err.passed := false;
                              Err.score := 0; Err.zone := RED |})
  | Some lm =>
      if (Z.of_nat (List.length lm) <? 21)%Z then
        Returns (ErrorResult {| Err.error := "Invalid landmarks"; Err.passed := false;
                                Err.score := 0; Err.zone := RED |})
      else
        ex <- deref exercise ;;
        if typeIs (type ex) "isolation" then
          r <- evaluateIsolation lm (orElse (targetFingers ex) []) ;;
          Returns (IsolationResult r)
        else if typeIs (type ex) "pinch" then
          r <- evaluatePinch lm (orElse (pinchPair ex) [4; 8]%Z) ;;
          Returns (PinchResult r)
        else if typeIs (type ex) "spread" then
          r <- evaluateSpread lm ;; Returns (SpreadResult r)
        else if typeIs (type ex) "fist" then
          r <- evaluateFist lm ;; Returns (FistResult r)
        else if typeIs (type ex) "flat" then
          r <- evaluateFlat lm ;; Returns (FlatResult r)
        else
          Returns (ErrorResult {| Err.error := "Unknown type"; Err.passed := false;
                                  Err.score := 0; Err.zone := RED |})
  end.

(** [getZoneFromScore]: the shared four-tier scale. *)
Definition getZoneFromScore (score : float) : Zone :=
  if score >=? 0.85 then GREEN
  else if score >=? 0.65 then BLUE
  else if score >=? 0.40 then YELLOW
  else RED.

(** ** Sample inputs *)

Definition P (a b : float) : Landmark := {| x := a; y := b; z := Some 0 |}.

(** An open hand, wrist at the bottom of the image, fingers pointing up. *)
Definition openHand : list Landmark :=
  [ P 0.50 0.90;
    P 0.40 0.80; P 0.32 0.72; P 0.26 0.64; P 0.20 0.56;
    P 0.42 0.60; P 0.40 0.48; P 0.39 0.40; P 0.38 0.32;
    P 0.50 0.58; P 0.50 0.45; P 0.50 0.36; P 0.50 0.28;
    P 0.57 0.60; P 0.59 0.48; P 0.60 0.40; P 0.61 0.33;
    P 0.64 0.64; P 0.68 0.55; P 0.70 0.49; P 0.72 0.43 ].

(** The first 18 landmarks of the open hand. *)
Definition shortHand : list Landmark := firstn 18 openHand.

Definition isolationOf (fingers : list Z) : Exercise :=
  {| type := Some "isolation"%string; targetFingers := Some fingers; pinchPair := None |}.

(** ** Vocabulary of the properties *)

(** The landmark argument is missing or too short. *)
Definition invalidLandmarks (landmarks : option (list Landmark)) : Prop :=
  match landmarks with
  | None => True
  | Some lm => (List.length lm < 21)%nat
  end.

(** The exercise is an object whose [type] is none of the five known ones. *)
Definition unknownType (exercise : option Exercise) : Prop :=
  exists ex, exercise = Some ex /\
    forall s, In s ["isolation"; "pinch"; "spread"; "fist"; "flat"]%string ->
              type ex <> Some s.

Definition failureResult (message : string) : EvaluationResult :=
  ErrorResult {| Err.error := message; Err.passed := false; Err.score := 0; Err.zone := RED |}.

(** Landmark [p] is the joint [sel] ([mcp], [pip], [dip] or [tip]) of finger
    [fingerIdx]. *)
Definition jointOf (landmarks : list Landmark) (fingerIdx : Z) (sel : FingerNodes -> Z)
    (p : Landmark) : Prop :=
  exists nodes, FINGER_NODES fingerIdx = Some nodes /\ item landmarks (sel nodes) = Some p.

(** The y-coordinate of a boundary line at a given x: linear interpolation
    between its end points, or their mean y when the line is near-vertical. *)
Definition lineYAt (line : BoundaryLine) (px : float) : float :=
  if abs (x (end_ line) - x (start line)) <? 0.0001 then
    (y (start line) + y (end_ line)) / 2
  else
    y (start line)
    + ((y (end_ line) - y (start line)) / (x (end_ line) - x (start line)))
      * (px - x (start line)).

(** A point is above a line when its y is less than the line's y at its x. *)
Definition above (p : Landmark) (line : BoundaryLine) : bool :=
  y p <? lineYAt line (x p).

Definition frameOrZero (o : outcome HandFrame) : HandFrame :=
  match o with
  | Returns frame => frame
  | Throws _ => {| wrist := P 0 0; handLength := 0; handWidth := 0; palmCenter := P 0 0 |}
  end.

Definition openHandFrame : HandFrame := frameOrZero (getHandFrame openHand).

(** A line is horizontal through a joint, reaching 1.5 hand widths to either
    side of it. *)
Definition horizontalAt (line : BoundaryLine) (joint : Landmark) (handWidth : float) : Prop :=
  y (start line) = y joint /\ y (end_ line) = y joint /\
  x (start line) = x joint - handWidth * 1.5 /\
  x (end_ line) = x joint + handWidth * 1.5.

(** A line is the segment from one joint to another. *)
Definition connects (line : BoundaryLine) (a b : Landmark) : Prop :=
  start line = a /\ end_ line = b.

(** The boundaries of the open hand when the index finger is the only target. *)
Definition openHandIndexBoundaries : Boundaries :=
  let line (p : Landmark) (lv : string) (node : Z) :=
    {| start := {| x := x p - handWidth openHandFrame * 1.5; y := y p; z := None |};
       end_ := {| x := x p + handWidth openHandFrame * 1.5; y := y p; z := None |};
       level := lv; referenceNode := Some node |} in
  {| greenBoundary := line (P 0.40 0.48) "GREEN"%string 6%Z;
     acceptableBoundary := line (P 0.39 0.40) "ACCEPTABLE"%string 7%Z;
     lowBoundary := line (P 0.42 0.60) "LOW"%string 5%Z |}.

(** The target results of an isolation result: the thumb's when the thumb is
    a target, then those of the target fingers 1-4. *)
Definition isoTargetResults (r : Iso.t) : list FR.t :=
  match Iso.thumb r with
  | Some t => if truthy (FR.isTarget t) then [t] else []
  | None => []
  end ++ Iso.targets r.

(** An array length as a JS number. *)
Definition floatOfNat (n : nat) : float := of_uint63 (Uint63.of_Z (Z.of_nat n)).

(** Arithmetic mean, taken as 0 for no scores at all. *)
Definition meanScore (scores : list float) : float :=
  match scores with
  | [] => 0
  | _ => fold_left PrimFloat.add scores 0 / floatOfNat (List.length scores)
  end.

(** A target is individually ok: the thumb when its [pass] is set, a finger
    1-4 when its zone is not RED. *)
Definition targetOk (f : FR.t) : bool :=
  match FR.fingerIndex f with
  | Some 0%Z => truthy (FR.pass f)
  | _ => negb (Zone_eqb (FR.zone f) RED)
  end.

Definition violationOf (f : FR.t) : Viol.t :=
  {| Viol.finger := FR.finger f; Viol.fingerIndex := FR.fingerIndex f;
     Viol.severity := FR.severity f |}.

Definition nonThumb (targetFingers : list Z) : list Z :=
  filter (fun f => negb (f =? 0)%Z) targetFingers.

(** The per-finger entries of an isolation result are what the three
    classifiers return: the thumb classifier for finger 0, the target
    classifier for the targets among 1-4, the non-target classifier (against
    the boundaries of the non-thumb targets) for the others; the violations
    are the non-target entries whose [violation] is set. *)
Definition classifiedBy (landmarks : list Landmark) (targetFingers : list Z) (r : Iso.t)
    : Prop :=
  exists frame boundaries thumb0,
    getHandFrame landmarks = Returns frame /\
    createBoundariesForTargets (nonThumb targetFingers) landmarks frame
    = Returns boundaries /\
    evaluateThumb landmarks frame (includes targetFingers 0) = Returns thumb0 /\
    Iso.thumb r = Some (FR.tag thumb0 (Some "thumb"%string) (Some 0%Z)
                               (Some (includes targetFingers 0))) /\
    Forall2 (fun i f => exists r0, evaluateTargetFinger i landmarks frame = Returns r0 /\
                        f = FR.tag r0 (item FINGER_NAMES i) (Some i) (Some true))
            (filter (includes targetFingers) [1; 2; 3; 4]%Z) (Iso.targets r) /\
    Forall2 (fun i f => exists r0,
                        evaluateNonTargetFinger i landmarks boundaries frame = Returns r0 /\
                        f = FR.tag r0 (item FINGER_NAMES i) (Some i) (Some false))
            (filter (fun i => negb (includes targetFingers i)) [1; 2; 3; 4]%Z)
            (Iso.nonTargets r) /\
    Iso.violations r
    = map violationOf (filter (fun f => truthy (FR.violation f)) (Iso.nonTargets r)).

(** A binary64 value that is at least 1: +Infinity, or a positive finite
    number with exponent above -52, or with exponent -52 and a mantissa of
    at least 2^52. *)
Definition geOne (s : spec_float) : Prop :=
  s = S754_infinity false \/
  exists m e, s = S754_finite false m e /\ ((-52 < e)%Z \/ (e = -52 /\ 2 ^ 52 <= Zpos m)%Z).

(** The six distance bands of the pinch. *)
Definition pinchBand (d : float) : Zone * float :=
  if d <? 0.05 then (GREEN, 1.0)
  else if d <? 0.08 then (GREEN, 0.90)
  else if d <? 0.12 then (BLUE, 0.75)
  else if d <? 0.18 then (YELLOW, 0.55)
  else if d <? 0.28 then (YELLOW, 0.40)
  else (RED, 0.20).

(** The non-target classifier flags finger [i] with a major violation. *)
Definition majorViolator (landmarks : list Landmark) (boundaries : Boundaries)
    (frame : HandFrame) (i : Z) : bool :=
  match evaluateNonTargetFinger i landmarks boundaries frame with
  | Returns nt => truthy (FR.violation nt) && isMajor (FR.severity nt)
  | Throws _ => false
  end.

Definition pinchViolation (i : Z) : Viol.t :=
  {| Viol.finger := item FINGER_NAMES i; Viol.fingerIndex := None;
     Viol.severity := Some "major"%string |}.

(** What a pinch result is made of: the normalised tip-to-tip distance, its
    band, the fingers 1-4 that are not involved and are flagged with a major
    violation against the boundaries of the involved non-thumb fingers (the
    middle finger's when there is none), and the penalty they bring. *)
Definition pinchResultOf (landmarks : list Landmark) (pinchPair : list Z) (r : Pinch.t)
    : Prop :=
  exists frame t1 t2 boundaries,
    getHandFrame landmarks = Returns frame /\
    itemAt landmarks (item pinchPair 0) = Some t1 /\
    itemAt landmarks (item pinchPair 1) = Some t2 /\
    let involved := [indexOf ALL_TIPS (item pinchPair 0); indexOf ALL_TIPS (item pinchPair 1)] in
    (if (0 <? List.length (nonThumb involved))%nat
     then createBoundariesForTargets (nonThumb involved) landmarks frame
     else createBoundaryForFinger 2 landmarks frame) = Returns boundaries /\
    let d := distance t1 t2 / handWidth frame in
    let penalised := (0 <? List.length (Pinch.violations r))%nat in
    Pinch.distance r = d /\
    Pinch.involvedFingers r = involved /\
    Pinch.violations r
    = map pinchViolation
          (filter (fun i => negb (includes involved i)
                            && majorViolator landmarks boundaries frame i)
                  [1; 2; 3; 4]%Z) /\
    Pinch.score r = (if penalised then snd (pinchBand d) * 0.7 else snd (pinchBand d)) /\
    Pinch.zone r = (if penalised && Zone_eqb (fst (pinchBand d)) GREEN then BLUE
                    else fst (pinchBand d)) /\
    Pinch.passed r = (Pinch.score r >=? 0.65).

(** A pinch pair of two tip nodes. *)
Definition tipPair (pinchPair : list Z) : Prop :=
  exists a b, pinchPair = [a; b] /\ In a ALL_TIPS /\ In b ALL_TIPS.

(** Two points at the same position, the depth read as [z || 0]. *)
Definition coincident (p q : Landmark) : Prop :=
  x p = x q /\ y p = y q /\ orZero (z p) = orZero (z q).

Definition finiteCoordinates (p : Landmark) : Prop :=
  is_finite (x p) = true /\ is_finite (y p) = true /\ is_finite (orZero (z p)) = true.

(** The open hand with the thumb folded over so that its tip touches the
    index fingertip. *)
Definition pinchedHand : list Landmark :=
  [ P 0.50 0.90;
    P 0.40 0.80; P 0.36 0.66; P 0.37 0.50; P 0.38 0.32;
    P 0.42 0.60; P 0.40 0.48; P 0.39 0.40; P 0.38 0.32;
    P 0.50 0.58; P 0.50 0.45; P 0.50 0.36; P 0.50 0.28;
    P 0.57 0.60; P 0.59 0.48; P 0.60 0.40; P 0.61 0.33;
    P 0.64 0.64; P 0.68 0.55; P 0.70 0.49; P 0.72 0.43 ].

(** Exercise descriptors of type pinch and isolation with the given optional
    fields. *)
Definition pinchOf (fingers : option (list Z)) (pair : option (list Z)) : Exercise :=
  {| type := Some "pinch"%string; targetFingers := fingers; pinchPair := pair |}.

Definition isolationWith (fingers : option (list Z)) (pair : option (list Z)) : Exercise :=
  {| type := Some "isolation"%string; targetFingers := fingers; pinchPair := pair |}.

(** The scores the classifiers hand out. *)
Definition targetScores : list float := [1.0; 0.75; 0.55; 0.40; 0.20].
Definition nonTargetScores : list float := [0.3; 0.7; 1.0].
Definition thumbTargetScores : list float := [1.0; 0.75; 0.50; 0.25].
Definition thumbNonTargetScores : list float := [0.8; 1.0].

(** A score within [0, 1]. *)
Definition inUnit (s : float) : bool := (0 <=? s) && (s <=? 1).

(** All lists over [vals] of length at most [n]. *)
Fixpoint listsUpTo (vals : list float) (n : nat) : list (list float) :=
  match n with
  | O => [[]]
  | S k => [] :: flat_map (fun v => map (cons v) (listsUpTo vals k)) vals
  end.

(** A list without repeated numbers. *)
Fixpoint dedup (l : list float) : list float :=
  match l with
  | [] => []
  | a :: rest => if existsb (Leibniz.eqb a) rest then dedup rest else a :: dedup rest
  end.

(** All sums of a number of [acc] and a number of [vals]. *)
Definition addAll (acc vals : list float) : list float :=
  dedup (flat_map (fun a => map (PrimFloat.add a) vals) acc).

(** The contributions of one gap (spread and flat) and of one finger (fist). *)
Definition gapScores : list float := [1.0; 0.80; 0.60; 0.40; 0.20].
Definition fistScores : list float := [1.0; 0.75; 0.50; 0.25].

(** The sums the loops of spread, flat and fist can reach. *)
Definition extensionTotals : list float :=
  addAll (addAll (addAll (addAll (addAll [0] thumbTargetScores) targetScores)
                         targetScores) targetScores) targetScores.

Definition gapTotals : list float :=
  addAll (addAll (addAll (addAll [0] gapScores) gapScores) gapScores) gapScores.

Definition fistTotals : list float :=
  addAll (addAll (addAll (addAll (addAll [0] fistScores) fistScores) fistScores)
                 fistScores) fistScores.

(** One of the four zones. *)
Definition knownZone (zn : Zone) : Prop := In zn [GREEN; BLUE; YELLOW; RED].

Definition fingerInRange (f : FR.t) : Prop :=
  inUnit (FR.score f) = true /\ knownZone (FR.zone f).

(** Every score field of a result, overall and per finger, lies in [0, 1],
    and every zone field is one of the four zones. *)
Definition scoresInRange (r : EvaluationResult) : Prop :=
  match r with
  | IsolationResult i =>
      inUnit (Iso.overallScore i) = true /\ knownZone (Iso.overallZone i) /\
      Forall fingerInRange (Iso.targets i) /\ Forall fingerInRange (Iso.nonTargets i) /\
      (forall t, Iso.thumb i = Some t -> fingerInRange t)
  | PinchResult p => inUnit (Pinch.score p) = true /\ knownZone (Pinch.zone p)
  | SpreadResult s =>
      inUnit (Spread.score s) = true /\ inUnit (Spread.extensionScore s) = true /\
      inUnit (Spread.gapScore s) = true /\ knownZone (Spread.zone s) /\
      Forall fingerInRange (Spread.fingerResults s)
  | FistResult f =>
      inUnit (Fist.score f) = true /\ knownZone (Fist.zone f) /\
      Forall fingerInRange (Fist.fingerResults f)
  | FlatResult f =>
      inUnit (Flat.score f) = true /\ inUnit (Flat.extensionScore f) = true /\
      inUnit (Flat.togetherScore f) = true /\ knownZone (Flat.zone f) /\
      Forall fingerInRange (Flat.fingerResults f)
  | ErrorResult e => inUnit (Err.score e) = true /\ knownZone (Err.zone e)
  end.

(** A descriptor within its contract: target fingers among 0-4, a pinch pair
    of two tip nodes. *)
Definition validDescriptor (ex : Exercise) : Prop :=
  match targetFingers ex with
  | Some fingers => Forall (fun t => (0 <= t <= 4)%Z) fingers
  | None => True
  end /\
  match pinchPair ex with
  | Some tips => tipPair tips
  | None => True
  end.

(** A degenerate hand: all 21 landmarks at one point, so that hand length
    and hand width are both 0. *)
Definition collapsedHand : list Landmark := repeat (P 0.5 0.5) 21.

Definition spreadExercise : Exercise :=
  {| type := Some "spread"%string; targetFingers := None; pinchPair := None |}.

Definition spreadOfCollapsedHand : outcome EvaluationResult :=
  evaluate (Some collapsedHand) (Some spreadExercise).

(** The result of the spread exercise on the degenerate hand. *)
Definition collapsedSpread : EvaluationResult :=
  match spreadOfCollapsedHand with
  | Returns r => r
  | Throws _ => failureResult "Invalid landmarks"
  end.

(** ** The rest of the public API *)

Definition ALL_DIPS : list Z := [3; 7; 11; 15; 19]%Z.
Definition ALL_PIPS : list Z := [2; 6; 10; 14; 18]%Z.
Definition ALL_MCPS : list Z := [1; 5; 9; 13; 17]%Z.

(** [Math.max] of two numbers: NaN if one is NaN; +0 counts as more than -0. *)
Definition Math_max (a b : float) : float :=
  if is_nan a || is_nan b then nan
  else if a <? b then b
  else if b <? a then a
  else match classify b with PZero => b | _ => a end.

(** [distanceToLine]: distance from a point to the nearest point of a
    segment, in hand lengths. *)
Definition distanceToLine (point lineStart lineEnd : Landmark) (handLength : float) : float :=
  let A := x point - x lineStart in
  let B := y point - y lineStart in
  let C := x lineEnd - x lineStart in
  let D := y lineEnd - y lineStart in
  let dot := A * C + B * D in
  let lenSq := C * C + D * D in
  if lenSq =? 0 then distance2D point lineStart / handLength
  else
    let param := Math_max 0 (Math_min 1 (dot / lenSq)) in
    let nearest :=
      {| x := x lineStart + param * C; y := y lineStart + param * D; z := None |} in
    distance2D point nearest / handLength.

(** [isValidFist(landmarks)]; a [null] or [undefined] argument is [None]. *)
Definition isValidFist (landmarks : option (list Landmark)) : outcome bool :=
  match landmarks with
  | None => Returns false
  | Some lm =>
      if (Z.of_nat (List.length lm) <? 21)%Z then Returns false
      else r <- evaluateFist lm ;; Returns (Fist.passed r)
  end.

(** [FINGER_NODES[fingerIndex]?.tip || 8]. *)
Definition getTipNode (fingerIndex : Z) : Z :=
  match FINGER_NODES fingerIndex with
  | Some nodes => if (tip nodes =? 0)%Z then 8%Z else tip nodes
  | None => 8%Z
  end.

Definition _debugGetBoundaries (landmarks : list Landmark) (targetFingers : list Z)
    : outcome Boundaries :=
  frame <- getHandFrame landmarks ;;
  createBoundariesForTargets targetFingers landmarks frame.

(** ** Random draws ([Math.random], [Math.floor]) *)

(** [Math.floor] of a number, as the integer it denotes; [None] for NaN and
    the infinities, which denote none. *)
Definition Math_floor (f : float) : option Z :=
  match Prim2SF f with
  | S754_zero _ => Some 0%Z
  | S754_finite s m e =>
      let v := if s then Zneg m else Zpos m in
      Some (if (0 <=? e)%Z then v * 2 ^ e else v / 2 ^ (- e))%Z
  | _ => None
  end.

(** The contract of [Math.random]: a number that is at least 0 and less than 1. *)
Definition unitDraw (r : float) : Prop := (0 <=? r) = true /\ (r <? 1) = true.

(** The successive results of [Math.random()]: the [k]-th call returns
    [random k]; the functions that draw take the number of calls made so far
    and give back the number after them. *)
Definition Draws := nat -> float.

(** ** Array helpers *)

(** [arr[k] = v] for an index inside the array. *)
Fixpoint update {A} (arr : list A) (k : nat) (v : A) : list A :=
  match arr, k with
  | [], _ => []
  | _ :: rest, O => v :: rest
  | a :: rest, S k' => a :: update rest k' v
  end.

(** [[arr[i], arr[j]] = [arr[j], arr[i]]] for two indices inside the array;
    [None] if one of them is not (the source never gets there, see
    [random_index_in_range]). *)
Definition swap {A} (arr : list A) (i j : Z) : option (list A) :=
  match item arr i, item arr j with
  | Some a, Some b => Some (update (update arr (Z.to_nat i) b) (Z.to_nat j) a)
  | _, _ => None
  end.

(** [arr.slice(0, end)]: a negative [end] counts from the end of the array. *)
Definition sliceTo {A} (arr : list A) (end_ : Z) : list A :=
  if (end_ <? 0)%Z then firstn (Z.to_nat (Z.of_nat (List.length arr) + end_)) arr
  else firstn (Z.to_nat end_) arr.

(** ** The exercise library ([HandHeroExercises.js]) *)

Module HandHeroExercises.

Record ExerciseDef := {
  id : string;
  name : string;
  icon : string;
  category : string;
  desc : string;
  difficulty : Z;
  type : string;
  targetFingers : option (list Z);
  pinchPair : option (list Z)
}.

Open Scope string_scope.

(** The object literal [EXERCISES]: its own properties, in insertion order
    (the order of [Object.values] and [Object.keys], no key being an
    integer). *)
Definition EXERCISES : list (string * ExerciseDef) := [
  ("thumbs_up", {| id := "thumbs_up"; name := "Thumbs Up"; icon := "👍"; category := "Isolation";
     desc := "Extend only your thumb"; difficulty := 2; type := "isolation";
     targetFingers := Some [0]%Z; pinchPair := None |});
  ("pointer", {| id := "pointer"; name := "Pointer Finger"; icon := "☝️"; category := "Isolation";
     desc := "Extend only your index finger"; difficulty := 2; type := "isolation";
     targetFingers := Some [1]%Z; pinchPair := None |});
  ("middle_finger_lift", {| id := "middle_finger_lift"; name := "Middle Finger Lift"; icon := "🖕"; category := "Isolation";
     desc := "Extend only your middle finger"; difficulty := 3; type := "isolation";
     targetFingers := Some [2]%Z; pinchPair := None |});
  ("ring_finger_lift", {| id := "ring_finger_lift"; name := "Ring Finger Lift"; icon := "💍"; category := "Advanced";
     desc := "Extend only your ring finger"; difficulty := 4; type := "isolation";
     targetFingers := Some [3]%Z; pinchPair := None |});
  ("pinky_out", {| id := "pinky_out"; name := "Pinky Extension"; icon := "🤙"; category := "Isolation";
     desc := "Extend only your pinky finger"; difficulty := 3; type := "isolation";
     targetFingers := Some [4]%Z; pinchPair := None |});
  ("peace", {| id := "peace"; name := "Peace Sign"; icon := "✌️"; category := "Coordination";
     desc := "Extend index and middle fingers"; difficulty := 2; type := "isolation";
     targetFingers := Some [1; 2]%Z; pinchPair := None |});
  ("rock_on", {| id := "rock_on"; name := "Rock On"; icon := "🤘"; category := "Advanced";
     desc := "Extend index and pinky only"; difficulty := 4; type := "isolation";
     targetFingers := Some [1; 4]%Z; pinchPair := None |});
  ("hang_loose", {| id := "hang_loose"; name := "Hang Loose"; icon := "🤙"; category := "Coordination";
     desc := "Extend thumb and pinky only"; difficulty := 3; type := "isolation";
     targetFingers := Some [0; 4]%Z; pinchPair := None |});
  ("bunny_ears", {| id := "bunny_ears"; name := "Bunny Ears"; icon := "🐰"; category := "Coordination";
     desc := "Extend index and middle fingers"; difficulty := 2; type := "isolation";
     targetFingers := Some [1; 2]%Z; pinchPair := None |});
  ("three_fingers", {| id := "three_fingers"; name := "Scout Salute"; icon := "🖖"; category := "Coordination";
     desc := "Extend index, middle, and ring"; difficulty := 3; type := "isolation";
     targetFingers := Some [1; 2; 3]%Z; pinchPair := None |});
  ("four_fingers", {| id := "four_fingers"; name := "Four Up"; icon := "🖐️"; category := "Coordination";
     desc := "Extend all fingers except thumb"; difficulty := 2; type := "isolation";
     targetFingers := Some [1; 2; 3; 4]%Z; pinchPair := None |});
  ("ok_sign", {| id := "ok_sign"; name := "OK Sign"; icon := "👌"; category := "Precision";
     desc := "Touch thumb to index tip"; difficulty := 2; type := "pinch";
     targetFingers := None; pinchPair := Some [4; 8]%Z |});
  ("thumb_to_middle", {| id := "thumb_to_middle"; name := "Thumb to Middle"; icon := "🤌"; category := "Precision";
     desc := "Touch thumb to middle fingertip"; difficulty := 2; type := "pinch";
     targetFingers := None; pinchPair := Some [4; 12]%Z |});
  ("thumb_to_ring", {| id := "thumb_to_ring"; name := "Thumb to Ring"; icon := "🤏"; category := "Precision";
     desc := "Touch thumb to ring fingertip"; difficulty := 3; type := "pinch";
     targetFingers := None; pinchPair := Some [4; 16]%Z |});
  ("thumb_to_pinky", {| id := "thumb_to_pinky"; name := "Thumb to Pinky"; icon := "🤙"; category := "Precision";
     desc := "Touch thumb to pinky tip"; difficulty := 3; type := "pinch";
     targetFingers := None; pinchPair := Some [4; 20]%Z |});
  ("starfish", {| id := "starfish"; name := "Starfish Spread"; icon := "🖐️"; category := "Stretch";
     desc := "Spread all fingers wide"; difficulty := 1; type := "spread";
     targetFingers := None; pinchPair := None |});
  ("flat_hand", {| id := "flat_hand"; name := "Flat Hand"; icon := "🤚"; category := "Stretch";
     desc := "Fingers together, fully extended"; difficulty := 1; type := "flat";
     targetFingers := None; pinchPair := None |});
  ("fist", {| id := "fist"; name := "Gentle Fist"; icon := "✊"; category := "Strength";
     desc := "Curl all fingers into a fist"; difficulty := 1; type := "fist";
     targetFingers := None; pinchPair := None |})
].

Close Scope string_scope.

(** The property names every plain object inherits from [Object.prototype]
    (ECMAScript 20.1.3 and B.2.2).  Reading one of them off [EXERCISES]
    yields the inherited function (for [__proto__], the prototype object),
    which is truthy. *)
Definition ObjectPrototype : list string :=
  ["constructor"; "hasOwnProperty"; "isPrototypeOf"; "propertyIsEnumerable";
   "toLocaleString"; "toString"; "valueOf"; "__proto__"; "__defineGetter__";
   "__defineSetter__"; "__lookupGetter__"; "__lookupSetter__"]%string.

(** What [EXERCISES[key] || null] can be. *)
Inductive Lookup :=
| Found (e : ExerciseDef)
| Inherited (property : string)
| Null.

Fixpoint ownProperty (props : list (string * ExerciseDef)) (key : string)
    : option ExerciseDef :=
  match props with
  | [] => None
  | (k, e) :: rest => if String.eqb k key then Some e else ownProperty rest key
  end.

Definition getAllExercises : list ExerciseDef := map snd EXERCISES.

Definition getExercise (key : string) : Lookup :=
  match ownProperty EXERCISES key with
  | Some e => Found e
  | None => if existsb (String.eqb key) ObjectPrototype then Inherited key else Null
  end.

Definition getByCategory (c : string) : list ExerciseDef :=
  filter (fun e => String.eqb (category e) c) getAllExercises.

Definition getByDifficulty (d : Z) : list ExerciseDef :=
  filter (fun e => (difficulty e =? d)%Z) getAllExercises.

Definition getByType (t : string) : list ExerciseDef :=
  filter (fun e => String.eqb (type e) t) getAllExercises.

Definition isNull (v : Lookup) : bool :=
  match v with Null => true | _ => false end.

Definition buildCustomSession (exerciseIds : list string) : list Lookup :=
  filter (fun e => negb (isNull e)) (map getExercise exerciseIds).

(** [shuffle]: Fisher-Yates, from the last index down to 1. *)
Fixpoint shuffleFrom {A} (random : Draws) (i : nat) (arr : list A) (calls : nat)
    : option (list A * nat) :=
  match i with
  | O => Some (arr, calls)
  | S i' =>
      match Math_floor (random calls * floatOfNat (i + 1)) with
      | Some j =>
          match swap arr (Z.of_nat i) j with
          | Some arr' => shuffleFrom random i' arr' (S calls)
          | None => None
          end
      | None => None
      end
  end.

Definition shuffle {A} (random : Draws) (array : list A) (calls : nat)
    : option (list A * nat) :=
  shuffleFrom random (List.length array - 1) array calls.

(** [buildSession(count)]; [count] is 8 when it is not given. *)
Definition buildSession (random : Draws) (count : option Z) (calls : nat)
    : option (list ExerciseDef * nat) :=
  let count := orElse count 8%Z in
  let byDiff d := filter (fun e => (difficulty e =? d)%Z) getAllExercises in
  match
    (if (8 <=? count)%Z then
       match shuffle random (byDiff 1%Z) calls with
       | Some (s1, c1) =>
           match shuffle random (byDiff 2%Z) c1 with
           | Some (s2, c2) =>
               match shuffle random (byDiff 3%Z) c2 with
               | Some (s3, c3) =>
                   match shuffle random (byDiff 4%Z) c3 with
                   | Some (s4, c4) =>
                       Some (sliceTo s1 2 ++ sliceTo s2 3 ++ sliceTo s3 2 ++ sliceTo s4 1, c4)
                   | None => None
                   end
               | None => None
               end
           | None => None
           end
       | None => None
       end
     else if (5 <=? count)%Z then
       match shuffle random (byDiff 1%Z) calls with
       | Some (s1, c1) =>
           match shuffle random (byDiff 2%Z) c1 with
           | Some (s2, c2) =>
               match shuffle random (byDiff 3%Z) c2 with
               | Some (s3, c3) => Some (sliceTo s1 1 ++ sliceTo s2 2 ++ sliceTo s3 2, c3)
               | None => None
               end
           | None => None
           end
       | None => None
       end
     else
       match shuffle random getAllExercises calls with
       | Some (s, c) => Some (sliceTo s count, c)
       | None => None
       end)
  with
  | Some (selected, c) =>
      match shuffle random selected c with
      | Some (s, c') => Some (sliceTo s count, c')
      | None => None
      end
  | None => None
  end.

(** [buildCategorySession(category, count)] and [buildTypeSession(type,
    count)]; [count] is 6 when it is not given. *)
Definition buildCategorySession (random : Draws) (c : string) (count : option Z)
    (calls : nat) : option (list ExerciseDef * nat) :=
  let count := orElse count 6%Z in
  let categoryExercises := getByCategory c in
  if (Z.of_nat (List.length categoryExercises) =? 0)%Z then
    buildSession random (Some count) calls
  else
    match shuffle random categoryExercises calls with
    | Some (s, c') => Some (sliceTo s count, c')
    | None => None
    end.

Definition buildTypeSession (random : Draws) (t : string) (count : option Z)
    (calls : nat) : option (list ExerciseDef * nat) :=
  let count := orElse count 6%Z in
  let typeExercises := getByType t in
  if (Z.of_nat (List.length typeExercises) =? 0)%Z then
    buildSession random (Some count) calls
  else
    match shuffle random typeExercises calls with
    | Some (s, c') => Some (sliceTo s count, c')
    | None => None
    end.

(** One round of the loop of [buildProgressiveSession]. *)
Definition progressiveStep (random : Draws) (st : list ExerciseDef * nat) (diff : Z)
    : option (list ExerciseDef * nat) :=
  let '(exercises, calls) := st in
  let available :=
    filter (fun e => negb (existsb (fun ex => String.eqb (id ex) (id e)) exercises))
           (getByDifficulty diff) in
  if (0 <? List.length available)%nat then
    match Math_floor (random calls * floatOfNat (List.length available)) with
    | Some j =>
        match item available j with
        | Some e => Some (exercises ++ [e], S calls)
        | None => None
        end
    | None => None
    end
  else Some (exercises, calls).

Fixpoint progressiveLoop (random : Draws) (diffs : list Z) (st : list ExerciseDef * nat)
    : option (list ExerciseDef * nat) :=
  match diffs with
  | [] => Some st
  | diff :: rest =>
      match progressiveStep random st diff with
      | Some st' => progressiveLoop random rest st'
      | None => None
      end
  end.

(** [buildProgressiveSession(count)]; [count] is 8 when it is not given. *)
Definition buildProgressiveSession (random : Draws) (count : option Z) (calls : nat)
    : option (list ExerciseDef * nat) :=
  let count := orElse count 8%Z in
  let difficultyOrder := [1; 1; 2; 2; 2; 3; 3; 4]%Z in
  let rounds := Z.min count (Z.of_nat (List.length difficultyOrder)) in
  progressiveLoop random (firstn (Z.to_nat rounds) difficultyOrder) ([], calls).

(** The getter [count]. *)
Definition count : Z := Z.of_nat (List.length (map fst EXERCISES)).

End HandHeroExercises.

(** The fields of a library entry that [evaluate] reads. *)
Definition descriptorOf (e : HandHeroExercises.ExerciseDef) : Exercise :=
  {| type := Some (HandHeroExercises.type e);
     targetFingers := HandHeroExercises.targetFingers e;
     pinchPair := HandHeroExercises.pinchPair e |}.

(** ** Vocabulary of the further properties *)

(** A pinch pair whose first two entries are tip nodes. *)
Definition startsWithTips (pinchPair : list Z) : Prop :=
  exists a b rest, pinchPair = a :: b :: rest /\ In a ALL_TIPS /\ In b ALL_TIPS.

(** The fields that the strategy of a descriptor reads are usable: target
    fingers among 0-4 for an isolation, two tip nodes for a pinch. *)
Definition usable (ex : Exercise) : Prop :=
  if typeIs (type ex) "isolation" then
    Forall (fun t => (0 <= t <= 4)%Z) (orElse (targetFingers ex) [])
  else if typeIs (type ex) "pinch" then
    startsWithTips (orElse (pinchPair ex) [4; 8]%Z)
  else True.

(** A violation entry names a finger 1-4 that is not a target and has
    severity major. *)
Definition majorViolationOfNonTarget (targetFingers : list Z) (v : Viol.t) : Prop :=
  Viol.severity v = Some "major"%string /\
  exists i, (1 <= i <= 4)%Z /\ includes targetFingers i = false /\
            Viol.fingerIndex v = Some i /\ Viol.finger v = item FINGER_NAMES i.

Definition passedOf (r : EvaluationResult) : bool :=
  match r with
  | IsolationResult i => Iso.passed i
  | PinchResult p => Pinch.passed p
  | SpreadResult s => Spread.passed s
  | FistResult f => Fist.passed f
  | FlatResult f => Flat.passed f
  | ErrorResult e => Err.passed e
  end.

Definition zoneOf (r : EvaluationResult) : Zone :=
  match r with
  | IsolationResult i => Iso.overallZone i
  | PinchResult p => Pinch.zone p
  | SpreadResult s => Spread.zone s
  | FistResult f => Fist.zone f
  | FlatResult f => Flat.zone f
  | ErrorResult e => Err.zone e
  end.

Definition goodZone (zn : Zone) : Prop := zn = GREEN \/ zn = BLUE.

(** The zones from worst to best. *)
Definition zoneRank (zn : Zone) : nat :=
  match zn with GREEN => 3 | BLUE => 2 | YELLOW => 1 | RED => 0 end.

Definition fistExercise : Exercise :=
  {| type := Some "fist"%string; targetFingers := None; pinchPair := None |}.

(** A finger index read as [getTipNode] reads it: anything but 0-4 stands
    for the index finger. *)
Definition fingerOrIndex (i : Z) : Z := if ((0 <=? i) && (i <=? 4))%Z then i else 1%Z.

(** Two landmark arrays that differ at most in the thumb's landmarks 1-4. *)
Definition sameButThumb (landmarks landmarks' : list Landmark) : Prop :=
  forall k, (k <= 0 \/ 5 <= k)%Z -> item landmarks k = item landmarks' k.

(** An isolation result without its [thumb] entry. *)
Definition withoutThumb (r : Iso.t) : Iso.t :=
  {| Iso.targets := Iso.targets r; Iso.nonTargets := Iso.nonTargets r;
     Iso.thumb := None; Iso.violations := Iso.violations r;
     Iso.overallZone := Iso.overallZone r; Iso.overallScore := Iso.overallScore r;
     Iso.passed := Iso.passed r |}.

Definition loopWithoutThumb (st : IsoLoop) : IsoLoop :=
  {| results := withoutThumb (results st); targetScoreSum := targetScoreSum st;
     targetCount := targetCount st; allTargetsOk := allTargetsOk st;
     hasMajorViolation := hasMajorViolation st |}.

(** A pinch result with its [involvedFingers] listed in the opposite order. *)
Definition involvedReversed (r : Pinch.t) : Pinch.t :=
  {| Pinch.distance := Pinch.distance r; Pinch.zone := Pinch.zone r;
     Pinch.score := Pinch.score r; Pinch.passed := Pinch.passed r;
     Pinch.violations := Pinch.violations r;
     Pinch.involvedFingers := rev (Pinch.involvedFingers r);
     Pinch.thumbHandling := Pinch.thumbHandling r |}.

(** The contribution of one normalised gap to the spread score and to the
    flat score. *)
Definition spreadGapTier (g : float) : float :=
  if g >? 0.30 then 1.0 else if g >? 0.20 then 0.80 else if g >? 0.12 then 0.60
  else if g >? 0.06 then 0.40 else 0.20.

Definition flatGapTier (g : float) : float :=
  if g <? 0.06 then 1.0 else if g <? 0.10 then 0.80 else if g <? 0.15 then 0.60
  else if g <? 0.22 then 0.40 else 0.20.

(** [g] is the distance between fingertip [i] and fingertip [i + 1], in hand
    widths. *)
Definition tipGap (landmarks : list Landmark) (frame : HandFrame) (i : Z) (g : float) : Prop :=
  exists a b, itemAt landmarks (item ALL_TIPS i) = Some a /\
              itemAt landmarks (item ALL_TIPS (i + 1)) = Some b /\
              g = distance a b / handWidth frame.

(** [f] is the extension classifier's result for finger [i] (the thumb
    classifier, with the thumb as a target, for finger 0), tagged with the
    finger's name and, if [withIndex], its index. *)
Definition extensionEntry (landmarks : list Landmark) (frame : HandFrame) (withIndex : bool)
    (i : Z) (f : FR.t) : Prop :=
  exists r0,
    (if (i =? 0)%Z then evaluateThumb landmarks frame true
     else evaluateTargetFinger i landmarks frame) = Returns r0 /\
    f = FR.tag r0 (item FINGER_NAMES i) (if withIndex then Some i else None) None.

(** The sum a loop accumulates, from 0, left to right. *)
Definition sumOf (scores : list float) : float := fold_left PrimFloat.add scores 0.

(** The tiers of the fist classifier. *)
Definition fistTier (curl ratio : float) : Zone * float * bool :=
  if (curl >? 0.08) && (ratio <? 0.9) then (GREEN, 1.0, true)
  else if (curl >? 0.02) && (ratio <? 1.0) then (BLUE, 0.75, true)
  else if (curl >? -0.05) && (ratio <? 1.1) then (YELLOW, 0.50, true)
  else (RED, 0.25, false).

(** [f] is the fist entry of finger [i]: its tier by how far the tip lies
    below the MCP joint (in hand lengths) and by the ratio of the tip's to
    the MCP's distance from the wrist. *)
Definition fistEntry (landmarks : list Landmark) (frame : HandFrame) (i : Z) (f : FR.t)
    : Prop :=
  exists tipP mcpP w,
    jointOf landmarks i tip tipP /\ jointOf landmarks i mcp mcpP /\
    item landmarks 0 = Some w /\
    let curl := (y tipP - y mcpP) / handLength frame in
    let ratio := distance tipP w / distance mcpP w in
    (FR.zone f, FR.score f, FR.curled f)
    = (let '(zn, sc, cu) := fistTier curl ratio in (zn, sc, Some cu)) /\
    FR.finger f = item FINGER_NAMES i /\ FR.fingerIndex f = Some i.

(** The five exercise types that [evaluate] dispatches on. *)
Definition engineTypes : list string := ["isolation"; "pinch"; "spread"; "fist"; "flat"]%string.

(** The value a call returns, or a default if it throws. *)
Definition valueOr {A} (o : outcome A) (dflt : A) : A :=
  match o with Returns a => a | Throws _ => dflt end.

(** Results on the sample hands. *)
Definition openHandIndexIsolation : Iso.t :=
  valueOr (evaluateIsolation openHand [1%Z])
          {| Iso.targets := []; Iso.nonTargets := []; Iso.thumb := None;
             Iso.violations := []; Iso.overallZone := RED; Iso.overallScore := 0;
             Iso.passed := false |}.

Definition pinchedHandIndexIsolation : Iso.t :=
  valueOr (evaluateIsolation pinchedHand [1%Z]) openHandIndexIsolation.

Definition openHandSpread : Spread.t :=
  valueOr (evaluateSpread openHand)
          {| Spread.fingerResults := []; Spread.extensionScore := 0; Spread.gapScore := 0;
             Spread.gaps := []; Spread.zone := RED; Spread.score := 0;
             Spread.passed := false |}.

Definition openHandFlat : Flat.t :=
  valueOr (evaluateFlat openHand)
          {| Flat.fingerResults := []; Flat.extensionScore := 0; Flat.togetherScore := 0;
             Flat.zone := RED; Flat.score := 0; Flat.passed := false |}.

Definition openHandFist : Fist.t :=
  valueOr (evaluateFist openHand)
          {| Fist.fingerResults := []; Fist.zone := RED; Fist.score := 0;
             Fist.passed := false |}.

(** After [k] right shifts of [M]: the mantissa kept is at most [M / 2^k],
    and the round bit is set only if at least half a unit was shifted out. *)
Definition shiftedFrom (M : Z) (k : Z) (mrs : shr_record) : Prop :=
  (0 <= shr_m mrs)%Z /\ (shr_m mrs * 2 ^ k <= M)%Z /\
  (shr_r mrs = true -> (2 * shr_m mrs * 2 ^ k + 2 ^ k <= 2 * M)%Z).

(** The number of exercises [buildSession(count)] returns. *)
Definition sessionSize (count : Z) : nat :=
  if (8 <=? count)%Z then 8
  else if (5 <=? count)%Z then 5
  else if (0 <=? count)%Z then Z.to_nat count
  else Z.to_nat (18 + 2 * count).

(** The difficulties [buildSession(count)] draws from, for [count >= 5]. *)
Definition sessionDifficulties (count : Z) : list Z :=
  if (8 <=? count)%Z then [1; 1; 2; 2; 2; 3; 3; 4]%Z else [1; 2; 2; 3; 3]%Z.

(** Each difficulty of [diffs] is still available when its turn comes: fewer
    exercises of it were chosen before ([done]) than the library has. *)
Fixpoint feasible (done diffs : list Z) : bool :=
  match diffs with
  | [] => true
  | d :: rest =>
      (count_occ Z.eq_dec done d <? List.length (HandHeroExercises.getByDifficulty d))%nat
      && feasible (done ++ [d]) rest
  end.

(** The number of elements of [arr.slice(0, end)] for an array of [len]
    elements. *)
Definition sliceSize (len : nat) (end_ : Z) : nat :=
  if (end_ <? 0)%Z then Z.to_nat (Z.of_nat len + end_) else Nat.min (Z.to_nat end_) len.

(** ** The debug visualizer ([BoundaryVisualizer.js]) *)

Module BoundaryVisualizer.

(** [getFingerForNode(node)]: the finger a landmark index belongs to, -1 for
    the wrist. *)
Definition getFingerForNode (node : Z) : Z :=
  if (node =? 0)%Z then (-1)%Z
  else if (node <=? 4)%Z then 0%Z
  else if (node <=? 8)%Z then 1%Z
  else if (node <=? 12)%Z then 2%Z
  else if (node <=? 16)%Z then 3%Z
  else 4%Z.

End BoundaryVisualizer.

(** * Properties *)

Arguments item : simpl never.
Arguments floatOfNat : simpl never.

(** ** Arrays and loops *)

Lemma item_some {A} (arr : list A) (i : Z) :
  (0 <= i < Z.of_nat (List.length arr))%Z -> exists a, item arr i = Some a.
Proof.
  intros Hi. unfold item.
  destruct (Z.ltb_spec i 0); [lia|].
  destruct (nth_error arr (Z.to_nat i)) eqn:E; [eauto|].
  apply nth_error_None in E. lia.
Qed.

Lemma item_none {A} (arr : list A) (i : Z) :
  (Z.of_nat (List.length arr) <= i)%Z -> item arr i = None.
Proof.
  intros Hi. unfold item.
  destruct (Z.ltb_spec i 0); [reflexivity|].
  apply nth_error_None. lia.
Qed.

Ltac get_item lm H k :=
  let p := fresh "p" in
  let E := fresh "E" in
  assert (exists a, item lm k = Some a) as [p E] by (apply item_some; lia).

Ltac all_items lm H :=
  get_item lm H (0%Z); get_item lm H (1%Z); get_item lm H (2%Z); get_item lm H (3%Z);
  get_item lm H (4%Z); get_item lm H (5%Z); get_item lm H (6%Z); get_item lm H (7%Z);
  get_item lm H (8%Z); get_item lm H (9%Z); get_item lm H (10%Z); get_item lm H (11%Z);
  get_item lm H (12%Z); get_item lm H (13%Z); get_item lm H (14%Z); get_item lm H (15%Z);
  get_item lm H (16%Z); get_item lm H (17%Z); get_item lm H (18%Z); get_item lm H (19%Z);
  get_item lm H (20%Z).

Ltac finger_cases i H :=
  let C := fresh "C" in
  assert (C : (i = 1 \/ i = 2 \/ i = 3 \/ i = 4)%Z) by lia;
  clear H; destruct C as [-> | [-> | [-> | ->]]].

Ltac joint := eexists; split; [reflexivity | cbn; eassumption].

Ltac branches :=
  repeat match goal with
         | |- context [if ?c then _ else _] => destruct c eqn:?
         end.

Ltac use_items :=
  repeat match goal with
         | E : item ?l ?k = Some _ |- context [item ?l ?k] => rewrite E
         end.

Lemma forEach_returns {S} (body : S -> Z -> outcome S) (indices : list Z) :
  (forall s i, In i indices -> exists s', body s i = Returns s') ->
  forall s, exists s', forEach body indices s = Returns s'.
Proof.
  induction indices as [|i rest IH]; intros Hbody s; cbn.
  - eauto.
  - destruct (Hbody s i) as [s1 E1]; [now left|]. rewrite E1. cbn.
    apply IH. intros s2 j Hj. apply Hbody. now right.
Qed.

(** ** Exercise types *)

Lemma typeIs_false (t : option string) (s : string) : t <> Some s -> typeIs t s = false.
Proof.
  destruct t as [v|]; cbn; [|reflexivity].
  intros Hne. destruct (String.eqb_spec v s); [subst; congruence | reflexivity].
Qed.

(** ** The hand frame and short inputs *)

Lemma getHandFrame_returns (landmarks : list Landmark) :
  (18 <= List.length landmarks)%nat ->
  exists frame, getHandFrame landmarks = Returns frame.
Proof.
  intros H. unfold getHandFrame.
  get_item landmarks H 0%Z. get_item landmarks H 5%Z. get_item landmarks H 9%Z.
  get_item landmarks H 12%Z. get_item landmarks H 13%Z. get_item landmarks H 17%Z.
  use_items. cbn. eauto.
Qed.

(** C9 (as the code has it). [getHandFrame] does not validate the number of
    landmarks: it returns a frame exactly when at least 18 landmarks are
    supplied (landmark 17 is the highest index it reads) and otherwise throws
    the [TypeError] of reading a missing landmark; inputs of fewer than 21
    landmarks are rejected one level up, by [evaluate], which returns the
    failure result without computing a frame. *)
Theorem C9_getHandFrame_does_not_validate :
  forall (landmarks : list Landmark),
    match getHandFrame landmarks with
    | Returns frame => (18 <= List.length landmarks)%nat
    | Throws e => (List.length landmarks < 18)%nat /\ e = TypeError
    end /\
    ((List.length landmarks < 21)%nat ->
     forall exercise,
       evaluate (Some landmarks) exercise = Returns (failureResult "Invalid landmarks")).
Proof.
  intros landmarks. split.
  - destruct (Nat.ltb_spec (List.length landmarks) 18) as [Hshort|Hlong].
    + unfold getHandFrame. rewrite (item_none landmarks 17) by lia.
      destruct (item landmarks 0), (item landmarks 12), (item landmarks 5); cbn; auto.
    + destruct (getHandFrame_returns landmarks Hlong) as [frame ->]. exact Hlong.
  - intros Hshort exercise. cbn.
    destruct (Z.ltb_spec (Z.of_nat (List.length landmarks)) 21); [reflexivity | lia].
Qed.

Lemma C9_getHandFrame_does_not_validate_witness :
  evaluate (Some shortHand) (Some (isolationOf [1%Z]))
  = Returns (failureResult "Invalid landmarks").
Proof.
  apply (proj2 (C9_getHandFrame_does_not_validate shortHand)). cbn. lia.
Defined.

(** C9 as stated fails: on the 18-landmark input [shortHand], fewer than 21
    landmarks, [getHandFrame] raises nothing and returns a frame. *)
Lemma C9_counterexample :
  (List.length shortHand < 21)%nat /\
  exists frame, getHandFrame shortHand = Returns frame.
Proof.
  split; [cbn; lia | eexists; reflexivity].
Qed.

(** ** The finger classifiers *)

(** C3. For a finger 1-4 of a hand of at least 21 landmarks,
    [evaluateTargetFinger] returns a result decided by extension =
    (MCP.y - TIP.y) / handLength and ratio = dist(tip, wrist) / dist(mcp, wrist),
    first matching tier in order: extension > 0.15 and ratio > 1.3 gives GREEN
    with score min(1, 0.85 + extension); extension > 0.08 and ratio > 1.15
    gives BLUE/0.75; extension > 0.02 and ratio > 1.0 gives YELLOW/0.55,
    extended; extension > -0.05 gives YELLOW/0.40, not extended; otherwise
    RED/0.20.  Both conditions of a tier are required: GREEN (BLUE) is only
    reached when both of its thresholds are passed. *)
Theorem C3_evaluateTargetFinger_tiers :
  forall (landmarks : list Landmark) (frame : HandFrame) (fingerIdx : Z),
    (21 <= List.length landmarks)%nat -> (1 <= fingerIdx <= 4)%Z ->
    exists tipP mcpP w,
      jointOf landmarks fingerIdx tip tipP /\ jointOf landmarks fingerIdx mcp mcpP /\
      item landmarks 0 = Some w /\
      exists r,
      evaluateTargetFinger fingerIdx landmarks frame = Returns r /\
      let extension := (y mcpP - y tipP) / handLength frame in
      let ratio := distance tipP w / distance mcpP w in
      let tier1 := (extension >? 0.15) && (ratio >? 1.3) in
      let tier2 := (extension >? 0.08) && (ratio >? 1.15) in
      let tier3 := (extension >? 0.02) && (ratio >? 1.0) in
      let tier4 := extension >? -0.05 in
      (tier1 = true ->
       FR.zone r = GREEN /\ FR.score r = Math_min 1 (0.85 + extension) /\
       FR.extended r = Some true) /\
      (tier1 = false -> tier2 = true ->
       FR.zone r = BLUE /\ FR.score r = 0.75 /\ FR.extended r = Some true) /\
      (tier1 = false -> tier2 = false -> tier3 = true ->
       FR.zone r = YELLOW /\ FR.score r = 0.55 /\ FR.extended r = Some true) /\
      (tier1 = false -> tier2 = false -> tier3 = false -> tier4 = true ->
       FR.zone r = YELLOW /\ FR.score r = 0.40 /\ FR.extended r = Some false) /\
      (tier1 = false -> tier2 = false -> tier3 = false -> tier4 = false ->
       FR.zone r = RED /\ FR.score r = 0.20 /\ FR.extended r = Some false) /\
      (FR.zone r = GREEN -> (extension >? 0.15) = true /\ (ratio >? 1.3) = true) /\
      (FR.zone r = BLUE -> (extension >? 0.08) = true /\ (ratio >? 1.15) = true).
Proof.
  intros landmarks frame fingerIdx H Hi.
  all_items landmarks H.
  finger_cases fingerIdx Hi.
  all: unfold evaluateTargetFinger; cbn [FINGER_NODES tip dip pip mcp deref bind];
    use_items; cbn [deref bind].
  all: do 3 eexists; split; [joint|]; split; [joint|]; split; [reflexivity|].
  all: cbv zeta; branches.
  all: eexists; (split; [reflexivity|]).
  all: cbn [FR.zone FR.score FR.extended].
  all: repeat split; intros; try discriminate; try reflexivity.
  all: match goal with
       | T : (_ && _) = true |- _ => apply andb_prop in T; apply T
       end.
Qed.

Lemma C3_evaluateTargetFinger_tiers_witness :
  (21 <= List.length openHand)%nat /\ (1 <= 1 <= 4)%Z /\
  exists r, evaluateTargetFinger 1 openHand openHandFrame = Returns r.
Proof.
  assert (H1 : (21 <= List.length openHand)%nat) by (cbn; lia).
  assert (H2 : (1 <= 1 <= 4)%Z) by lia.
  split; [exact H1 | split; [exact H2 |]].
  destruct (C3_evaluateTargetFinger_tiers openHand openHandFrame 1 H1 H2)
    as (tipP & mcpP & w & _ & _ & _ & r & E & _).
  exists r. exact E.
Defined.

(** C4. For a finger 1-4 of a hand of at least 21 landmarks and any boundary
    triple, [evaluateNonTargetFinger] returns a result decided by the
    fingertip alone: tip above the GREEN line gives RED, score 0.3,
    violation true, severity major; else tip above the ACCEPTABLE line gives
    YELLOW, score 0.7, violation false; else GREEN, score 1.0, violation
    false.  A tip not above the GREEN line never yields a violation.  Above
    means: the point's y is less than the line's y at the point's x
    ([above], which is what [isAboveLine] computes). *)
Theorem C4_evaluateNonTargetFinger_tiers :
  forall (landmarks : list Landmark) (boundaries : Boundaries) (frame : HandFrame)
         (fingerIdx : Z),
    (21 <= List.length landmarks)%nat -> (1 <= fingerIdx <= 4)%Z ->
    (forall p line, isAboveLine p (start line) (end_ line) = above p line) /\
    exists tipP,
      jointOf landmarks fingerIdx tip tipP /\
      exists r,
      evaluateNonTargetFinger fingerIdx landmarks boundaries frame = Returns r /\
      let aboveGreen := above tipP (greenBoundary boundaries) in
      let aboveAcceptable := above tipP (acceptableBoundary boundaries) in
      (aboveGreen = true ->
       FR.zone r = RED /\ FR.score r = 0.3 /\ FR.violation r = Some true /\
       FR.severity r = Some "major"%string) /\
      (aboveGreen = false -> aboveAcceptable = true ->
       FR.zone r = YELLOW /\ FR.score r = 0.7 /\ FR.violation r = Some false) /\
      (aboveGreen = false -> aboveAcceptable = false ->
       FR.zone r = GREEN /\ FR.score r = 1.0 /\ FR.violation r = Some false) /\
      (aboveGreen = false -> FR.violation r = Some false).
Proof.
  intros landmarks boundaries frame fingerIdx H Hi.
  split; [reflexivity|].
  all_items landmarks H.
  finger_cases fingerIdx Hi.
  all: unfold evaluateNonTargetFinger; cbn [FINGER_NODES tip deref bind];
    use_items; cbn [deref bind].
  all: eexists; split; [joint|].
  all: change (isAboveLine ?p (start ?l) (end_ ?l)) with (above p l).
  all: cbv zeta; branches.
  all: eexists; (split; [reflexivity|]).
  all: cbn [FR.zone FR.score FR.violation FR.severity].
  all: repeat split; intros; try discriminate; try reflexivity.
Qed.

Lemma C4_evaluateNonTargetFinger_tiers_witness :
  (21 <= List.length openHand)%nat /\ (1 <= 2 <= 4)%Z /\
  exists r,
    evaluateNonTargetFinger 2 openHand openHandIndexBoundaries openHandFrame = Returns r.
Proof.
  assert (H1 : (21 <= List.length openHand)%nat) by (cbn; lia).
  assert (H2 : (1 <= 2 <= 4)%Z) by lia.
  split; [exact H1 | split; [exact H2 |]].
  destruct (C4_evaluateNonTargetFinger_tiers openHand openHandIndexBoundaries
              openHandFrame 2 H1 H2)
    as (_ & tipP & _ & r & E & _).
  exists r. exact E.
Defined.



(** ** Boundary construction *)

Lemma insertSorted_In (v : Z) (arr : list Z) (t : Z) :
  In t (insertSorted v arr) <-> t = v \/ In t arr.
Proof.
  induction arr as [|a rest IH]; cbn.
  - intuition.
  - destruct (v <=? a)%Z; cbn; rewrite ?IH; intuition.
Qed.

Lemma sortAscending_In (arr : list Z) (t : Z) : In t (sortAscending arr) <-> In t arr.
Proof.
  induction arr as [|a rest IH]; cbn; [tauto|].
  rewrite insertSorted_In, IH. intuition.
Qed.

Lemma insertSorted_sorted (v : Z) (arr : list Z) :
  StronglySorted Z.le arr -> StronglySorted Z.le (insertSorted v arr).
Proof.
  induction 1 as [|a rest Hs IH Hall]; cbn.
  - repeat constructor.
  - destruct (Z.leb_spec v a).
    + constructor; [now constructor|].
      constructor; [assumption|].
      eapply Forall_impl; [|exact Hall]. cbn. intros; lia.
    + constructor; [assumption|].
      apply Forall_forall. intros t Ht. apply insertSorted_In in Ht.
      destruct Ht as [->|Ht]; [lia|].
      rewrite Forall_forall in Hall. now apply Hall.
Qed.

Lemma sortAscending_sorted (arr : list Z) : StronglySorted Z.le (sortAscending arr).
Proof.
  induction arr as [|a rest IH]; cbn; [constructor | now apply insertSorted_sorted].
Qed.

Lemma item_last_cons (a b : Z) (rest : list Z) :
  item (a :: b :: rest) (Z.of_nat (List.length (a :: b :: rest)) - 1)
  = item (b :: rest) (Z.of_nat (List.length (b :: rest)) - 1).
Proof.
  unfold item. cbn [List.length].
  destruct (Z.ltb_spec (Z.of_nat (S (S (List.length rest))) - 1) 0); [lia|].
  destruct (Z.ltb_spec (Z.of_nat (S (List.length rest)) - 1) 0); [lia|].
  replace (Z.to_nat (Z.of_nat (S (S (List.length rest))) - 1))
    with (S (Z.to_nat (Z.of_nat (S (List.length rest)) - 1))) by lia.
  reflexivity.
Qed.

(** The last element of a sorted array is one of its elements and bounds
    every element from above. *)
Lemma sorted_last (arr : list Z) :
  StronglySorted Z.le arr ->
  forall t, In t arr ->
  exists hi, item arr (Z.of_nat (List.length arr) - 1) = Some hi /\ In hi arr /\ (t <= hi)%Z.
Proof.
  induction 1 as [|a rest Hs IH Hall]; intros t Ht; [destruct Ht|].
  destruct rest as [|b rest'].
  - exists a. destruct Ht as [->|[]]. cbn. repeat split; auto; lia.
  - assert (Hb : In b (b :: rest')) by now left.
    rewrite item_last_cons.
    destruct Ht as [->|Ht].
    + destruct (IH b Hb) as (hi & E & Hin & Hle).
      exists hi. split; [exact E | split; [now right|]].
      rewrite Forall_forall in Hall. specialize (Hall hi Hin). lia.
    + destruct (IH t Ht) as (hi & E & Hin & Hle).
      exists hi. split; [exact E | split; [now right | assumption]].
Qed.

(** The sorted copy of a non-empty array starts with its least element and
    ends with its greatest. *)
Lemma sorted_extremes (arr : list Z) :
  arr <> [] ->
  exists lo hi,
    item (sortAscending arr) 0 = Some lo /\
    item (sortAscending arr) (Z.of_nat (List.length (sortAscending arr)) - 1) = Some hi /\
    In lo arr /\ In hi arr /\ forall t, In t arr -> (lo <= t <= hi)%Z.
Proof.
  intros Hne.
  pose proof (sortAscending_sorted arr) as Hs.
  destruct (sortAscending arr) as [|lo rest] eqn:E.
  - destruct arr as [|a rest]; [congruence|].
    assert (Hin : In a (sortAscending (a :: rest))) by (apply sortAscending_In; now left).
    rewrite E in Hin. destruct Hin.
  - assert (Hlo : In lo arr) by (apply sortAscending_In; rewrite E; now left).
    destruct (sorted_last _ Hs lo) as (hi & Ehi & Hin & _); [now left|].
    exists lo, hi. split; [reflexivity|]. split; [exact Ehi|].
    split; [exact Hlo|]. split; [apply sortAscending_In; now rewrite E|].
    intros t Ht. apply sortAscending_In in Ht. rewrite E in Ht.
    destruct (sorted_last _ Hs t Ht) as (hi' & Ehi' & _ & Hle).
    rewrite Ehi in Ehi'. injection Ehi' as <-.
    split; [|exact Hle].
    destruct Ht as [->|Ht]; [lia|].
    inversion Hs as [|? ? _ Hall]; subst.
    rewrite Forall_forall in Hall. now apply Hall.
Qed.

Lemma item_head {A} (a : A) (rest : list A) : item (a :: rest) 0 = Some a.
Proof. reflexivity. Qed.

Ltac index_cases i H :=
  let C := fresh "C" in
  assert (C : (i = 0 \/ i = 1 \/ i = 2 \/ i = 3 \/ i = 4)%Z) by lia;
  clear H; destruct C as [-> | [-> | [-> | [-> | ->]]]].

(** A single finger 0-4: three horizontal lines through its joints. *)
Lemma createBoundaryForFinger_horizontal (landmarks : list Landmark) (frame : HandFrame)
    (fingerIdx : Z) :
  (21 <= List.length landmarks)%nat -> (0 <= fingerIdx <= 4)%Z ->
  exists pipP dipP mcpP,
    jointOf landmarks fingerIdx pip pipP /\
    jointOf landmarks fingerIdx dip dipP /\
    jointOf landmarks fingerIdx mcp mcpP /\
    exists b,
      createBoundaryForFinger fingerIdx landmarks frame = Returns b /\
      horizontalAt (greenBoundary b) pipP (handWidth frame) /\
      horizontalAt (acceptableBoundary b) dipP (handWidth frame) /\
      horizontalAt (lowBoundary b) mcpP (handWidth frame) /\
      level (greenBoundary b) = "GREEN"%string /\
      level (acceptableBoundary b) = "ACCEPTABLE"%string /\
      level (lowBoundary b) = "LOW"%string.
Proof.
  intros H Hi.
  all_items landmarks H.
  index_cases fingerIdx Hi.
  all: unfold createBoundaryForFinger; cbn [FINGER_NODES pip dip mcp deref bind];
    use_items; cbn [deref bind].
  all: do 3 eexists; split; [joint|]; split; [joint|]; split; [joint|].
  all: eexists; split; [reflexivity|].
  all: unfold horizontalAt; cbn; repeat split; reflexivity.
Qed.

(** C7. For a hand of at least 21 landmarks: with exactly one target finger
    the boundary construction returns three horizontal lines (start.y =
    end.y) at that finger's PIP (GREEN), DIP (ACCEPTABLE) and MCP (LOW)
    y-coordinates, each reaching 1.5 hand widths to either side of the joint
    in x; with no target it returns the construction for the middle finger
    (index 2); with two or more targets each boundary is the segment joining
    the same-tier joints (PIP to PIP, DIP to DIP, MCP to MCP) of the
    lowest-index and the highest-index target. *)
Theorem C7_boundary_construction :
  forall (landmarks : list Landmark) (frame : HandFrame),
    (21 <= List.length landmarks)%nat ->
    (forall fingerIdx, (0 <= fingerIdx <= 4)%Z ->
       exists pipP dipP mcpP,
         jointOf landmarks fingerIdx pip pipP /\
         jointOf landmarks fingerIdx dip dipP /\
         jointOf landmarks fingerIdx mcp mcpP /\
         exists b,
           createBoundariesForTargets [fingerIdx] landmarks frame = Returns b /\
           horizontalAt (greenBoundary b) pipP (handWidth frame) /\
           horizontalAt (acceptableBoundary b) dipP (handWidth frame) /\
           horizontalAt (lowBoundary b) mcpP (handWidth frame) /\
           level (greenBoundary b) = "GREEN"%string /\
           level (acceptableBoundary b) = "ACCEPTABLE"%string /\
           level (lowBoundary b) = "LOW"%string) /\
    createBoundariesForTargets [] landmarks frame
    = createBoundariesForTargets [2%Z] landmarks frame /\
    (forall targetFingers,
       (2 <= List.length targetFingers)%nat ->
       Forall (fun t => (0 <= t <= 4)%Z) targetFingers ->
       exists lowest highest,
         In lowest targetFingers /\ In highest targetFingers /\
         (forall t, In t targetFingers -> (lowest <= t <= highest)%Z) /\
         exists pipL pipH dipL dipH mcpL mcpH,
           jointOf landmarks lowest pip pipL /\ jointOf landmarks highest pip pipH /\
           jointOf landmarks lowest dip dipL /\ jointOf landmarks highest dip dipH /\
           jointOf landmarks lowest mcp mcpL /\ jointOf landmarks highest mcp mcpH /\
           exists b,
             createBoundariesForTargets targetFingers landmarks frame = Returns b /\
             connects (greenBoundary b) pipL pipH /\
             connects (acceptableBoundary b) dipL dipH /\
             connects (lowBoundary b) mcpL mcpH /\
             level (greenBoundary b) = "GREEN"%string /\
             level (acceptableBoundary b) = "ACCEPTABLE"%string /\
             level (lowBoundary b) = "LOW"%string).
Proof.
  intros landmarks frame H. split; [|split].
  - intros fingerIdx Hi.
    unfold createBoundariesForTargets. cbn [List.length Z.of_nat Z.eqb Pos.of_succ_nat Pos.eqb].
    rewrite item_head. cbn [deref bind].
    now apply createBoundaryForFinger_horizontal.
  - reflexivity.
  - intros targetFingers Hlen Hall.
    destruct (sorted_extremes targetFingers) as (lo & hi & Elo & Ehi & Hlo & Hhi & Hbound).
    { destruct targetFingers; [cbn in Hlen; lia | discriminate]. }
    exists lo, hi. split; [exact Hlo|]. split; [exact Hhi|]. split; [exact Hbound|].
    unfold createBoundariesForTargets.
    destruct (Z.eqb_spec (Z.of_nat (List.length targetFingers)) 0); [lia|].
    destruct (Z.eqb_spec (Z.of_nat (List.length targetFingers)) 1); [lia|].
    rewrite Elo, Ehi. cbn [deref bind].
    rewrite Forall_forall in Hall.
    pose proof (Hall lo Hlo) as Rlo. pose proof (Hall hi Hhi) as Rhi.
    clear Elo Ehi Hlo Hhi Hbound Hall.
    all_items landmarks H.
    index_cases lo Rlo; index_cases hi Rhi.
    all: cbn [FINGER_NODES pip dip mcp deref bind]; use_items; cbn [deref bind].
    all: do 6 eexists.
    all: split; [joint|]; split; [joint|]; split; [joint|]; split; [joint|];
      split; [joint|]; split; [joint|].
    all: eexists; split; [reflexivity|].
    all: unfold connects; cbn; repeat split; reflexivity.
Qed.

Lemma C7_boundary_construction_witness :
  (21 <= List.length openHand)%nat /\
  createBoundariesForTargets [] openHand openHandFrame
  = createBoundariesForTargets [2%Z] openHand openHandFrame.
Proof.
  assert (H1 : (21 <= List.length openHand)%nat) by (cbn; lia).
  split; [exact H1|].
  exact (proj1 (proj2 (C7_boundary_construction openHand openHandFrame H1))).
Defined.

(** ** Classifiers and boundaries return on well-formed input *)

Lemma evaluateTargetFinger_returns (landmarks : list Landmark) (frame : HandFrame)
    (fingerIdx : Z) :
  (21 <= List.length landmarks)%nat -> (1 <= fingerIdx <= 4)%Z ->
  exists r, evaluateTargetFinger fingerIdx landmarks frame = Returns r.
Proof.
  intros H Hi. all_items landmarks H. finger_cases fingerIdx Hi.
  all: unfold evaluateTargetFinger; cbn [FINGER_NODES tip dip pip mcp deref bind];
    use_items; cbn [deref bind]; branches; eauto.
Qed.

Lemma evaluateNonTargetFinger_returns (landmarks : list Landmark) (boundaries : Boundaries)
    (frame : HandFrame) (fingerIdx : Z) :
  (21 <= List.length landmarks)%nat -> (1 <= fingerIdx <= 4)%Z ->
  exists r, evaluateNonTargetFinger fingerIdx landmarks boundaries frame = Returns r.
Proof.
  intros H Hi. all_items landmarks H. finger_cases fingerIdx Hi.
  all: unfold evaluateNonTargetFinger; cbn [FINGER_NODES tip deref bind];
    use_items; cbn [deref bind]; branches; eauto.
Qed.

Lemma evaluateThumb_returns (landmarks : list Landmark) (frame : HandFrame)
    (isTarget : bool) :
  (21 <= List.length landmarks)%nat ->
  exists r, evaluateThumb landmarks frame isTarget = Returns r.
Proof.
  intros H. all_items landmarks H.
  unfold evaluateThumb. use_items. cbn [deref bind].
  destruct isTarget; branches; eauto.
Qed.

Lemma createBoundariesForTargets_returns (targetFingers : list Z)
    (landmarks : list Landmark) (frame : HandFrame) :
  (21 <= List.length landmarks)%nat ->
  Forall (fun t => (0 <= t <= 4)%Z) targetFingers ->
  exists b, createBoundariesForTargets targetFingers landmarks frame = Returns b.
Proof.
  intros H Hall.
  destruct targetFingers as [|a [|b rest]].
  - destruct (createBoundaryForFinger_horizontal landmarks frame 2 H)
      as (? & ? & ? & _ & _ & _ & bd & E & _); [lia|].
    exists bd. exact E.
  - inversion Hall as [|? ? Ha _]; subst.
    destruct (createBoundaryForFinger_horizontal landmarks frame a H Ha)
      as (? & ? & ? & _ & _ & _ & bd & E & _).
    exists bd. unfold createBoundariesForTargets.
    cbn [List.length Z.of_nat Z.eqb Pos.of_succ_nat Pos.eqb].
    rewrite item_head. exact E.
  - destruct (sorted_extremes (a :: b :: rest)) as (lo & hi & Elo & Ehi & Hlo & Hhi & _);
      [discriminate|].
    unfold createBoundariesForTargets.
    destruct (Z.eqb_spec (Z.of_nat (List.length (a :: b :: rest))) 0); [cbn in *; lia|].
    destruct (Z.eqb_spec (Z.of_nat (List.length (a :: b :: rest))) 1); [cbn in *; lia|].
    rewrite Elo, Ehi. cbn [deref bind].
    rewrite Forall_forall in Hall.
    pose proof (Hall lo Hlo) as Rlo. pose proof (Hall hi Hhi) as Rhi.
    clear Elo Ehi Hlo Hhi Hall.
    all_items landmarks H.
    index_cases lo Rlo; index_cases hi Rhi.
    all: cbn [FINGER_NODES pip dip mcp deref bind]; use_items; cbn [deref bind]; eauto.
Qed.

Lemma nonThumb_in_range (targetFingers : list Z) :
  Forall (fun t => (0 <= t <= 4)%Z) targetFingers ->
  Forall (fun t => (0 <= t <= 4)%Z) (nonThumb targetFingers).
Proof.
  rewrite !Forall_forall. intros Hall t Ht.
  apply filter_In in Ht. now apply Hall.
Qed.

(** ** Isolation *)

Lemma floatOfNat_small :
  floatOfNat 1 = 1 /\ floatOfNat 2 = 2 /\ floatOfNat 3 = 3 /\ floatOfNat 4 = 4 /\
  floatOfNat 5 = 5.
Proof. repeat split; vm_compute; reflexivity. Qed.

Ltac norm_in B :=
  cbn [results targetScoreSum targetCount allTargetsOk hasMajorViolation
       Iso.targets Iso.nonTargets Iso.thumb Iso.violations Iso.overallZone
       Iso.overallScore Iso.passed bind app] in B.

(** One iteration of the isolation loop: which classifier ran, and on what. *)
Ltac iso_step :=
  cbn [forEach bind];
  match goal with
  | |- context [isolationBody ?lm ?t ?fr ?b ?st ?i] =>
      let st' := fresh "st" in
      let B := fresh "B" in
      destruct (isolationBody lm t fr b st i) as [st'|] eqn:B; [|discriminate];
      unfold isolationBody in B; cbn [Z.eqb] in B; norm_in B;
      let I := fresh "I" in
      destruct (includes t i) eqn:I;
      match type of B with
      | context [evaluateThumb ?a ?b ?c] =>
          let r := fresh "r" in let E := fresh "E" in
          destruct (evaluateThumb a b c) as [r|] eqn:E; [|discriminate]
      | context [evaluateTargetFinger ?a ?b ?c] =>
          let r := fresh "r" in let E := fresh "E" in
          destruct (evaluateTargetFinger a b c) as [r|] eqn:E; [|discriminate]
      | context [evaluateNonTargetFinger ?a ?b ?c ?d] =>
          let r := fresh "r" in let E := fresh "E" in
          destruct (evaluateNonTargetFinger a b c d) as [r|] eqn:E; [|discriminate]
      end;
      norm_in B; injection B as <-
  end.

(** Whatever [evaluateIsolation] returns is assembled from the classifiers'
    results by the mean, the violation penalty, the four-tier scale and the
    pass rule. *)
Lemma evaluateIsolation_result (landmarks : list Landmark) (targetFingers : list Z)
    (r : Iso.t) :
  evaluateIsolation landmarks targetFingers = Returns r ->
  let scored := isoTargetResults r in
  let mean := meanScore (map FR.score scored) in
  let major := existsb (fun v => isMajor (Viol.severity v)) (Iso.violations r) in
  let penalised :=
    if major then mean * 0.5
    else if (0 <? List.length (Iso.violations r))%nat then mean * 0.85
    else mean in
  classifiedBy landmarks targetFingers r /\
  Iso.overallScore r = penalised /\
  Iso.overallZone r = getZoneFromScore penalised /\
  Iso.passed r = forallb targetOk scored && negb major && (penalised >=? 0.65).
Proof.
  unfold evaluateIsolation.
  destruct (getHandFrame landmarks) as [frame|] eqn:EF; [|discriminate].
  cbn [bind].
  fold (nonThumb targetFingers).
  destruct (createBoundariesForTargets (nonThumb targetFingers) landmarks frame)
    as [boundaries|] eqn:EB; [|discriminate].
  iso_step.
  all: iso_step.
  all: iso_step.
  all: iso_step.
  all: iso_step.
  all: cbn [forEach bind].
  all: intros [= <-]; cbv zeta; unfold classifiedBy, isoTargetResults.
  all: cbn [Iso.targets Iso.nonTargets Iso.thumb Iso.violations Iso.overallZone
            Iso.overallScore Iso.passed FR.isTarget FR.tag truthy app map FR.score
            List.length meanScore fold_left filter negb].
  all: rewrite ?I, ?I0, ?I1, ?I2, ?I3; cbn [filter negb].
  all: cbn [FR.violation FR.severity FR.zone FR.pass FR.fingerIndex FR.tag targetOk
            forallb].
  all: repeat match goal with
       | |- context [truthy (FR.violation ?r)] =>
           destruct (truthy (FR.violation r));
           cbn [app map filter existsb List.length Nat.ltb Nat.leb violationOf
                Viol.severity FR.severity FR.tag andb orb negb]
       end.
  all: split; [exists frame, boundaries, r0;
               repeat (split; [eassumption || reflexivity|]);
               split; [|split; [|reflexivity]];
               repeat (apply Forall2_cons; [eexists; split; [eassumption|reflexivity]|]);
               apply Forall2_nil |].
  all: destruct floatOfNat_small as (F1 & F2 & F3 & F4 & F5);
       rewrite ?F1, ?F2, ?F3, ?F4, ?F5; clear F1 F2 F3 F4 F5.
  all: repeat match goal with
       | |- context [isMajor (FR.severity ?r)] =>
           destruct (isMajor (FR.severity r)); cbn [andb orb negb]
       end.
  all: repeat match goal with
       | |- context [Zone_eqb (FR.zone ?r) RED] =>
           destruct (Zone_eqb (FR.zone r) RED); cbn [andb orb negb]
       end.
  all: repeat match goal with
       | |- context [truthy (FR.pass ?r)] =>
           destruct (truthy (FR.pass r)); cbn [andb orb negb]
       end.
  all: repeat split; reflexivity.
Qed.

Lemma isolationBody_returns (landmarks : list Landmark) (targetFingers : list Z)
    (frame : HandFrame) (boundaries : Boundaries) (st : IsoLoop) (i : Z) :
  (21 <= List.length landmarks)%nat -> In i [0; 1; 2; 3; 4]%Z ->
  exists st', isolationBody landmarks targetFingers frame boundaries st i = Returns st'.
Proof.
  intros H Hi. unfold isolationBody.
  destruct (Z.eqb_spec i 0) as [->|Hne].
  - destruct (evaluateThumb_returns landmarks frame (includes targetFingers 0) H) as [r ->].
    cbn [bind]. destruct (includes targetFingers 0); eauto.
  - assert (Hr : (1 <= i <= 4)%Z) by (cbn in Hi; lia).
    destruct (includes targetFingers i).
    + destruct (evaluateTargetFinger_returns landmarks frame i H Hr) as [r ->].
      cbn [bind]. eauto.
    + destruct (evaluateNonTargetFinger_returns landmarks boundaries frame i H Hr) as [r ->].
      cbn [bind]. eauto.
Qed.

Lemma evaluateIsolation_returns (landmarks : list Landmark) (targetFingers : list Z) :
  (21 <= List.length landmarks)%nat ->
  Forall (fun t => (0 <= t <= 4)%Z) targetFingers ->
  exists r, evaluateIsolation landmarks targetFingers = Returns r.
Proof.
  intros H Hall. unfold evaluateIsolation.
  destruct (getHandFrame_returns landmarks) as [frame ->]; [lia|]. cbn [bind].
  destruct (createBoundariesForTargets_returns (nonThumb targetFingers) landmarks frame H)
    as [boundaries EB]; [now apply nonThumb_in_range|].
  unfold nonThumb in EB. rewrite EB. cbn [bind].
  match goal with
  | |- context [forEach ?body ?indices ?s0] =>
      destruct (forEach_returns body indices) with (s := s0) as [st ->]
  end.
  - intros s i Hi. now apply isolationBody_returns.
  - cbn [bind]. eauto.
Qed.

(** C2. For a hand of at least 21 landmarks and targets among the fingers
    0-4, [evaluateIsolation] returns a result whose overallScore is the
    arithmetic mean of the target fingers' scores (0 without targets),
    multiplied by 0.5 if a non-target finger has a major violation, else by
    0.85 if there is at least one violation; whose overallZone is GREEN from
    0.85, BLUE from 0.65, YELLOW from 0.40 of that score, else RED; and whose
    passed flag holds iff no target finger resolved to RED (for the thumb:
    pass is set), there is no major violation and the penalised mean is at
    least 0.65.  The scores averaged are those the classifiers return
    ([classifiedBy]). *)
Theorem C2_evaluateIsolation_aggregate :
  forall (landmarks : list Landmark) (targetFingers : list Z),
    (21 <= List.length landmarks)%nat ->
    Forall (fun t => (0 <= t <= 4)%Z) targetFingers ->
    exists r,
      evaluateIsolation landmarks targetFingers = Returns r /\
      let scored := isoTargetResults r in
      let mean := meanScore (map FR.score scored) in
      let major := existsb (fun v => isMajor (Viol.severity v)) (Iso.violations r) in
      let penalised :=
        if major then mean * 0.5
        else if (0 <? List.length (Iso.violations r))%nat then mean * 0.85
        else mean in
      classifiedBy landmarks targetFingers r /\
      Iso.overallScore r = penalised /\
      Iso.overallZone r =
        (if penalised >=? 0.85 then GREEN
         else if penalised >=? 0.65 then BLUE
         else if penalised >=? 0.40 then YELLOW
         else RED) /\
      Iso.passed r = forallb targetOk scored && negb major && (penalised >=? 0.65).
Proof.
  intros landmarks targetFingers H Hall.
  destruct (evaluateIsolation_returns landmarks targetFingers H Hall) as [r E].
  exists r. split; [exact E|].
  exact (evaluateIsolation_result landmarks targetFingers r E).
Qed.

Lemma C2_evaluateIsolation_aggregate_witness :
  (21 <= List.length openHand)%nat /\ Forall (fun t => (0 <= t <= 4)%Z) [1%Z] /\
  exists r, evaluateIsolation openHand [1%Z] = Returns r /\
            classifiedBy openHand [1%Z] r.
Proof.
  assert (H1 : (21 <= List.length openHand)%nat) by (cbn; lia).
  assert (H2 : Forall (fun t => (0 <= t <= 4)%Z) [1%Z]) by (repeat constructor; lia).
  split; [exact H1 | split; [exact H2 |]].
  destruct (C2_evaluateIsolation_aggregate openHand [1%Z] H1 H2) as (r & E & C & _).
  exists r. split; [exact E | exact C].
Defined.

Opaque Prim2SF.

(** ** Binary64 facts

    Derived from the specification of the primitive operations
    ([FloatAxioms]) and the reference implementation in [SpecFloat]. *)

(** The bit length of a mantissa. *)
Lemma digits2_pos_bounds (m : positive) :
  (2 ^ (Zpos (digits2_pos m) - 1) <= Zpos m < 2 ^ Zpos (digits2_pos m))%Z.
Proof.
  induction m as [m IH|m IH|]; cbn [digits2_pos].
  - rewrite Pos2Z.inj_succ.
    replace (Z.succ (Zpos (digits2_pos m)) - 1)%Z with (Z.succ (Zpos (digits2_pos m) - 1))%Z by lia.
    rewrite !Z.pow_succ_r by lia. lia.
  - rewrite Pos2Z.inj_succ.
    replace (Z.succ (Zpos (digits2_pos m)) - 1)%Z with (Z.succ (Zpos (digits2_pos m) - 1))%Z by lia.
    rewrite !Z.pow_succ_r by lia. lia.
  - cbn. lia.
Qed.

Lemma shr_1_m (mrs : shr_record) :
  (0 <= shr_m mrs)%Z -> shr_m (shr_1 mrs) = (shr_m mrs / 2)%Z.
Proof.
  destruct mrs as [m r s]. cbn [shr_m]. intros Hm.
  destruct m as [|p|p]; [reflexivity| |lia].
  destruct p as [p|p|]; cbn [shr_1 shr_m].
  - rewrite Pos2Z.inj_xI. apply Z.div_unique with (r := 1%Z); lia.
  - rewrite Pos2Z.inj_xO. apply Z.div_unique with (r := 0%Z); lia.
  - reflexivity.
Qed.

Lemma iter_pos_shr_1_m (n : positive) (mrs : shr_record) :
  (0 <= shr_m mrs)%Z ->
  shr_m (SpecFloat.iter_pos shr_1 n mrs) = (shr_m mrs / 2 ^ Zpos n)%Z.
Proof.
  revert mrs. induction n as [n IH|n IH|]; intros mrs Hm; cbn [SpecFloat.iter_pos].
  - assert (H1 : (0 <= shr_m (shr_1 mrs))%Z).
    { rewrite shr_1_m by assumption. apply Z.div_pos; lia. }
    assert (H2 : (0 <= shr_m (SpecFloat.iter_pos shr_1 n (shr_1 mrs)))%Z).
    { rewrite IH by assumption. apply Z.div_pos; lia. }
    rewrite IH, IH, shr_1_m by assumption.
    rewrite !Z.div_div by lia.
    replace (Zpos n~1)%Z with (1 + (Zpos n + Zpos n))%Z by lia.
    rewrite !Z.pow_add_r by lia. reflexivity.
  - assert (H2 : (0 <= shr_m (SpecFloat.iter_pos shr_1 n mrs))%Z).
    { rewrite IH by assumption. apply Z.div_pos; lia. }
    rewrite IH, IH by assumption.
    rewrite !Z.div_div by lia.
    replace (Zpos n~0)%Z with (Zpos n + Zpos n)%Z by lia.
    rewrite Z.pow_add_r by lia. reflexivity.
  - rewrite shr_1_m by assumption. reflexivity.
Qed.

Lemma round_nearest_even_bounds (q : Z) (l : location) :
  (q <= round_nearest_even q l <= q + 1)%Z.
Proof.
  destruct l as [|[| |]]; cbn; try lia.
  destruct (Z.even q); lia.
Qed.

Lemma pos_iter_xO (m : positive) (d : positive) :
  Zpos (Pos.iter xO m d) = (Zpos m * 2 ^ Zpos d)%Z.
Proof.
  revert m. induction d as [d IH|d IH|]; intros m; cbn [Pos.iter].
  - replace (Zpos d~1)%Z with (1 + (Zpos d + Zpos d))%Z by lia.
    rewrite !Z.pow_add_r by lia.
    rewrite Pos2Z.inj_xO, IH, IH. change (2 ^ 1)%Z with 2%Z. ring.
  - replace (Zpos d~0)%Z with (Zpos d + Zpos d)%Z by lia.
    rewrite !Z.pow_add_r by lia.
    rewrite IH, IH. ring.
  - rewrite Pos2Z.inj_xO. change (2 ^ 1)%Z with 2%Z. ring.
Qed.

Lemma fexp_normal (e : Z) : (-1021 <= e)%Z -> fexp prec emax e = (e - 53)%Z.
Proof. intros H. unfold fexp, SpecFloat.emin, prec, emax. lia. Qed.

Lemma binary_round_ge_one (M : positive) (ez : Z) :
  (ez <= -53)%Z -> (2 ^ (- ez) <= Zpos M)%Z ->
  geOne (binary_round prec emax false M ez).
Proof.
  intros Hez HM.
  pose proof (digits2_pos_bounds M) as [Hlo Hhi].
  set (d := Zpos (digits2_pos M)) in *.
  assert (Hd : (- ez < d)%Z).
  { apply (Z.pow_lt_mono_r_iff 2); lia. }
  unfold binary_round. fold d.
  rewrite fexp_normal by lia.
  unfold shl_align.
  destruct (d + ez - 53 - ez)%Z as [|p|p] eqn:Ep; try lia.
  unfold binary_round_aux, shr_fexp at 1.
  cbn [Zdigits2]. fold d. rewrite fexp_normal by lia.
  rewrite Ep. unfold shr.
  set (mrs := SpecFloat.iter_pos shr_1 p (shr_record_of_loc (Zpos M) loc_Exact)).
  assert (Hq : shr_m mrs = (Zpos M / 2 ^ Zpos p)%Z).
  { unfold mrs. rewrite iter_pos_shr_1_m; [reflexivity | cbn; lia]. }
  assert (Hp : Zpos p = (d - 53)%Z) by lia.
  assert (Hq52 : (2 ^ 52 <= shr_m mrs < 2 ^ 53)%Z).
  { rewrite Hq. split.
    - apply Z.div_le_lower_bound; [lia|].
      rewrite <- Z.pow_add_r by lia.
      replace (Zpos p + 52)%Z with (d - 1)%Z by lia. exact Hlo.
    - apply Z.div_lt_upper_bound; [lia|].
      rewrite <- Z.pow_add_r by lia.
      replace (Zpos p + 53)%Z with d by lia. exact Hhi. }
  pose proof (round_nearest_even_bounds (shr_m mrs) (loc_of_shr_record mrs)) as Hr.
  set (mr := round_nearest_even (shr_m mrs) (loc_of_shr_record mrs)) in *.
  destruct mr as [|pm|pm] eqn:Emr; try lia.
  pose proof (digits2_pos_bounds pm) as [Hlo' Hhi'].
  unfold shr_fexp. cbn [Zdigits2].
  set (dm := Zpos (digits2_pos pm)) in *.
  assert (Hdm : dm = 53%Z \/ dm = 54%Z).
  { assert (52 < dm)%Z by (apply (Z.pow_lt_mono_r_iff 2); lia).
    assert (dm - 1 < 54)%Z by (apply (Z.pow_lt_mono_r_iff 2); try lia;
      replace (2 ^ 54)%Z with (2 * 2 ^ 53)%Z by reflexivity; lia).
    lia. }
  rewrite fexp_normal by lia.
  destruct Hdm as [Hdm|Hdm]; rewrite Hdm.
  - replace (53 + (ez + Zpos p) - 53 - (ez + Zpos p))%Z with 0%Z by lia.
    cbn [shr shr_record_of_loc shr_m].
    destruct (ez + Zpos p <=? emax - prec)%Z; [right|left; reflexivity].
    exists pm, (ez + Zpos p)%Z. split; [reflexivity|]. lia.
  - replace (54 + (ez + Zpos p) - 53 - (ez + Zpos p))%Z with 1%Z by lia.
    cbn [shr SpecFloat.iter_pos].
    assert (Hm2 : shr_m (shr_1 (shr_record_of_loc (Zpos pm) loc_Exact)) = (Zpos pm / 2)%Z).
    { rewrite shr_1_m; [reflexivity | cbn; lia]. }
    assert (Hpos : (2 ^ 52 <= Zpos pm / 2)%Z).
    { apply Z.div_le_lower_bound; [lia|].
      replace (2 * 2 ^ 52)%Z with (2 ^ 53)%Z by reflexivity.
      rewrite Hdm in Hlo'. exact Hlo'. }
    destruct (shr_m (shr_1 (shr_record_of_loc (Zpos pm) loc_Exact))) as [|pm'|pm'] eqn:E2;
      try lia.
    destruct (ez + Zpos p + 1 <=? emax - prec)%Z; [right|left; reflexivity].
    exists pm', (ez + Zpos p + 1)%Z. split; [reflexivity|]. lia.
Qed.

Lemma shl_align_fst (m : positive) (e e' : Z) :
  (e' <= e)%Z -> Zpos (fst (shl_align m e e')) = (Zpos m * 2 ^ (e - e'))%Z.
Proof.
  intros H. unfold shl_align.
  destruct (e' - e)%Z as [|d|d] eqn:E; try lia.
  - replace (e - e')%Z with 0%Z by lia. cbn [fst]. lia.
  - cbn [fst]. rewrite pos_iter_xO. f_equal. f_equal. lia.
Qed.

Lemma spec_015 : Prim2SF 0.15 = S754_finite false 5404319552844595 (-55).
Proof. vm_compute. reflexivity. Qed.

Lemma spec_085 : Prim2SF 0.85 = S754_finite false 7656119366529843 (-53).
Proof. vm_compute. reflexivity. Qed.

Lemma spec_one : Prim2SF 1 = S754_finite false 4503599627370496 (-52).
Proof. vm_compute. reflexivity. Qed.

Lemma add_085_ge_one (e : float) :
  (e >? 0.15) = true -> geOne (Prim2SF (0.85 + e)).
Proof.
  intros H. rewrite ltb_spec, spec_015 in H.
  rewrite add_spec, spec_085. unfold SF64add.
  pose proof (Prim2SF_valid e) as V.
  destruct (Prim2SF e) as [sg|sg| |sg m ex]; cbn [SFltb SFcompare] in H; try discriminate.
  - destruct sg; [discriminate|]. left. reflexivity.
  - destruct sg; [discriminate|].
    cbn [valid_binary] in V. unfold bounded, canonical_mantissa in V.
    apply andb_prop in V. destruct V as [V1 V2].
    apply Z.eqb_eq in V1. apply Z.leb_le in V2.
    assert (Hex : (-55 <= ex)%Z).
    { destruct (-55 ?= ex)%Z eqn:C; [apply Z.compare_eq in C; lia | | discriminate].
      apply -> Z.compare_lt_iff in C. lia. }
    rewrite fexp_normal in V1 by lia.
    pose proof (digits2_pos_bounds m) as Hm.
    replace (Zpos (digits2_pos m)) with 53%Z in Hm by lia.
    assert (Hm1 : (ex = -55 -> 5404319552844595 < Zpos m)%Z).
    { intros ->. rewrite Z.compare_refl in H.
      change (Pos.compare_cont Eq 5404319552844595 m) with (5404319552844595 ?= m)%positive in H.
      destruct (5404319552844595 ?= m)%positive eqn:C; try discriminate.
      apply -> Pos.compare_lt_iff in C. now apply Pos2Z.pos_lt_pos in C. }
    clear H V1.
    cbn [SFadd cond_Zopp].
    set (ez := Z.min (-53) ex).
    pose proof (shl_align_fst 7656119366529843 (-53) ez) as A1.
    pose proof (shl_align_fst m ex ez) as A2.
    cbn [Z.add binary_normalize].
    apply binary_round_ge_one; [lia|].
    rewrite Pos2Z.inj_add, A1, A2 by lia.
    change (2 ^ (53 - 1))%Z with 4503599627370496%Z in Hm.
    change (2 ^ 53)%Z with 9007199254740992%Z in Hm.
    assert (Hc : (ex = -55 \/ ex = -54 \/ -53 <= ex)%Z) by lia.
    destruct Hc as [->|[->|Hc]].
    + specialize (Hm1 eq_refl). subst ez.
      change (Z.min (-53) (-55)) with (-55)%Z.
      change (2 ^ (- -55))%Z with 36028797018963968%Z.
      change (2 ^ (-53 - -55))%Z with 4%Z.
      change (2 ^ (-55 - -55))%Z with 1%Z.
      lia.
    + subst ez.
      change (Z.min (-53) (-54)) with (-54)%Z.
      change (2 ^ (- -54))%Z with 18014398509481984%Z.
      change (2 ^ (-53 - -54))%Z with 2%Z.
      change (2 ^ (-54 - -54))%Z with 1%Z.
      lia.
    + replace ez with (-53)%Z by lia.
      change (2 ^ (- -53))%Z with 9007199254740992%Z.
      change (2 ^ (-53 - -53))%Z with 1%Z.
      assert (Hp : (0 < 2 ^ (ex - -53))%Z) by (apply Z.pow_pos_nonneg; lia).
      nia.
Qed.

Lemma SFcompare_refl_finite (sg : bool) (m : positive) (e : Z) :
  SFcompare (S754_finite sg m e) (S754_finite sg m e) = Some Eq.
Proof.
  cbn [SFcompare]. rewrite Z.compare_refl.
  change (Pos.compare_cont Eq m m) with (m ?= m)%positive.
  rewrite Pos.compare_refl. destruct sg; reflexivity.
Qed.

(** The score of the GREEN tier is exactly 1: past the extension threshold,
    0.85 + extension rounds to at least 1. *)
Lemma green_score_is_one (e : float) :
  (e >? 0.15) = true -> Math_min 1 (0.85 + e) = 1.
Proof.
  intros H. apply add_085_ge_one in H.
  set (v := 0.85 + e) in *.
  assert (Hnan : is_nan v = false).
  { unfold is_nan. rewrite FloatAxioms.eqb_spec. unfold SFeqb.
    destruct H as [-> | (m & ex & -> & _)]; [reflexivity|].
    now rewrite SFcompare_refl_finite. }
  pose proof spec_one as S1.
  assert (Hlt : (v <? 1) = false).
  { rewrite ltb_spec. unfold SFltb.
    destruct H as [-> | (m & ex & -> & Hge)]; rewrite S1; [reflexivity|].
    cbn [SFcompare].
    destruct Hge as [Hge | [-> Hge]].
    - assert (C : (ex ?= -52)%Z = Gt) by (apply Z.compare_gt_iff; lia).
      now rewrite C.
    - rewrite Z.compare_refl.
      destruct (Pos.compare_cont Eq m 4503599627370496) eqn:C; try reflexivity.
      pose proof (Pos2Z.pos_lt_pos _ _ (proj1 (Pos.compare_lt_iff m 4503599627370496) C))
        as Hlt.
      change (2 ^ 52)%Z with (Zpos 4503599627370496) in Hge. clear C. lia. }
  assert (Hcl : classify v <> NZero).
  { rewrite classify_spec. unfold SF64classify, SFclassify.
    destruct H as [-> | (m & ex & -> & _)]; [discriminate|].
    destruct (Z.pos (digits2_pos m) =? prec)%Z; discriminate. }
  unfold Math_min. rewrite Hnan, Hlt.
  change (is_nan 1) with false. cbn [orb].
  destruct (1 <? v); [reflexivity|].
  destruct (classify v); congruence.
Qed.

Lemma spec_zero : Prim2SF 0 = S754_zero false.
Proof. vm_compute. reflexivity. Qed.

Lemma spec_infinity : Prim2SF infinity = S754_infinity false.
Proof. vm_compute. reflexivity. Qed.

(** A finite number minus itself is +0. *)
Lemma sub_self (a : float) : is_finite a = true -> a - a = 0.
Proof.
  intros H. apply Prim2SF_inj. rewrite sub_spec, spec_zero. unfold SF64sub.
  unfold is_finite, is_nan, is_infinity in H.
  rewrite !FloatAxioms.eqb_spec, abs_spec, spec_infinity in H. unfold SFeqb in H.
  destruct (Prim2SF a) as [sg|sg| |sg m e]; cbn [SFsub].
  - destruct sg; reflexivity.
  - cbn in H. rewrite orb_true_r in H. discriminate.
  - discriminate.
  - now rewrite Z.sub_diag.
Qed.

(** +0 divided by a positive number is +0. *)
Lemma zero_div_pos (w : float) : (w >? 0) = true -> 0 / w = 0.
Proof.
  intros H. apply Prim2SF_inj. rewrite div_spec, spec_zero. unfold SF64div.
  rewrite ltb_spec, spec_zero in H. unfold SFltb in H.
  destruct (Prim2SF w) as [sg|sg| |sg m e]; cbn [SFcompare] in H; try discriminate;
    destruct sg; try discriminate; reflexivity.
Qed.

(** ** Pinch *)

Ltac pinch_step :=
  cbn [forEach bind];
  match goal with
  | |- context [pinchBody ?lm ?inv ?b ?fr ?vs ?i] =>
      let vs' := fresh "vs" in
      let B := fresh "B" in
      destruct (pinchBody lm inv b fr vs i) as [vs'|] eqn:B; [|discriminate];
      unfold pinchBody in B;
      let I := fresh "I" in
      destruct (includes inv i) eqn:I;
      [ injection B as <-
      | let r := fresh "r" in let E := fresh "E" in
        destruct (evaluateNonTargetFinger i lm b fr) as [r|] eqn:E; [|discriminate];
        cbn [bind] in B;
        let V := fresh "V" in
        destruct (truthy (FR.violation r) && isMajor (FR.severity r)) eqn:V;
        cbn [app] in B; injection B as <- ]
  end.

Lemma evaluatePinch_result (landmarks : list Landmark) (pinchPair : list Z) (r : Pinch.t) :
  evaluatePinch landmarks pinchPair = Returns r -> pinchResultOf landmarks pinchPair r.
Proof.
  unfold evaluatePinch, pinchResultOf.
  destruct (getHandFrame landmarks) as [frame|] eqn:EF; [|discriminate].
  cbn [bind map].
  destruct (itemAt landmarks (item pinchPair 0)) as [t1|] eqn:E1; [|discriminate].
  destruct (itemAt landmarks (item pinchPair 1)) as [t2|] eqn:E2; [|discriminate].
  cbn [bind deref].
  set (involved := [indexOf ALL_TIPS (item pinchPair 0); indexOf ALL_TIPS (item pinchPair 1)]).
  fold (nonThumb involved).
  change (if distance t1 t2 / handWidth frame <? 0.05 then (GREEN, 1.0) else _)
    with (pinchBand (distance t1 t2 / handWidth frame)).
  destruct (pinchBand (distance t1 t2 / handWidth frame)) as [zone score] eqn:EBand.
  match goal with
  | |- context [bind ?c _] =>
      match c with
      | (if _ then _ else _) => destruct c as [boundaries|] eqn:EB; [|discriminate]
      end
  end.
  pinch_step.
  all: pinch_step.
  all: pinch_step.
  all: pinch_step.
  all: cbn [forEach bind]; intros [= <-].
  all: exists frame, t1, t2, boundaries.
  all: repeat (split; [reflexivity|]).
  all: cbv zeta; rewrite ?EBand; (split; [exact EB|]); cbn [Pinch.distance Pinch.involvedFingers Pinch.violations Pinch.score
                     Pinch.zone Pinch.passed filter].
  all: unfold majorViolator; rewrite ?I, ?I0, ?I1, ?I2, ?E, ?E0, ?E3, ?E4, ?E5, ?E6,
         ?V, ?V0, ?V1, ?V2; cbn [negb andb map List.length Nat.ltb Nat.leb fst snd].
  all: repeat split; reflexivity.
Qed.

Lemma item_second {A} (a b : A) (rest : list A) : item (a :: b :: rest) 1 = Some b.
Proof. reflexivity. Qed.

Lemma pinchBody_returns (landmarks : list Landmark) (involved : list Z)
    (boundaries : Boundaries) (frame : HandFrame) (violations : list Viol.t) (i : Z) :
  (21 <= List.length landmarks)%nat -> In i [1; 2; 3; 4]%Z ->
  exists vs, pinchBody landmarks involved boundaries frame violations i = Returns vs.
Proof.
  intros H Hi. unfold pinchBody.
  destruct (includes involved i); [eauto|].
  destruct (evaluateNonTargetFinger_returns landmarks boundaries frame i H) as [r ->].
  { cbn in Hi. lia. }
  cbn [bind]. destruct (truthy (FR.violation r) && isMajor (FR.severity r)); eauto.
Qed.

Lemma evaluatePinch_returns (landmarks : list Landmark) (pinchPair : list Z) :
  (21 <= List.length landmarks)%nat -> tipPair pinchPair ->
  exists r, evaluatePinch landmarks pinchPair = Returns r.
Proof.
  intros H (a & b & -> & Ha & Hb). unfold evaluatePinch.
  destruct (getHandFrame_returns landmarks) as [frame ->]; [lia|]. cbn [bind].
  rewrite item_head, item_second. cbn [itemAt map].
  assert (Hinv : forall t, In t ALL_TIPS ->
            (exists p, item landmarks t = Some p) /\
            (0 <= indexOf ALL_TIPS (Some t) <= 4)%Z).
  { intros t Ht. cbn in Ht.
    destruct Ht as [<-|[<-|[<-|[<-|[<-|[]]]]]]; (split; [apply item_some; lia | cbn; lia]). }
  destruct (Hinv a Ha) as [[pa ->] Ra]. destruct (Hinv b Hb) as [[pb ->] Rb].
  cbn [deref bind].
  set (involved := [indexOf ALL_TIPS (Some a); indexOf ALL_TIPS (Some b)]).
  match goal with
  | |- context [let '(zone, score) := ?band in _] => destruct band as [zone score]
  end.
  assert (HB : exists boundaries,
             (if (0 <? List.length (filter (fun f => negb (f =? 0)%Z) involved))%nat
              then createBoundariesForTargets (filter (fun f => negb (f =? 0)%Z) involved)
                     landmarks frame
              else createBoundaryForFinger 2 landmarks frame) = Returns boundaries).
  { destruct (0 <? List.length _)%nat.
    - apply createBoundariesForTargets_returns; [exact H|].
      apply (nonThumb_in_range involved). repeat constructor; lia.
    - destruct (createBoundaryForFinger_horizontal landmarks frame 2 H)
        as (? & ? & ? & _ & _ & _ & bd & E & _); [lia|]. eauto. }
  destruct HB as [boundaries ->]. cbn [bind].
  match goal with
  | |- context [forEach ?body ?indices ?s0] =>
      destruct (forEach_returns body indices) with (s := s0) as [vs ->]
  end.
  - intros s i Hi. now apply pinchBody_returns.
  - cbn [bind]. eauto.
Qed.

Lemma distance_coincident (p q : Landmark) :
  coincident p q -> finiteCoordinates p -> distance p q = 0.
Proof.
  intros (Hx & Hy & Hz) (Fx & Fy & Fz). unfold distance.
  rewrite <- Hx, <- Hy, <- Hz, !sub_self by assumption.
  vm_compute. reflexivity.
Qed.

Lemma pinchBand_coincident (w : float) : (w >? 0) = true -> pinchBand (0 / w) = (GREEN, 1.0).
Proof. intros H. rewrite zero_div_pos by exact H. vm_compute. reflexivity. Qed.

(** C5 (as the code has it). For a hand of at least 21 landmarks and a pinch
    pair of two tip nodes, [evaluatePinch] returns a result scored from the
    tip-to-tip distance divided by the hand width, by the six bands < 0.05
    GREEN/1.0, < 0.08 GREEN/0.90, < 0.12 BLUE/0.75, < 0.18 YELLOW/0.55, < 0.28
    YELLOW/0.40, else RED/0.20; the fingers 1-4 that are not involved are
    checked for major violations only, so every violation listed is major;
    any violation multiplies the score by 0.7 and turns a GREEN zone into
    BLUE; passed holds iff the final score is at least 0.65.  With thumb
    tip and index tip coincident under pinchPair [4, 8], finite coordinates
    and a positive hand width, the result is GREEN with score exactly 1.0
    when no violation is listed, and BLUE with score 0.7 otherwise. *)
Theorem C5_evaluatePinch_bands_and_penalty :
  forall (landmarks : list Landmark) (pinchPair : list Z),
    (21 <= List.length landmarks)%nat -> tipPair pinchPair ->
    exists r,
      evaluatePinch landmarks pinchPair = Returns r /\
      pinchResultOf landmarks pinchPair r /\
      Forall (fun v => Viol.severity v = Some "major"%string) (Pinch.violations r) /\
      (forall thumbTip indexTip frame,
         pinchPair = [4; 8]%Z ->
         item landmarks 4 = Some thumbTip -> item landmarks 8 = Some indexTip ->
         getHandFrame landmarks = Returns frame ->
         coincident thumbTip indexTip -> finiteCoordinates thumbTip ->
         (handWidth frame >? 0) = true ->
         (Pinch.violations r = [] -> Pinch.zone r = GREEN /\ Pinch.score r = 1.0) /\
         (Pinch.violations r <> [] -> Pinch.zone r = BLUE /\ Pinch.score r = 0.7)).
Proof.
  intros landmarks pinchPair H Hpair.
  destruct (evaluatePinch_returns landmarks pinchPair H Hpair) as [r E].
  pose proof (evaluatePinch_result landmarks pinchPair r E) as R.
  exists r. split; [exact E|]. split; [exact R|].
  destruct R as (frame & t1 & t2 & boundaries & EF & E1 & E2 & EB & R).
  cbv zeta in R. destruct R as (Hd & Hinv & Hv & Hs & Hz & Hp).
  split.
  - rewrite Hv. apply Forall_forall. intros v Hin.
    apply in_map_iff in Hin. destruct Hin as (i & <- & _). reflexivity.
  - intros thumbTip indexTip frame' -> T4 T8 EF' Hco Hfin Hw.
    rewrite EF in EF'. injection EF' as <-.
    rewrite item_head in E1. rewrite item_second in E2. cbn [itemAt] in E1, E2.
    rewrite T4 in E1. rewrite T8 in E2. injection E1 as <-. injection E2 as <-.
    rewrite (distance_coincident _ _ Hco Hfin), (pinchBand_coincident _ Hw) in Hs, Hz.
    cbn [fst snd Zone_eqb] in Hs, Hz. rewrite Hs, Hz.
    split.
    + intros ->. cbn. split; reflexivity.
    + intros Hne. destruct (Pinch.violations r); [congruence|]. cbn. split; reflexivity.
Qed.

Lemma C5_evaluatePinch_bands_and_penalty_witness :
  (21 <= List.length pinchedHand)%nat /\ tipPair [4; 8]%Z /\
  exists r, evaluatePinch pinchedHand [4; 8]%Z = Returns r /\
            pinchResultOf pinchedHand [4; 8]%Z r.
Proof.
  assert (H1 : (21 <= List.length pinchedHand)%nat) by (cbn; lia).
  assert (H2 : tipPair [4; 8]%Z).
  { exists 4%Z, 8%Z. split; [reflexivity|]. split; cbn; auto. }
  split; [exact H1 | split; [exact H2 |]].
  destruct (C5_evaluatePinch_bands_and_penalty pinchedHand [4; 8]%Z H1 H2)
    as (r & E & R & _).
  exists r. split; [exact E | exact R].
Defined.

(** C5 as stated fails: in [pinchedHand] the thumb tip and the index tip
    coincide, yet the extended middle, ring and little fingers are major
    violations and the result is BLUE with score 0.7. *)
Lemma C5_counterexample :
  item pinchedHand 4 = item pinchedHand 8 /\
  exists r, evaluatePinch pinchedHand [4; 8]%Z = Returns r /\
            Pinch.zone r = BLUE /\ Pinch.score r = 0.7.
Proof.
  split; [reflexivity|]. eexists. split; [vm_compute; reflexivity|].
  split; reflexivity.
Qed.

(** ** Absent optional fields *)

Lemma evaluate_long (lm : list Landmark) (ex : Exercise) :
  (21 <= List.length lm)%nat ->
  evaluate (Some lm) (Some ex) =
    if typeIs (type ex) "isolation" then
      r <- evaluateIsolation lm (orElse (targetFingers ex) []) ;; Returns (IsolationResult r)
    else if typeIs (type ex) "pinch" then
      r <- evaluatePinch lm (orElse (pinchPair ex) [4; 8]%Z) ;; Returns (PinchResult r)
    else if typeIs (type ex) "spread" then
      r <- evaluateSpread lm ;; Returns (SpreadResult r)
    else if typeIs (type ex) "fist" then
      r <- evaluateFist lm ;; Returns (FistResult r)
    else if typeIs (type ex) "flat" then
      r <- evaluateFlat lm ;; Returns (FlatResult r)
    else Returns (failureResult "Unknown type").
Proof.
  intros H. unfold evaluate.
  destruct (Z.ltb_spec (Z.of_nat (List.length lm)) 21); [lia | reflexivity].
Qed.

Lemma evaluateIsolation_no_targets (landmarks : list Landmark) (r : Iso.t) :
  evaluateIsolation landmarks [] = Returns r ->
  Iso.targets r = [] /\ Iso.overallScore r = 0 /\ Iso.overallZone r = RED /\
  Iso.passed r = false.
Proof.
  intros E. apply evaluateIsolation_result in E. cbv zeta in E.
  destruct E as (C & Hs & Hz & Hp).
  destruct C as (frame & boundaries & thumb0 & _ & _ & _ & Hthumb & Htargets & _).
  cbn in Htargets. apply Forall2_length in Htargets.
  assert (Hnil : Iso.targets r = []) by (destruct (Iso.targets r); [reflexivity|discriminate]).
  assert (Hnone : isoTargetResults r = []).
  { unfold isoTargetResults. rewrite Hthumb, Hnil. reflexivity. }
  rewrite Hnone in Hs, Hz, Hp. cbn [map meanScore forallb] in Hs, Hz, Hp.
  assert (Hscore : Iso.overallScore r = 0).
  { rewrite Hs. destruct (existsb _ _); [reflexivity|].
    destruct (0 <? _)%nat; reflexivity. }
  rewrite <- Hs in Hz, Hp. rewrite Hscore in Hz, Hp.
  repeat split; try assumption.
  rewrite Hp. apply andb_false_r.
Qed.

(** C10. For a hand of at least 21 landmarks, [evaluate] with the optional
    fields absent substitutes defaults instead of failing: type pinch
    without pinchPair is evaluated exactly as with pinchPair [4, 8] (thumb
    tip to index tip, fingers 0 and 1 involved), and type isolation without
    targetFingers exactly as with no targets, so that the boundaries are the
    middle finger's, no finger is a target, the overallScore is 0, the zone
    RED and passed false. *)
Theorem C10_absent_fields_default :
  forall (landmarks : list Landmark),
    (21 <= List.length landmarks)%nat ->
    (forall fingers,
       evaluate (Some landmarks) (Some (pinchOf fingers None))
       = evaluate (Some landmarks) (Some (pinchOf fingers (Some [4; 8]%Z))) /\
       exists r,
         evaluate (Some landmarks) (Some (pinchOf fingers None)) = Returns (PinchResult r) /\
         pinchResultOf landmarks [4; 8]%Z r /\
         Pinch.involvedFingers r = [0; 1]%Z) /\
    (forall pair,
       evaluate (Some landmarks) (Some (isolationWith None pair))
       = evaluate (Some landmarks) (Some (isolationWith (Some []) pair)) /\
       exists r,
         evaluate (Some landmarks) (Some (isolationWith None pair))
         = Returns (IsolationResult r) /\
         classifiedBy landmarks [] r /\
         (forall frame,
            createBoundariesForTargets (nonThumb []) landmarks frame
            = createBoundaryForFinger 2 landmarks frame) /\
         Iso.targets r = [] /\ Iso.overallScore r = 0 /\ Iso.overallZone r = RED /\
         Iso.passed r = false).
Proof.
  intros landmarks H. split.
  - intros fingers. split; [reflexivity|].
    rewrite evaluate_long by exact H. cbn [pinchOf type pinchPair typeIs String.eqb orElse].
    assert (Hpair : tipPair [4; 8]%Z).
    { exists 4%Z, 8%Z. split; [reflexivity|]. split; cbn; auto. }
    destruct (evaluatePinch_returns landmarks [4; 8]%Z H Hpair) as [r E].
    exists r. rewrite E. split; [reflexivity|].
    pose proof (evaluatePinch_result _ _ _ E) as R. split; [exact R|].
    destruct R as (? & ? & ? & ? & _ & _ & _ & _ & R). cbv zeta in R.
    destruct R as (_ & -> & _). reflexivity.
  - intros pair. split; [reflexivity|].
    rewrite evaluate_long by exact H.
    cbn [isolationWith type targetFingers typeIs String.eqb orElse].
    destruct (evaluateIsolation_returns landmarks [] H) as [r E]; [constructor|].
    exists r. rewrite E. split; [reflexivity|].
    split; [exact (proj1 (evaluateIsolation_result _ _ _ E))|].
    split; [reflexivity|].
    exact (evaluateIsolation_no_targets landmarks r E).
Qed.

Lemma C10_absent_fields_default_witness :
  (21 <= List.length openHand)%nat /\
  evaluate (Some openHand) (Some (pinchOf None None))
  = evaluate (Some openHand) (Some (pinchOf None (Some [4; 8]%Z))).
Proof.
  assert (H1 : (21 <= List.length openHand)%nat) by (cbn; lia).
  split; [exact H1|].
  exact (proj1 (proj1 (C10_absent_fields_default openHand H1) None)).
Defined.

(** ** Scores and zones stay in range *)

Ltac derefs :=
  repeat match goal with
         | |- context [deref (item ?l ?k)] =>
             destruct (item l k); cbn [deref bind]; [|discriminate]
         | |- context [deref (FINGER_NODES ?k)] =>
             destruct (FINGER_NODES k); cbn [deref bind]; [|discriminate]
         end.

Lemma evaluateTargetFinger_score (fingerIdx : Z) (landmarks : list Landmark)
    (frame : HandFrame) (r : FR.t) :
  evaluateTargetFinger fingerIdx landmarks frame = Returns r ->
  In (FR.score r) targetScores.
Proof.
  unfold evaluateTargetFinger. derefs. cbv zeta.
  branches; intros [= <-]; cbn [FR.score targetScores In]; auto 6.
  left. symmetry. apply green_score_is_one.
  match goal with T : (_ && _) = true |- _ => apply andb_prop in T; apply T end.
Qed.

Lemma evaluateNonTargetFinger_score (fingerIdx : Z) (landmarks : list Landmark)
    (boundaries : Boundaries) (frame : HandFrame) (r : FR.t) :
  evaluateNonTargetFinger fingerIdx landmarks boundaries frame = Returns r ->
  In (FR.score r) nonTargetScores.
Proof.
  unfold evaluateNonTargetFinger. derefs. cbv zeta.
  branches; intros [= <-]; cbn [FR.score nonTargetScores In]; auto 6.
Qed.

Lemma evaluateThumb_score (landmarks : list Landmark) (frame : HandFrame)
    (isTarget : bool) (r : FR.t) :
  evaluateThumb landmarks frame isTarget = Returns r ->
  In (FR.score r) (if isTarget then thumbTargetScores else thumbNonTargetScores).
Proof.
  unfold evaluateThumb. destruct isTarget; derefs; cbv zeta.
  all: branches; intros [= <-];
    cbn [FR.score thumbTargetScores thumbNonTargetScores In]; auto 6.
Qed.

Lemma In_listsUpTo (vals : list float) (n : nat) (l : list float) :
  Forall (fun v => In v vals) l -> (List.length l <= n)%nat -> In l (listsUpTo vals n).
Proof.
  revert l. induction n as [|n IH]; intros l Hall Hlen.
  - destruct l; [now left | cbn in Hlen; lia].
  - destruct l as [|a l]; [now left|]. right.
    inversion Hall as [|? ? Ha Hl]; subst.
    apply in_flat_map. exists a. split; [exact Ha|].
    apply in_map. apply IH; [exact Hl | cbn in Hlen; lia].
Qed.

Lemma In_dedup (l : list float) (v : float) : In v l -> In v (dedup l).
Proof.
  induction l as [|a rest IH]; [tauto|]. intros Hin. cbn [dedup].
  destruct (existsb (Leibniz.eqb a) rest) eqn:E.
  - destruct Hin as [<-|Hin]; [|auto].
    apply existsb_exists in E. destruct E as (b & Hb & Eb).
    apply Leibniz.eqb_spec in Eb. subst b. auto.
  - destruct Hin as [<-|Hin]; [now left | right; auto].
Qed.

Lemma In_addAll (acc vals : list float) (a v : float) :
  In a acc -> In v vals -> In (a + v) (addAll acc vals).
Proof.
  intros Ha Hv. apply In_dedup. apply in_flat_map. exists a. split; [exact Ha|].
  now apply in_map.
Qed.

Lemma isolation_scores_checked :
  forallb (fun ts =>
    forallb (fun fs =>
      let m := meanScore (ts ++ fs) in
      inUnit m && inUnit (m * 0.5) && inUnit (m * 0.85))
      (listsUpTo targetScores 4))
    ([] :: map (fun t => [t]) thumbTargetScores) = true.
Proof. vm_compute. reflexivity. Qed.

Lemma spread_scores_checked :
  forallb (fun e =>
    forallb (fun g =>
      inUnit (e / 5) && inUnit (g / 4) && inUnit (e / 5 * 0.5 + g / 4 * 0.5))
      gapTotals) extensionTotals = true.
Proof. vm_compute. reflexivity. Qed.

Lemma flat_scores_checked :
  forallb (fun e =>
    forallb (fun g =>
      inUnit (e / 5) && inUnit (g / 4) && inUnit (e / 5 * 0.6 + g / 4 * 0.4))
      gapTotals) extensionTotals = true.
Proof. vm_compute. reflexivity. Qed.

Lemma fist_scores_checked : forallb (fun t => inUnit (t / 5)) fistTotals = true.
Proof. vm_compute. reflexivity. Qed.

(** *** Loops of spread, fist and flat *)

Lemma extensionBody_step (landmarks : list Landmark) (frame : HandFrame) (withIndex : bool)
    (st st' : list FR.t * float) (i : Z) :
  extensionBody landmarks frame withIndex st i = Returns st' ->
  exists f,
    st' = (fst st ++ [f], snd st + FR.score f) /\
    In (FR.score f) (if (i =? 0)%Z then thumbTargetScores else targetScores).
Proof.
  unfold extensionBody. destruct (i =? 0)%Z.
  - destruct (evaluateThumb landmarks frame true) as [r|] eqn:E; [|discriminate].
    cbn [bind]. intros [= <-].
    exists (FR.tag r (item FINGER_NAMES i) (if withIndex then Some i else None) None).
    split; [reflexivity|].
    cbn [FR.score FR.tag]. exact (evaluateThumb_score _ _ _ _ E).
  - destruct (evaluateTargetFinger i landmarks frame) as [r|] eqn:E; [|discriminate].
    cbn [bind]. intros [= <-].
    exists (FR.tag r (item FINGER_NAMES i) (if withIndex then Some i else None) None).
    split; [reflexivity|].
    cbn [FR.score FR.tag]. exact (evaluateTargetFinger_score _ _ _ _ E).
Qed.

Lemma spreadGapBody_step (landmarks : list Landmark) (frame : HandFrame)
    (st st' : float * list float) (i : Z) :
  spreadGapBody landmarks frame st i = Returns st' ->
  exists g, In g gapScores /\ fst st' = fst st + g.
Proof.
  unfold spreadGapBody.
  destruct (itemAt landmarks (item ALL_TIPS i)); cbn [deref bind]; [|discriminate].
  destruct (itemAt landmarks (item ALL_TIPS (i + 1))); cbn [deref bind]; [|discriminate].
  cbv zeta. branches; intros [= <-]; eexists; (split; [|reflexivity]); cbn; auto 6.
Qed.

Lemma flatGapBody_step (landmarks : list Landmark) (frame : HandFrame)
    (togetherScore togetherScore' : float) (i : Z) :
  flatGapBody landmarks frame togetherScore i = Returns togetherScore' ->
  exists g, In g gapScores /\ togetherScore' = togetherScore + g.
Proof.
  unfold flatGapBody.
  destruct (itemAt landmarks (item ALL_TIPS i)); cbn [deref bind]; [|discriminate].
  destruct (itemAt landmarks (item ALL_TIPS (i + 1))); cbn [deref bind]; [|discriminate].
  cbv zeta. branches; intros [= <-]; eexists; (split; [|reflexivity]); cbn; auto 6.
Qed.

Lemma fistBody_step (landmarks : list Landmark) (frame : HandFrame)
    (st st' : list FR.t * float) (i : Z) :
  fistBody landmarks frame st i = Returns st' ->
  exists f s,
    st' = (fst st ++ [f], snd st + s) /\ FR.score f = s /\ In s fistScores.
Proof.
  unfold fistBody. derefs. cbv zeta.
  branches; intros [= <-]; do 2 eexists; (split; [reflexivity|]);
    (split; [reflexivity|]); cbn; auto 6.
Qed.

Ltac loop_step step :=
  cbn [forEach];
  match goal with
  | |- bind ?c _ = _ -> _ =>
      let st := fresh "st" in
      let B := fresh "B" in
      destruct c as [st|] eqn:B; [|discriminate]; cbn [bind];
      apply step in B
  end.

Lemma extension_loop (landmarks : list Landmark) (frame : HandFrame) (withIndex : bool)
    (results : list FR.t) (total : float) :
  forEach (extensionBody landmarks frame withIndex) [0; 1; 2; 3; 4]%Z ([], 0)
  = Returns (results, total) ->
  In total extensionTotals /\
  Forall (fun f => In (FR.score f) (thumbTargetScores ++ targetScores)) results.
Proof.
  do 5 loop_step extensionBody_step. cbn [forEach]. intros [= E].
  destruct B as (f0 & -> & H0). destruct B0 as (f1 & -> & H1).
  destruct B1 as (f2 & -> & H2). destruct B2 as (f3 & -> & H3).
  destruct B3 as (f4 & -> & H4). cbn [fst snd app Z.eqb] in *.
  injection E as <- <-. split.
  - unfold extensionTotals.
    apply In_addAll; [|exact H4]. apply In_addAll; [|exact H3].
    apply In_addAll; [|exact H2]. apply In_addAll; [|exact H1].
    apply In_addAll; [|exact H0]. now left.
  - repeat (apply Forall_cons; [apply in_or_app; auto|]). apply Forall_nil.
Qed.

Lemma spread_gap_loop (landmarks : list Landmark) (frame : HandFrame)
    (gapScore : float) (gaps : list float) :
  forEach (spreadGapBody landmarks frame) [0; 1; 2; 3]%Z (0, [])
  = Returns (gapScore, gaps) ->
  In gapScore gapTotals.
Proof.
  do 4 loop_step spreadGapBody_step. cbn [forEach]. intros [= E].
  destruct B as (g0 & H0 & E0). destruct B0 as (g1 & H1 & E1).
  destruct B1 as (g2 & H2 & E2). destruct B2 as (g3 & H3 & E3).
  rewrite E in E3. cbn [fst] in *. rewrite E3, E2, E1, E0.
  unfold gapTotals.
  apply In_addAll; [|exact H3]. apply In_addAll; [|exact H2].
  apply In_addAll; [|exact H1]. apply In_addAll; [|exact H0]. now left.
Qed.

Lemma flat_gap_loop (landmarks : list Landmark) (frame : HandFrame) (togetherScore : float) :
  forEach (flatGapBody landmarks frame) [0; 1; 2; 3]%Z 0 = Returns togetherScore ->
  In togetherScore gapTotals.
Proof.
  do 4 loop_step flatGapBody_step. cbn [forEach]. intros [= E].
  destruct B as (g0 & H0 & ->). destruct B0 as (g1 & H1 & ->).
  destruct B1 as (g2 & H2 & ->). destruct B2 as (g3 & H3 & ->).
  subst. unfold gapTotals.
  apply In_addAll; [|exact H3]. apply In_addAll; [|exact H2].
  apply In_addAll; [|exact H1]. apply In_addAll; [|exact H0]. now left.
Qed.

Lemma fist_loop (landmarks : list Landmark) (frame : HandFrame)
    (results : list FR.t) (total : float) :
  forEach (fistBody landmarks frame) [0; 1; 2; 3; 4]%Z ([], 0) = Returns (results, total) ->
  In total fistTotals /\ Forall (fun f => In (FR.score f) fistScores) results.
Proof.
  do 5 loop_step fistBody_step. cbn [forEach]. intros [= E].
  destruct B as (f0 & s0 & -> & E0 & H0). destruct B0 as (f1 & s1 & -> & E1 & H1).
  destruct B1 as (f2 & s2 & -> & E2 & H2). destruct B2 as (f3 & s3 & -> & E3 & H3).
  destruct B3 as (f4 & s4 & -> & E4 & H4). cbn [fst snd app] in *.
  injection E as <- <-. split.
  - unfold fistTotals.
    apply In_addAll; [|exact H4]. apply In_addAll; [|exact H3].
    apply In_addAll; [|exact H2]. apply In_addAll; [|exact H1].
    apply In_addAll; [|exact H0]. now left.
  - repeat (apply Forall_cons; [congruence|]). apply Forall_nil.
Qed.

(** *** Ranges *)

Lemma knownZone_all (zn : Zone) : knownZone zn.
Proof. destruct zn; cbn; auto. Qed.

Lemma classifier_scores_checked :
  forallb inUnit (targetScores ++ nonTargetScores ++ thumbTargetScores
                  ++ thumbNonTargetScores ++ fistScores) = true.
Proof. vm_compute. reflexivity. Qed.

Lemma classifier_score_in_range (f : FR.t) :
  In (FR.score f) (targetScores ++ nonTargetScores ++ thumbTargetScores
                   ++ thumbNonTargetScores ++ fistScores) ->
  fingerInRange f.
Proof.
  intros Hin. split; [|apply knownZone_all].
  exact (proj1 (forallb_forall _ _) classifier_scores_checked _ Hin).
Qed.

Ltac in_scores := repeat (apply in_or_app; first [left; assumption | right]); assumption.

Lemma evaluateIsolation_in_range (landmarks : list Landmark) (targetFingers : list Z)
    (r : Iso.t) :
  evaluateIsolation landmarks targetFingers = Returns r -> scoresInRange (IsolationResult r).
Proof.
  intros E. apply evaluateIsolation_result in E. cbv zeta in E.
  destruct E as (C & Hs & _).
  destruct C as (frame & boundaries & thumb0 & _ & _ & Ethumb & Hthumb & Ht & Hn & _).
  apply evaluateThumb_score in Ethumb.
  assert (Htargets : Forall (fun f => In (FR.score f) targetScores) (Iso.targets r)).
  { clear - Ht. induction Ht as [|i f ? ? (r0 & E0 & ->) _ IH]; constructor; [|exact IH].
    cbn [FR.score FR.tag]. exact (evaluateTargetFinger_score _ _ _ _ E0). }
  assert (Hnon : Forall (fun f => In (FR.score f) nonTargetScores) (Iso.nonTargets r)).
  { clear - Hn. induction Hn as [|i f ? ? (r0 & E0 & ->) _ IH]; constructor; [|exact IH].
    cbn [FR.score FR.tag]. exact (evaluateNonTargetFinger_score _ _ _ _ _ E0). }
  assert (Hlen : (List.length (Iso.targets r) <= 4)%nat).
  { apply Forall2_length in Ht. rewrite <- Ht.
    apply (filter_length_le (includes targetFingers) [1; 2; 3; 4]%Z). }
  cbn [scoresInRange]. split; [|split; [apply knownZone_all|split; [|split]]].
  - set (ts := match Iso.thumb r with
               | Some t => if truthy (FR.isTarget t) then [t] else []
               | None => []
               end).
    assert (Hts : In (map FR.score ts) ([] :: map (fun t => [t]) thumbTargetScores)).
    { unfold ts. rewrite Hthumb. cbn [FR.isTarget FR.tag truthy].
      destruct (includes targetFingers 0); [|now left].
      right. cbn [map FR.score FR.tag]. now apply (in_map (fun t => [t])). }
    assert (Hfs : In (map FR.score (Iso.targets r)) (listsUpTo targetScores 4)).
    { apply In_listsUpTo; [|now rewrite length_map].
      apply Forall_map. exact Htargets. }
    pose proof (proj1 (forallb_forall _ _) isolation_scores_checked _ Hts) as Hc.
    cbv beta in Hc.
    pose proof (proj1 (forallb_forall _ _) Hc _ Hfs) as Hm.
    cbv beta zeta in Hm. rewrite <- map_app in Hm. fold ts in Hm.
    unfold isoTargetResults in Hs. fold ts in Hs.
    apply andb_prop in Hm. destruct Hm as [Hm H85].
    apply andb_prop in Hm. destruct Hm as [Hm H50].
    rewrite Hs. destruct (existsb _ _); [exact H50|].
    destruct (0 <? _)%nat; assumption.
  - eapply Forall_impl; [|exact Htargets].
    intros f Hf. apply classifier_score_in_range. in_scores.
  - eapply Forall_impl; [|exact Hnon].
    intros f Hf. apply classifier_score_in_range. in_scores.
  - intros t Et. rewrite Hthumb in Et. injection Et as <-.
    apply classifier_score_in_range. cbn [FR.score FR.tag].
    destruct (includes targetFingers 0); in_scores.
Qed.

Lemma pinch_scores_checked :
  forallb (fun s => inUnit s && inUnit (s * 0.7)) [1.0; 0.90; 0.75; 0.55; 0.40; 0.20] = true.
Proof. vm_compute. reflexivity. Qed.

Lemma pinchBand_score (d : float) : In (snd (pinchBand d)) [1.0; 0.90; 0.75; 0.55; 0.40; 0.20].
Proof. unfold pinchBand. branches; cbn; auto 7. Qed.

Lemma evaluatePinch_in_range (landmarks : list Landmark) (pinchPair : list Z) (r : Pinch.t) :
  evaluatePinch landmarks pinchPair = Returns r -> scoresInRange (PinchResult r).
Proof.
  intros E. apply evaluatePinch_result in E.
  destruct E as (frame & t1 & t2 & boundaries & _ & _ & _ & _ & R). cbv zeta in R.
  destruct R as (_ & _ & _ & Hs & _).
  split; [|apply knownZone_all]. rewrite Hs.
  pose proof (proj1 (forallb_forall _ _) pinch_scores_checked _
                (pinchBand_score (distance t1 t2 / handWidth frame))) as Hc.
  cbv beta in Hc. apply andb_prop in Hc.
  destruct (0 <? _)%nat; apply Hc.
Qed.

Lemma evaluateSpread_in_range (landmarks : list Landmark) (r : Spread.t) :
  evaluateSpread landmarks = Returns r -> scoresInRange (SpreadResult r).
Proof.
  unfold evaluateSpread.
  destruct (getHandFrame landmarks) as [frame|]; [|discriminate]. cbn [bind].
  destruct (forEach (extensionBody landmarks frame true) _ _) as [[results total]|] eqn:E1;
    [|discriminate]. cbn [bind].
  destruct (forEach (spreadGapBody landmarks frame) _ _) as [[gapScore gaps]|] eqn:E2;
    [|discriminate]. cbn [bind].
  intros [= <-]. cbn [scoresInRange Spread.score Spread.extensionScore Spread.gapScore
                      Spread.zone Spread.fingerResults].
  apply extension_loop in E1. destruct E1 as [He Hr]. apply spread_gap_loop in E2.
  pose proof (proj1 (forallb_forall _ _) spread_scores_checked _ He) as Hc.
  cbv beta in Hc.
  pose proof (proj1 (forallb_forall _ _) Hc _ E2) as Hm. cbv beta in Hm.
  apply andb_prop in Hm. destruct Hm as [Hm H3].
  apply andb_prop in Hm. destruct Hm as [H1 H2].
  repeat split; try assumption; try apply knownZone_all.
  eapply Forall_impl; [|exact Hr]. intros f Hf. apply classifier_score_in_range.
  apply in_app_or in Hf. destruct Hf; in_scores.
Qed.

Lemma evaluateFlat_in_range (landmarks : list Landmark) (r : Flat.t) :
  evaluateFlat landmarks = Returns r -> scoresInRange (FlatResult r).
Proof.
  unfold evaluateFlat.
  destruct (getHandFrame landmarks) as [frame|]; [|discriminate]. cbn [bind].
  destruct (forEach (extensionBody landmarks frame false) _ _) as [[results total]|] eqn:E1;
    [|discriminate]. cbn [bind].
  destruct (forEach (flatGapBody landmarks frame) _ _) as [together|] eqn:E2;
    [|discriminate]. cbn [bind].
  intros [= <-]. cbn [scoresInRange Flat.score Flat.extensionScore Flat.togetherScore
                      Flat.zone Flat.fingerResults].
  apply extension_loop in E1. destruct E1 as [He Hr]. apply flat_gap_loop in E2.
  pose proof (proj1 (forallb_forall _ _) flat_scores_checked _ He) as Hc.
  cbv beta in Hc.
  pose proof (proj1 (forallb_forall _ _) Hc _ E2) as Hm. cbv beta in Hm.
  apply andb_prop in Hm. destruct Hm as [Hm H3].
  apply andb_prop in Hm. destruct Hm as [H1 H2].
  repeat split; try assumption; try apply knownZone_all.
  eapply Forall_impl; [|exact Hr]. intros f Hf. apply classifier_score_in_range.
  apply in_app_or in Hf. destruct Hf; in_scores.
Qed.

Lemma evaluateFist_in_range (landmarks : list Landmark) (r : Fist.t) :
  evaluateFist landmarks = Returns r -> scoresInRange (FistResult r).
Proof.
  unfold evaluateFist.
  destruct (getHandFrame landmarks) as [frame|]; [|discriminate]. cbn [bind].
  destruct (forEach (fistBody landmarks frame) _ _) as [[results total]|] eqn:E1;
    [|discriminate]. cbn [bind].
  intros [= <-]. cbn [scoresInRange Fist.score Fist.zone Fist.fingerResults].
  apply fist_loop in E1. destruct E1 as [He Hr].
  pose proof (proj1 (forallb_forall _ _) fist_scores_checked _ He) as Hc.
  cbv beta in Hc.
  repeat split; try assumption; try apply knownZone_all.
  eapply Forall_impl; [|exact Hr]. intros f Hf. apply classifier_score_in_range.
  in_scores.
Qed.

Lemma evaluate_in_range (landmarks : option (list Landmark)) (exercise : option Exercise)
    (r : EvaluationResult) :
  evaluate landmarks exercise = Returns r -> scoresInRange r.
Proof.
  assert (Hfail : forall message, scoresInRange (failureResult message)).
  { intros message. split; [reflexivity | apply knownZone_all]. }
  unfold evaluate. destruct landmarks as [lm|]; [|intros [= <-]; apply Hfail].
  destruct (Z.of_nat (List.length lm) <? 21)%Z; [intros [= <-]; apply Hfail|].
  destruct exercise as [ex|]; [|discriminate]. cbn [deref bind].
  destruct (typeIs (type ex) "isolation").
  { destruct (evaluateIsolation lm _) as [i|] eqn:E; [|discriminate].
    intros [= <-]. exact (evaluateIsolation_in_range _ _ _ E). }
  destruct (typeIs (type ex) "pinch").
  { destruct (evaluatePinch lm _) as [i|] eqn:E; [|discriminate].
    intros [= <-]. exact (evaluatePinch_in_range _ _ _ E). }
  destruct (typeIs (type ex) "spread").
  { destruct (evaluateSpread lm) as [i|] eqn:E; [|discriminate].
    intros [= <-]. exact (evaluateSpread_in_range _ _ E). }
  destruct (typeIs (type ex) "fist").
  { destruct (evaluateFist lm) as [i|] eqn:E; [|discriminate].
    intros [= <-]. exact (evaluateFist_in_range _ _ E). }
  destruct (typeIs (type ex) "flat").
  { destruct (evaluateFlat lm) as [i|] eqn:E; [|discriminate].
    intros [= <-]. exact (evaluateFlat_in_range _ _ E). }
  intros [= <-]. apply Hfail.
Qed.

(** *** Every strategy returns on 21 landmarks *)

Lemma extensionBody_returns (landmarks : list Landmark) (frame : HandFrame)
    (withIndex : bool) (st : list FR.t * float) (i : Z) :
  (21 <= List.length landmarks)%nat -> In i [0; 1; 2; 3; 4]%Z ->
  exists st', extensionBody landmarks frame withIndex st i = Returns st'.
Proof.
  intros H Hi. unfold extensionBody.
  destruct (Z.eqb_spec i 0) as [->|Hne].
  - destruct (evaluateThumb_returns landmarks frame true H) as [r ->]. cbn [bind]. eauto.
  - destruct (evaluateTargetFinger_returns landmarks frame i H) as [r ->].
    + cbn in Hi. lia.
    + cbn [bind]. eauto.
Qed.

Lemma gap_tips_defined (landmarks : list Landmark) (i : Z) :
  (21 <= List.length landmarks)%nat -> In i [0; 1; 2; 3]%Z ->
  exists a b, itemAt landmarks (item ALL_TIPS i) = Some a /\
              itemAt landmarks (item ALL_TIPS (i + 1)) = Some b.
Proof.
  intros H Hi. all_items landmarks H. cbn in Hi.
  destruct Hi as [<-|[<-|[<-|[<-|[]]]]]; do 2 eexists; split;
    (cbn [Z.add Pos.add Pos.succ]; unfold ALL_TIPS; first [rewrite item_head | idtac];
     vm_compute (item _ _); cbn [itemAt]; eassumption).
Qed.

Lemma spreadGapBody_returns (landmarks : list Landmark) (frame : HandFrame)
    (st : float * list float) (i : Z) :
  (21 <= List.length landmarks)%nat -> In i [0; 1; 2; 3]%Z ->
  exists st', spreadGapBody landmarks frame st i = Returns st'.
Proof.
  intros H Hi. unfold spreadGapBody.
  destruct (gap_tips_defined landmarks i H Hi) as (a & b & -> & ->).
  cbn [deref bind]. cbv zeta. branches; eauto.
Qed.

Lemma flatGapBody_returns (landmarks : list Landmark) (frame : HandFrame)
    (togetherScore : float) (i : Z) :
  (21 <= List.length landmarks)%nat -> In i [0; 1; 2; 3]%Z ->
  exists s, flatGapBody landmarks frame togetherScore i = Returns s.
Proof.
  intros H Hi. unfold flatGapBody.
  destruct (gap_tips_defined landmarks i H Hi) as (a & b & -> & ->).
  cbn [deref bind]. cbv zeta. branches; eauto.
Qed.

Lemma fistBody_returns (landmarks : list Landmark) (frame : HandFrame)
    (st : list FR.t * float) (i : Z) :
  (21 <= List.length landmarks)%nat -> In i [0; 1; 2; 3; 4]%Z ->
  exists st', fistBody landmarks frame st i = Returns st'.
Proof.
  intros H Hi. all_items landmarks H. cbn in Hi.
  destruct Hi as [<-|[<-|[<-|[<-|[<-|[]]]]]].
  all: unfold fistBody; cbn [FINGER_NODES tip mcp deref bind]; use_items;
    cbn [deref bind]; cbv zeta; branches; eauto.
Qed.

Ltac loop_returns lem H :=
  match goal with
  | |- context [forEach ?body ?indices ?s0] =>
      let st := fresh "st" in
      destruct (forEach_returns body indices) with (s := s0) as [st ->];
      [intros ? ? ?; now apply lem | cbn [bind]]
  end.

Lemma evaluateSpread_returns (landmarks : list Landmark) :
  (21 <= List.length landmarks)%nat -> exists r, evaluateSpread landmarks = Returns r.
Proof.
  intros H. unfold evaluateSpread.
  destruct (getHandFrame_returns landmarks) as [frame ->]; [lia|]. cbn [bind].
  loop_returns extensionBody_returns H. destruct st as [results total].
  loop_returns spreadGapBody_returns H. destruct st as [gapScore gaps]. eauto.
Qed.

Lemma evaluateFist_returns (landmarks : list Landmark) :
  (21 <= List.length landmarks)%nat -> exists r, evaluateFist landmarks = Returns r.
Proof.
  intros H. unfold evaluateFist.
  destruct (getHandFrame_returns landmarks) as [frame ->]; [lia|]. cbn [bind].
  loop_returns fistBody_returns H. destruct st as [results total]. eauto.
Qed.

Lemma evaluateFlat_returns (landmarks : list Landmark) :
  (21 <= List.length landmarks)%nat -> exists r, evaluateFlat landmarks = Returns r.
Proof.
  intros H. unfold evaluateFlat.
  destruct (getHandFrame_returns landmarks) as [frame ->]; [lia|]. cbn [bind].
  loop_returns extensionBody_returns H. destruct st as [results total].
  loop_returns flatGapBody_returns H. eauto.
Qed.

Lemma evaluate_returns (landmarks : option (list Landmark)) (ex : Exercise) :
  validDescriptor ex -> exists r, evaluate landmarks (Some ex) = Returns r.
Proof.
  intros [Hf Hp]. unfold evaluate. destruct landmarks as [lm|]; [|eauto].
  destruct (Z.ltb_spec (Z.of_nat (List.length lm)) 21) as [|Hlen]; [eauto|].
  assert (H : (21 <= List.length lm)%nat) by lia.
  cbn [deref bind].
  destruct (typeIs (type ex) "isolation").
  { destruct (evaluateIsolation_returns lm (orElse (targetFingers ex) []) H) as [r ->].
    - destruct (targetFingers ex); [exact Hf | constructor].
    - cbn [bind]. eauto. }
  destruct (typeIs (type ex) "pinch").
  { destruct (evaluatePinch_returns lm (orElse (pinchPair ex) [4; 8]%Z) H) as [r ->].
    - destruct (pinchPair ex); [exact Hp|].
      exists 4%Z, 8%Z. split; [reflexivity|]. split; cbn; auto.
    - cbn [bind]. eauto. }
  destruct (typeIs (type ex) "spread").
  { destruct (evaluateSpread_returns lm H) as [r ->]. cbn [bind]. eauto. }
  destruct (typeIs (type ex) "fist").
  { destruct (evaluateFist_returns lm H) as [r ->]. cbn [bind]. eauto. }
  destruct (typeIs (type ex) "flat").
  { destruct (evaluateFlat_returns lm H) as [r ->]. cbn [bind]. eauto. }
  eauto.
Qed.

(** C8. For every landmark argument, degenerate hands of zero length or
    width and non-finite coordinates included, and every exercise
    descriptor: in whatever result [evaluate] returns, every score field,
    overall and per finger, lies in [0, 1] and every zone field is one of
    GREEN, BLUE, YELLOW, RED; and a result is returned for every descriptor
    within its contract. *)
Theorem C8_scores_in_unit_interval :
  forall (landmarks : option (list Landmark)) (exercise : option Exercise),
    (forall r, evaluate landmarks exercise = Returns r -> scoresInRange r) /\
    (forall ex, exercise = Some ex -> validDescriptor ex ->
                exists r, evaluate landmarks exercise = Returns r).
Proof.
  intros landmarks exercise. split.
  - intros r E. exact (evaluate_in_range _ _ _ E).
  - intros ex -> Hv. exact (evaluate_returns landmarks ex Hv).
Qed.

Lemma C8_scores_in_unit_interval_witness :
  evaluate (Some collapsedHand) (Some spreadExercise) = Returns collapsedSpread /\
  scoresInRange collapsedSpread.
Proof.
  assert (H1 : evaluate (Some collapsedHand) (Some spreadExercise)
               = Returns collapsedSpread) by (vm_compute; reflexivity).
  split; [exact H1|].
  exact (proj1 (C8_scores_in_unit_interval (Some collapsedHand) (Some spreadExercise))
               collapsedSpread H1).
Defined.

(** ** The dispatcher's failure results *)

(** C1. [evaluate] returns the failure result
    [{error, passed: false, score: 0, zone: RED}] on missing landmarks or
    fewer than 21 of them, whatever the exercise, and on an exercise whose
    type is none of isolation, pinch, spread, fist, flat, whatever the
    landmarks; on every descriptor within its contract (target fingers
    among 0-4, a pinch pair of two tip nodes) it returns a result.  It is
    not true that it never throws: on 21 or more landmarks and a missing
    exercise it raises a [TypeError]. *)
Theorem C1_evaluate_failure_results :
  forall (landmarks : option (list Landmark)) (exercise : option Exercise),
    (invalidLandmarks landmarks \/ unknownType exercise ->
     exists message, evaluate landmarks exercise = Returns (failureResult message)) /\
    (forall ex, exercise = Some ex -> validDescriptor ex ->
                exists r, evaluate landmarks exercise = Returns r) /\
    (~ invalidLandmarks landmarks -> exercise = None ->
     evaluate landmarks exercise = Throws TypeError).
Proof.
  intros landmarks exercise. split; [|split].
  - intros H.
    assert (Hinv : invalidLandmarks landmarks ->
                   evaluate landmarks exercise
                   = Returns (failureResult "Invalid landmarks")).
    { destruct landmarks as [lm|]; cbn; [|reflexivity].
      intros Hlen.
      destruct (Z.ltb_spec (Z.of_nat (List.length lm)) 21); [reflexivity | lia]. }
    destruct landmarks as [lm|]; [|eexists; apply Hinv; exact I].
    destruct (Nat.ltb_spec (List.length lm) 21) as [Hshort|Hlong];
      [eexists; apply Hinv; exact Hshort|].
    destruct H as [H | (ex & -> & Hty)]; [eexists; apply Hinv; exact H|].
    exists "Unknown type"%string. cbn.
    destruct (Z.ltb_spec (Z.of_nat (List.length lm)) 21); [lia|].
    rewrite !typeIs_false; [reflexivity | | | | |]; apply Hty; cbn; auto 6.
  - intros ex -> Hv. exact (evaluate_returns landmarks ex Hv).
  - intros Hlong ->. destruct landmarks as [lm|]; [|exfalso; apply Hlong; exact I].
    cbn in Hlong. cbn [evaluate].
    destruct (Z.ltb_spec (Z.of_nat (List.length lm)) 21); [lia | reflexivity].
Qed.

Lemma C1_evaluate_failure_results_witness :
  exists message, evaluate (Some shortHand) (Some (isolationOf [1%Z]))
                  = Returns (failureResult message).
Proof.
  apply (proj1 (C1_evaluate_failure_results (Some shortHand) (Some (isolationOf [1%Z])))).
  left. cbn. lia.
Defined.

(** C1 as stated fails: [evaluate] throws on some inputs.  On the 21
    landmarks of [openHand], a missing exercise ([exercise.type] is read off
    [null]) and an isolation exercise with target finger 7 (a property is
    read off [FINGER_NODES[7]], which is [undefined]) each raise a
    [TypeError]. *)
Lemma C1_counterexample :
  ~ invalidLandmarks (Some openHand) /\
  evaluate (Some openHand) None = Throws TypeError /\
  evaluate (Some openHand) (Some (isolationOf [7%Z])) = Throws TypeError.
Proof.
  split; [cbn; lia|]. split; vm_compute; reflexivity.
Qed.

(** * Further properties of the code *)

(** ** When the dispatcher throws *)

Lemma FINGER_NODES_none (t : Z) : ~ (0 <= t <= 4)%Z -> FINGER_NODES t = None.
Proof.
  intros H. destruct t as [|p|p]; try reflexivity; [lia|].
  do 3 (destruct p as [p|p|]; try reflexivity; try lia).
Qed.

Lemma FINGER_NODES_some (t : Z) : (0 <= t <= 4)%Z -> exists n, FINGER_NODES t = Some n.
Proof.
  intros H. assert (C : (t = 0 \/ t = 1 \/ t = 2 \/ t = 3 \/ t = 4)%Z) by lia.
  destruct C as [-> | [-> | [-> | [-> | ->]]]]; cbn; eauto.
Qed.

Lemma length_two_or_more {A} (a b : A) (rest : list A) :
  (Z.of_nat (List.length (a :: b :: rest)) =? 0)%Z = false /\
  (Z.of_nat (List.length (a :: b :: rest)) =? 1)%Z = false.
Proof. split; apply Z.eqb_neq; cbn [List.length]; lia. Qed.

Lemma createBoundariesForTargets_throws (targetFingers : list Z)
    (landmarks : list Landmark) (frame : HandFrame) :
  ~ Forall (fun t => (0 <= t <= 4)%Z) targetFingers ->
  createBoundariesForTargets targetFingers landmarks frame = Throws TypeError.
Proof.
  intros Hbad.
  assert (Hex : exists t, In t targetFingers /\ ~ (0 <= t <= 4)%Z).
  { apply Exists_exists, neg_Forall_Exists_neg; [|exact Hbad].
    intros t. destruct (Z_le_dec 0 t), (Z_le_dec t 4); [left|right|right|right]; lia. }
  destruct Hex as [t [Hin Ht]].
  unfold createBoundariesForTargets.
  destruct targetFingers as [|a [|b rest]]; [destruct Hin| |].
  - destruct Hin as [->|[]]. cbn [List.length Z.of_nat Z.eqb Pos.of_succ_nat Pos.eqb].
    rewrite item_head. cbn [deref bind]. unfold createBoundaryForFinger.
    rewrite FINGER_NODES_none by exact Ht. reflexivity.
  - destruct (length_two_or_more a b rest) as [-> ->].
    destruct (sorted_extremes (a :: b :: rest)) as [lo [hi [Elo [Ehi [Hlo [Hhi Hall]]]]]];
      [discriminate|].
    rewrite Elo, Ehi. cbn [deref bind].
    destruct (Z_le_dec 0 lo) as [L0|L0].
    + destruct (Z_le_dec lo 4) as [L4|L4].
      * destruct (FINGER_NODES_some lo) as [n ->]; [lia|]. cbn [deref bind].
        rewrite (FINGER_NODES_none hi); [reflexivity|].
        specialize (Hall t Hin). lia.
      * rewrite (FINGER_NODES_none lo) by lia. reflexivity.
    + rewrite (FINGER_NODES_none lo) by lia. reflexivity.
Qed.

Lemma nonThumb_keeps_bad (targetFingers : list Z) :
  ~ Forall (fun t => (0 <= t <= 4)%Z) targetFingers ->
  ~ Forall (fun t => (0 <= t <= 4)%Z) (nonThumb targetFingers).
Proof.
  intros Hbad Hok. apply Hbad. apply Forall_forall. intros t Hin.
  destruct (Z.eq_dec t 0) as [->|Hne]; [lia|].
  rewrite Forall_forall in Hok. apply Hok. unfold nonThumb.
  apply filter_In. split; [exact Hin|]. apply negb_true_iff, Z.eqb_neq. exact Hne.
Qed.

Lemma evaluateIsolation_throws (landmarks : list Landmark) (targetFingers : list Z) :
  (21 <= List.length landmarks)%nat ->
  ~ Forall (fun t => (0 <= t <= 4)%Z) targetFingers ->
  evaluateIsolation landmarks targetFingers = Throws TypeError.
Proof.
  intros Hlen Hbad. unfold evaluateIsolation.
  destruct (getHandFrame_returns landmarks) as [frame ->]; [lia|]. cbn [bind].
  fold (nonThumb targetFingers).
  rewrite createBoundariesForTargets_throws by (apply nonThumb_keeps_bad; exact Hbad).
  reflexivity.
Qed.

Lemma evaluatePinch_first_two (landmarks : list Landmark) (a b : Z) (rest : list Z) :
  evaluatePinch landmarks (a :: b :: rest) = evaluatePinch landmarks [a; b].
Proof.
  unfold evaluatePinch. rewrite !item_head, !item_second. reflexivity.
Qed.

Lemma indexOf_tips (a : Z) :
  In a ALL_TIPS \/ indexOf ALL_TIPS (Some a) = (-1)%Z.
Proof.
  unfold indexOf, ALL_TIPS. cbn [indexOfFrom].
  destruct (Z.eqb_spec 4 a); [left; subst; cbn; tauto|].
  destruct (Z.eqb_spec 8 a); [left; subst; cbn; tauto|].
  destruct (Z.eqb_spec 12 a); [left; subst; cbn; tauto|].
  destruct (Z.eqb_spec 16 a); [left; subst; cbn; tauto|].
  destruct (Z.eqb_spec 20 a); [left; subst; cbn; tauto|].
  right. reflexivity.
Qed.

Lemma evaluatePinch_throws (landmarks : list Landmark) (pinchPair : list Z) :
  ~ startsWithTips pinchPair ->
  evaluatePinch landmarks pinchPair = Throws TypeError.
Proof.
  intros Hbad. unfold evaluatePinch.
  destruct (getHandFrame landmarks) as [frame|[]]; [|reflexivity]. cbn [bind].
  destruct pinchPair as [|a [|b rest]].
  - replace (item (@nil Z) 0) with (@None Z) by reflexivity. reflexivity.
  - rewrite item_head. replace (item [a] 1) with (@None Z) by reflexivity.
    cbn [itemAt]. destruct (item landmarks a); reflexivity.
  - rewrite item_head, item_second. cbn [itemAt].
    destruct (item landmarks a) as [t1|]; [|reflexivity].
    destruct (item landmarks b) as [t2|]; [|reflexivity].
    cbn [deref bind].
    set (band := if _ <? 0.05 then _ else _). destruct band as [zn sc].
    cbn [map].
    set (inv := [indexOf ALL_TIPS (Some a); indexOf ALL_TIPS (Some b)]).
    assert (Hinv : ~ Forall (fun t => (0 <= t <= 4)%Z)
                     (filter (fun f => negb (f =? 0)%Z) inv)).
    { apply nonThumb_keeps_bad. unfold inv. intros Hok.
      apply Forall_cons_iff in Hok. destruct Hok as [Ha Hrest].
      apply Forall_cons_iff in Hrest. destruct Hrest as [Hb _].
      destruct (indexOf_tips a) as [Ia|Ea]; [|rewrite Ea in Ha; lia].
      destruct (indexOf_tips b) as [Ib|Eb]; [|rewrite Eb in Hb; lia].
      apply Hbad. exists a, b, rest. auto. }
    destruct (filter (fun f => negb (f =? 0)%Z) inv) as [|f fs] eqn:Ef.
    + exfalso. apply Hinv. constructor.
    + cbn [List.length Nat.ltb Nat.leb].
      rewrite createBoundariesForTargets_throws by exact Hinv. reflexivity.
Qed.

Lemma evaluatePinch_returns_tips (landmarks : list Landmark) (pinchPair : list Z) :
  (21 <= List.length landmarks)%nat -> startsWithTips pinchPair ->
  exists r, evaluatePinch landmarks pinchPair = Returns r.
Proof.
  intros Hlen [a [b [rest [-> [Ha Hb]]]]].
  rewrite evaluatePinch_first_two.
  apply evaluatePinch_returns; [exact Hlen|]. exists a, b. auto.
Qed.

(** X1. On 21 or more landmarks and an exercise object, [evaluate] returns
    a result exactly when the fields its strategy reads are usable: every
    target finger of an isolation is one of 0-4, the first two entries of a
    pinch pair are tip nodes (4, 8, 12, 16, 20); spread, fist, flat and
    unknown types always return.  Otherwise it throws a [TypeError]. *)
Theorem evaluate_throws_exactly :
  forall (landmarks : list Landmark) (ex : Exercise),
    (21 <= List.length landmarks)%nat ->
    (usable ex -> exists r, evaluate (Some landmarks) (Some ex) = Returns r) /\
    (~ usable ex -> evaluate (Some landmarks) (Some ex) = Throws TypeError).
Proof.
  intros lm ex Hlen. rewrite evaluate_long by exact Hlen. unfold usable.
  destruct (typeIs (type ex) "isolation").
  { split; intros H.
    - destruct (evaluateIsolation_returns lm _ Hlen H) as [r ->]. cbn. eauto.
    - rewrite evaluateIsolation_throws by assumption. reflexivity. }
  destruct (typeIs (type ex) "pinch").
  { split; intros H.
    - destruct (evaluatePinch_returns_tips lm _ Hlen H) as [r ->]. cbn. eauto.
    - rewrite evaluatePinch_throws by assumption. reflexivity. }
  split; [intros _|intros H; exfalso; apply H; exact I].
  destruct (typeIs (type ex) "spread").
  { destruct (evaluateSpread_returns lm Hlen) as [r ->]. cbn. eauto. }
  destruct (typeIs (type ex) "fist").
  { destruct (evaluateFist_returns lm Hlen) as [r ->]. cbn. eauto. }
  destruct (typeIs (type ex) "flat").
  { destruct (evaluateFlat_returns lm Hlen) as [r ->]. cbn. eauto. }
  eauto.
Qed.

Lemma evaluate_throws_exactly_witness :
  (21 <= List.length openHand)%nat /\
  evaluate (Some openHand) (Some (isolationOf [7%Z])) = Throws TypeError.
Proof.
  assert (H1 : (21 <= List.length openHand)%nat) by (cbn; lia).
  split; [exact H1|].
  apply (proj2 (evaluate_throws_exactly openHand (isolationOf [7%Z]) H1)).
  unfold usable. cbn. intros H. apply Forall_inv in H. lia.
Defined.

(** X2. [createBoundariesForTargets] as reached through
    [_debugGetBoundaries], on 21 or more landmarks: it returns the three
    boundaries, levelled GREEN, ACCEPTABLE and LOW, when every target finger
    is one of 0-4, and throws a [TypeError] as soon as one is not. *)
Theorem debugGetBoundaries_throws_exactly :
  forall (landmarks : list Landmark) (targetFingers : list Z),
    (21 <= List.length landmarks)%nat ->
    (Forall (fun t => (0 <= t <= 4)%Z) targetFingers ->
     exists b, _debugGetBoundaries landmarks targetFingers = Returns b) /\
    (~ Forall (fun t => (0 <= t <= 4)%Z) targetFingers ->
     _debugGetBoundaries landmarks targetFingers = Throws TypeError).
Proof.
  intros lm ts Hlen. unfold _debugGetBoundaries.
  destruct (getHandFrame_returns lm) as [frame ->]; [lia|]. cbn [bind].
  split; intros H.
  - apply createBoundariesForTargets_returns; assumption.
  - apply createBoundariesForTargets_throws. exact H.
Qed.

Lemma debugGetBoundaries_throws_exactly_witness :
  (21 <= List.length openHand)%nat /\
  _debugGetBoundaries openHand [1; 5]%Z = Throws TypeError.
Proof.
  assert (H1 : (21 <= List.length openHand)%nat) by (cbn; lia).
  split; [exact H1|].
  apply (proj2 (debugGetBoundaries_throws_exactly openHand [1; 5]%Z H1)).
  intros H. apply Forall_inv_tail, Forall_inv in H. lia.
Defined.

(** ** The order of the target fingers *)

Lemma forEach_ext {S} (body body' : S -> Z -> outcome S) (indices : list Z) :
  (forall s i, body s i = body' s i) ->
  forall s, forEach body indices s = forEach body' indices s.
Proof.
  intros Hext. induction indices as [|i rest IH]; intros s; cbn [forEach].
  - reflexivity.
  - rewrite Hext. destruct (body' s i); cbn [bind]; [apply IH | reflexivity].
Qed.

Lemma includes_In (arr : list Z) (i : Z) : includes arr i = true <-> In i arr.
Proof.
  unfold includes. rewrite existsb_exists. split.
  - intros [t [Hin Ht]]. apply Z.eqb_eq in Ht. now subst.
  - intros Hin. exists i. split; [exact Hin | apply Z.eqb_refl].
Qed.

Lemma includes_same (arr arr' : list Z) (i : Z) :
  (In i arr <-> In i arr') -> includes arr i = includes arr' i.
Proof.
  intros H. destruct (includes arr i) eqn:E, (includes arr' i) eqn:E'; try reflexivity.
  - apply includes_In, H, includes_In in E. congruence.
  - apply includes_In, H, includes_In in E'. congruence.
Qed.

Lemma filter_Permutation {A} (keep : A -> bool) (xs ys : list A) :
  Permutation xs ys -> Permutation (filter keep xs) (filter keep ys).
Proof.
  induction 1 as [|a l l' _ IH|a b l|l l' l'' _ IH1 _ IH2]; cbn [filter].
  - constructor.
  - destruct (keep a); [constructor|]; exact IH.
  - destruct (keep a), (keep b); try apply Permutation_refl. constructor.
  - eapply Permutation_trans; eassumption.
Qed.

Lemma createBoundariesForTargets_Permutation (ts ts' : list Z)
    (landmarks : list Landmark) (frame : HandFrame) :
  Permutation ts ts' ->
  createBoundariesForTargets ts landmarks frame
  = createBoundariesForTargets ts' landmarks frame.
Proof.
  intros Hp. pose proof (Permutation_length Hp) as Hlen.
  destruct ts as [|a [|b rest]].
  - apply Permutation_nil in Hp. now subst.
  - apply Permutation_length_1_inv in Hp. now subst.
  - destruct ts' as [|a' [|b' rest']]; try discriminate.
    unfold createBoundariesForTargets.
    destruct (length_two_or_more a b rest) as [-> ->].
    destruct (length_two_or_more a' b' rest') as [-> ->].
    destruct (sorted_extremes (a :: b :: rest)) as [lo [hi [Elo [Ehi [Hlo [Hhi Hall]]]]]];
      [discriminate|].
    destruct (sorted_extremes (a' :: b' :: rest'))
      as [lo' [hi' [Elo' [Ehi' [Hlo' [Hhi' Hall']]]]]]; [discriminate|].
    assert (lo = lo').
    { pose proof (Hall lo' (Permutation_in _ (Permutation_sym Hp) Hlo')).
      pose proof (Hall' lo (Permutation_in _ Hp Hlo)). lia. }
    assert (hi = hi').
    { pose proof (Hall hi' (Permutation_in _ (Permutation_sym Hp) Hhi')).
      pose proof (Hall' hi (Permutation_in _ Hp Hhi)). lia. }
    subst lo' hi'.
    rewrite Elo, Ehi, Elo', Ehi'. reflexivity.
Qed.

Lemma isolationBody_includes (landmarks : list Landmark) (ts ts' : list Z)
    (frame : HandFrame) (boundaries : Boundaries) (st : IsoLoop) (i : Z) :
  includes ts i = includes ts' i ->
  isolationBody landmarks ts frame boundaries st i
  = isolationBody landmarks ts' frame boundaries st i.
Proof. intros H. unfold isolationBody. rewrite H. reflexivity. Qed.

(** X3. [evaluateIsolation] does not depend on the order in which the
    target fingers are listed: on two arrangements of the same fingers it
    returns the same result, or throws in both cases. *)
Theorem evaluateIsolation_order_irrelevant :
  forall (landmarks : list Landmark) (targetFingers targetFingers' : list Z),
    Permutation targetFingers targetFingers' ->
    evaluateIsolation landmarks targetFingers = evaluateIsolation landmarks targetFingers'.
Proof.
  intros lm ts ts' Hp. unfold evaluateIsolation.
  destruct (getHandFrame lm) as [frame|]; [|reflexivity]. cbn [bind].
  rewrite (createBoundariesForTargets_Permutation _ (filter (fun f => negb (f =? 0)%Z) ts'))
    by (apply filter_Permutation; exact Hp).
  destruct (createBoundariesForTargets _ lm frame) as [b|]; [|reflexivity]. cbn [bind].
  rewrite (forEach_ext _ (isolationBody lm ts' frame b)); [reflexivity|].
  intros s i. apply isolationBody_includes, includes_same.
  split; apply Permutation_in; [exact Hp | apply Permutation_sym; exact Hp].
Qed.

Lemma evaluateIsolation_order_irrelevant_witness :
  evaluateIsolation openHand [1; 4; 2]%Z = evaluateIsolation openHand [4; 2; 1]%Z.
Proof.
  apply evaluateIsolation_order_irrelevant.
  change (Permutation (1 :: [4; 2]) ([4; 2] ++ 1 :: []))%Z.
  apply Permutation_cons_app, Permutation_refl.
Defined.

(** ** Violations *)

Lemma evaluateNonTargetFinger_violation (fingerIdx : Z) (landmarks : list Landmark)
    (boundaries : Boundaries) (frame : HandFrame) (r : FR.t) :
  evaluateNonTargetFinger fingerIdx landmarks boundaries frame = Returns r ->
  truthy (FR.violation r) = true -> FR.severity r = Some "major"%string.
Proof.
  unfold evaluateNonTargetFinger. derefs. branches; intros [= <-]; cbn; congruence.
Qed.

Lemma Forall2_right {A B} (R : A -> B -> Prop) (l : list A) (l' : list B) :
  Forall2 R l l' -> Forall (fun b => exists a, In a l /\ R a b) l'.
Proof.
  induction 1 as [|a b l l' HR _ IH]; constructor.
  - exists a. split; [now left | exact HR].
  - eapply Forall_impl; [|exact IH].
    intros b' [a' [Hin HR']]. exists a'. split; [now right | exact HR'].
Qed.

(** X4. Every violation that [evaluateIsolation] records is a major one, of
    a finger 1-4 that is not a target (never of the thumb).  So the result
    has either no violation and the plain mean of the target scores as its
    score, or a violation, half that mean as its score and [passed] false:
    the 0.85 penalty for minor violations is never applied. *)
Theorem isolation_violations_are_major :
  forall (landmarks : list Landmark) (targetFingers : list Z) (r : Iso.t),
    evaluateIsolation landmarks targetFingers = Returns r ->
    Forall (majorViolationOfNonTarget targetFingers) (Iso.violations r) /\
    let mean := meanScore (map FR.score (isoTargetResults r)) in
    (Iso.violations r = [] -> Iso.overallScore r = mean) /\
    (Iso.violations r <> [] ->
     Iso.overallScore r = mean * 0.5 /\ Iso.passed r = false).
Proof.
  intros lm ts r E.
  destruct (evaluateIsolation_result lm ts r E) as [Hc [Hs [_ Hp]]].
  destruct Hc as [frame [b [thumb0 [_ [_ [_ [_ [_ [Hnt Hv]]]]]]]]].
  apply Forall2_right in Hnt.
  assert (Hall : Forall (majorViolationOfNonTarget ts) (Iso.violations r)).
  { rewrite Hv. apply Forall_map. apply Forall_forall. intros f Hf.
    apply filter_In in Hf. destruct Hf as [Hin Htr].
    rewrite Forall_forall in Hnt. destruct (Hnt f Hin) as [i [Hi [r0 [E0 ->]]]].
    apply filter_In in Hi. destruct Hi as [Hi Hinc].
    split.
    - cbn. apply (evaluateNonTargetFinger_violation _ _ _ _ _ E0). exact Htr.
    - exists i. cbn. repeat split; try reflexivity.
      + cbn in Hi. lia.
      + cbn in Hi. lia.
      + now apply negb_true_iff. }
  split; [exact Hall|]. cbn zeta in *.
  destruct (Iso.violations r) as [|v vs] eqn:Ev.
  - split; [intros _; exact Hs | intros H; congruence].
  - split; [discriminate|]. intros _.
    assert (Hmaj : isMajor (Viol.severity v) = true).
    { apply Forall_inv in Hall. destruct Hall as [-> _]. reflexivity. }
    cbn [existsb] in Hs, Hp. rewrite Hmaj in Hs, Hp. cbn [orb] in Hs, Hp.
    split; [exact Hs|]. rewrite Hp. cbn [negb]. now rewrite andb_false_r.
Qed.

Lemma isolation_violations_are_major_witness :
  evaluateIsolation openHand [1%Z] = Returns openHandIndexIsolation /\
  Forall (majorViolationOfNonTarget [1%Z]) (Iso.violations openHandIndexIsolation).
Proof.
  assert (H1 : evaluateIsolation openHand [1%Z] = Returns openHandIndexIsolation)
    by (vm_compute; reflexivity).
  split; [exact H1|].
  exact (proj1 (isolation_violations_are_major openHand [1%Z] openHandIndexIsolation H1)).
Defined.

(** ** Zones and passing *)

(** The order of binary64 numbers is transitive. *)
Lemma SFleb_trans (a b c : spec_float) :
  SFleb a b = true -> SFleb b c = true -> SFleb a c = true.
Proof.
  unfold SFleb.
  destruct a as [sa|sa| |sa ma ea], b as [sb|sb| |sb mb eb], c as [sc|sc| |sc mc ec];
    cbn [SFcompare]; try discriminate; try reflexivity;
    try (destruct sa; try discriminate; try reflexivity);
    try (destruct sb; try discriminate; try reflexivity);
    try (destruct sc; try discriminate; try reflexivity).
  all: fold (Pos.compare ma mb); fold (Pos.compare mb mc); fold (Pos.compare ma mc).
  all: destruct (Z.compare_spec ea eb), (Z.compare_spec eb ec), (Z.compare_spec ea ec);
       try discriminate; try reflexivity; try lia; subst.
  all: destruct (Pos.compare_spec ma mb), (Pos.compare_spec mb mc), (Pos.compare_spec ma mc);
       cbn [CompOpp]; try discriminate; try reflexivity; try lia.
Qed.

Lemma leb_trans (a b c : float) :
  (a <=? b) = true -> (b <=? c) = true -> (a <=? c) = true.
Proof. rewrite !leb_spec. apply SFleb_trans. Qed.

(** X5. [getZoneFromScore] is monotone: a score that is at least as high
    never gets a worse zone. *)
Theorem getZoneFromScore_monotone :
  forall (s1 s2 : float),
    (s1 <=? s2) = true ->
    (zoneRank (getZoneFromScore s1) <= zoneRank (getZoneFromScore s2))%nat.
Proof.
  intros s1 s2 H. unfold getZoneFromScore.
  destruct (s1 >=? 0.85) eqn:A1.
  { rewrite (leb_trans _ _ _ A1 H). cbn. lia. }
  destruct (s1 >=? 0.65) eqn:B1.
  { rewrite (leb_trans _ _ _ B1 H). destruct (s2 >=? 0.85); cbn; lia. }
  destruct (s1 >=? 0.40) eqn:C1.
  { rewrite (leb_trans _ _ _ C1 H). destruct (s2 >=? 0.85), (s2 >=? 0.65); cbn; lia. }
  cbn. lia.
Qed.

Lemma getZoneFromScore_monotone_witness :
  (zoneRank (getZoneFromScore 0.5) <= zoneRank (getZoneFromScore 0.7))%nat.
Proof. apply getZoneFromScore_monotone. vm_compute. reflexivity. Defined.

Lemma spread_result (landmarks : list Landmark) (r : Spread.t) :
  evaluateSpread landmarks = Returns r ->
  Spread.zone r = (if Spread.score r >=? 0.85 then GREEN
                   else if Spread.score r >=? 0.65 then BLUE
                   else if Spread.score r >=? 0.45 then YELLOW else RED) /\
  Spread.passed r = (Spread.score r >=? 0.65).
Proof.
  unfold evaluateSpread.
  destruct (getHandFrame landmarks) as [frame|]; [|discriminate]. cbn [bind].
  destruct (forEach (extensionBody landmarks frame true) _ _) as [[rs tot]|]; [|discriminate].
  cbn [bind].
  destruct (forEach (spreadGapBody landmarks frame) _ _) as [[g gs]|]; [|discriminate].
  cbn [bind]. intros [= <-]. cbn. split; reflexivity.
Qed.

Lemma flat_result (landmarks : list Landmark) (r : Flat.t) :
  evaluateFlat landmarks = Returns r ->
  Flat.zone r = (if Flat.score r >=? 0.85 then GREEN
                 else if Flat.score r >=? 0.65 then BLUE
                 else if Flat.score r >=? 0.45 then YELLOW else RED) /\
  Flat.passed r = (Flat.score r >=? 0.65).
Proof.
  unfold evaluateFlat.
  destruct (getHandFrame landmarks) as [frame|]; [|discriminate]. cbn [bind].
  destruct (forEach (extensionBody landmarks frame false) _ _) as [[rs tot]|]; [|discriminate].
  cbn [bind].
  destruct (forEach (flatGapBody landmarks frame) _ _) as [g|]; [|discriminate].
  cbn [bind]. intros [= <-]. cbn. split; reflexivity.
Qed.

Lemma fist_result (landmarks : list Landmark) (r : Fist.t) :
  evaluateFist landmarks = Returns r ->
  Fist.zone r = (if Fist.score r >=? 0.80 then GREEN
                 else if Fist.score r >=? 0.60 then BLUE
                 else if Fist.score r >=? 0.45 then YELLOW else RED) /\
  Fist.passed r = (Fist.score r >=? 0.55).
Proof.
  unfold evaluateFist.
  destruct (getHandFrame landmarks) as [frame|]; [|discriminate]. cbn [bind].
  destruct (forEach (fistBody landmarks frame) _ _) as [[rs tot]|]; [|discriminate].
  cbn [bind]. intros [= <-]. cbn. split; reflexivity.
Qed.

Lemma thresholds_ordered :
  (0.45 <=? 0.55) = true /\ (0.55 <=? 0.60) = true /\ (0.60 <=? 0.80) = true /\
  (0.65 <=? 0.85) = true.
Proof. vm_compute. auto. Qed.

Lemma pinch_pass_checked :
  forallb (fun zs : Zone * float =>
             let (zn, s) := zs in
             implb (s >=? 0.65) (Zone_eqb zn GREEN || Zone_eqb zn BLUE)
             && implb (s * 0.7 >=? 0.65) (Zone_eqb zn GREEN))
          [(GREEN, 1.0); (GREEN, 0.90); (BLUE, 0.75); (YELLOW, 0.55); (YELLOW, 0.40);
           (RED, 0.20)] = true.
Proof. vm_compute. reflexivity. Qed.

Lemma pinchBand_cases (d : float) :
  In (pinchBand d) [(GREEN, 1.0); (GREEN, 0.90); (BLUE, 0.75); (YELLOW, 0.55);
                    (YELLOW, 0.40); (RED, 0.20)].
Proof. unfold pinchBand. branches; cbn; tauto. Qed.

Lemma pinch_pass_zone (landmarks : list Landmark) (pinchPair : list Z) (r : Pinch.t) :
  evaluatePinch landmarks pinchPair = Returns r ->
  Pinch.passed r = true -> goodZone (Pinch.zone r).
Proof.
  intros E Hp. apply evaluatePinch_result in E.
  destruct E as [frame [t1 [t2 [b [_ [_ [_ E]]]]]]]. cbn zeta in E.
  destruct E as [_ [_ [_ [_ [Hs [Hz Hpass]]]]]].
  rewrite Hpass in Hp. rewrite Hs in Hp. rewrite Hz. clear Hs Hz Hpass.
  set (d := distance t1 t2 / handWidth frame) in *.
  pose proof (pinchBand_cases d) as Hb.
  pose proof pinch_pass_checked as Hc. rewrite forallb_forall in Hc.
  specialize (Hc _ Hb). destruct (pinchBand d) as [zn s]. cbn [fst snd] in *.
  apply andb_true_iff in Hc. destruct Hc as [H1 H2].
  destruct (0 <? List.length (Pinch.violations r))%nat.
  - rewrite Hp in H2. cbn in H2. rewrite H2. cbn. right. reflexivity.
  - rewrite Hp in H1. cbn in H1. cbn. destruct zn; cbn in H1; try discriminate;
      [left|right]; reflexivity.
Qed.

(** X6. How [passed] and the zone of a result of [evaluate] go together.
    No result passes with zone RED.  An isolation or a pinch that passes is
    GREEN or BLUE (not conversely).  A spread or a flat hand passes exactly
    when it is GREEN or BLUE.  A fist that is GREEN or BLUE passes, and a
    YELLOW fist may pass too.  A failure result never passes. *)
Theorem passed_agrees_with_zone :
  forall (landmarks : option (list Landmark)) (exercise : option Exercise)
         (r : EvaluationResult),
    evaluate landmarks exercise = Returns r ->
    (passedOf r = true -> zoneOf r <> RED) /\
    match r with
    | FistResult _ => goodZone (zoneOf r) -> passedOf r = true
    | SpreadResult _ | FlatResult _ => goodZone (zoneOf r) <-> passedOf r = true
    | IsolationResult _ | PinchResult _ => passedOf r = true -> goodZone (zoneOf r)
    | ErrorResult _ => passedOf r = false
    end.
Proof.
  intros landmarks exercise r E.
  destruct thresholds_ordered as [T1 [T2 [T3 T4]]].
  assert (Herr : forall m, r = failureResult m ->
            (passedOf r = true -> zoneOf r <> RED) /\ passedOf r = false).
  { intros m ->. cbn. split; [discriminate | reflexivity]. }
  destruct landmarks as [lm|]; [|injection E as <-; exact (Herr _ eq_refl)].
  unfold evaluate in E.
  destruct (Z.of_nat (List.length lm) <? 21)%Z; [injection E as <-; exact (Herr _ eq_refl)|].
  destruct exercise as [ex|]; [|discriminate]. cbn [deref bind] in E.
  destruct (typeIs (type ex) "isolation").
  { destruct (evaluateIsolation lm _) as [i|] eqn:Ei; [|discriminate].
    injection E as <-. cbn [passedOf zoneOf].
    destruct (evaluateIsolation_result _ _ _ Ei) as [_ [Hs [Hz Hp]]].
    cbn zeta in *. rewrite <- Hs in Hz, Hp.
    assert (G : Iso.passed i = true -> goodZone (Iso.overallZone i)).
    { intros P. rewrite Hp in P. apply andb_true_iff in P. destruct P as [_ P].
      rewrite Hz. unfold getZoneFromScore. rewrite P.
      destruct (Iso.overallScore i >=? 0.85); [left|right]; reflexivity. }
    split; [|exact G]. intros P. destruct (G P) as [-> | ->]; discriminate. }
  destruct (typeIs (type ex) "pinch").
  { destruct (evaluatePinch lm _) as [p|] eqn:Ep; [|discriminate].
    injection E as <-. cbn [passedOf zoneOf].
    pose proof (pinch_pass_zone _ _ _ Ep) as G.
    split; [|exact G]. intros P. destruct (G P) as [-> | ->]; discriminate. }
  destruct (typeIs (type ex) "spread").
  { destruct (evaluateSpread lm) as [s|] eqn:Es; [|discriminate].
    injection E as <-. cbn [passedOf zoneOf].
    destruct (spread_result _ _ Es) as [-> ->].
    destruct (Spread.score s >=? 0.85) eqn:A.
    - rewrite (leb_trans 0.65 0.85 _ T4 A). unfold goodZone. intuition discriminate.
    - destruct (Spread.score s >=? 0.65); unfold goodZone.
      + intuition discriminate.
      + destruct (Spread.score s >=? 0.45); intuition discriminate. }
  destruct (typeIs (type ex) "fist").
  { destruct (evaluateFist lm) as [f|] eqn:Ef; [|discriminate].
    injection E as <-. cbn [passedOf zoneOf].
    destruct (fist_result _ _ Ef) as [-> ->].
    destruct (Fist.score f >=? 0.80) eqn:A.
    - rewrite (leb_trans 0.55 0.80 _ (leb_trans 0.55 0.60 0.80 T2 T3) A). unfold goodZone.
      intuition discriminate.
    - destruct (Fist.score f >=? 0.60) eqn:B.
      + rewrite (leb_trans 0.55 0.60 _ T2 B). unfold goodZone. intuition discriminate.
      + destruct (Fist.score f >=? 0.55) eqn:C.
        * rewrite (leb_trans 0.45 0.55 _ T1 C). unfold goodZone. intuition discriminate.
        * unfold goodZone. destruct (Fist.score f >=? 0.45); intuition discriminate. }
  destruct (typeIs (type ex) "flat").
  { destruct (evaluateFlat lm) as [f|] eqn:Ef; [|discriminate].
    injection E as <-. cbn [passedOf zoneOf].
    destruct (flat_result _ _ Ef) as [-> ->].
    destruct (Flat.score f >=? 0.85) eqn:A.
    - rewrite (leb_trans 0.65 0.85 _ T4 A). unfold goodZone. intuition discriminate.
    - destruct (Flat.score f >=? 0.65); unfold goodZone.
      + intuition discriminate.
      + destruct (Flat.score f >=? 0.45); intuition discriminate. }
  injection E as <-. exact (Herr _ eq_refl).
Qed.

Lemma passed_agrees_with_zone_witness :
  evaluate (Some collapsedHand) (Some spreadExercise) = Returns collapsedSpread /\
  (goodZone (zoneOf collapsedSpread) <-> passedOf collapsedSpread = true).
Proof.
  assert (H1 : evaluate (Some collapsedHand) (Some spreadExercise)
               = Returns collapsedSpread) by (vm_compute; reflexivity).
  split; [exact H1|].
  exact (proj2 (passed_agrees_with_zone (Some collapsedHand) (Some spreadExercise)
                                        collapsedSpread H1)).
Defined.

(** ** The fist check and the tip nodes *)

(** X7. [isValidFist] never throws.  It answers false when the landmarks
    are missing or fewer than 21, and otherwise says whether [evaluate]
    passes the fist exercise on them. *)
Theorem isValidFist_never_throws :
  forall (landmarks : option (list Landmark)),
    exists b,
      isValidFist landmarks = Returns b /\
      (invalidLandmarks landmarks -> b = false) /\
      (b = true <->
       exists r, evaluate landmarks (Some fistExercise) = Returns (FistResult r) /\
                 Fist.passed r = true).
Proof.
  intros [lm|].
  - unfold isValidFist, evaluate. cbn [invalidLandmarks].
    destruct (Z.ltb_spec (Z.of_nat (List.length lm)) 21) as [Hs|Hl].
    + exists false. split; [reflexivity|]. split; [reflexivity|].
      split; [discriminate|]. intros [r [E _]]. discriminate.
    + destruct (evaluateFist_returns lm) as [r E]; [lia|].
      exists (Fist.passed r). cbn [deref bind typeIs type fistExercise String.eqb Ascii.eqb
                                   Bool.eqb].
      rewrite E. cbn [bind]. split; [reflexivity|]. split; [lia|].
      split.
      * intros P. exists r. split; [reflexivity | exact P].
      * intros [r' [[= <-] P]]. exact P.
  - exists false. cbn. split; [reflexivity|]. split; [reflexivity|].
    split; [discriminate|]. intros [r [E _]]. discriminate.
Qed.

Lemma getTipNode_indexOf (i : Z) :
  In (getTipNode i) ALL_TIPS /\
  indexOf ALL_TIPS (Some (getTipNode i)) = fingerOrIndex i /\
  item ALL_TIPS (fingerOrIndex i) = Some (getTipNode i).
Proof.
  assert (C : (i = 0 \/ i = 1 \/ i = 2 \/ i = 3 \/ i = 4)%Z \/ ~ (0 <= i <= 4)%Z) by lia.
  destruct C as [C|C].
  - destruct C as [-> | [-> | [-> | [-> | ->]]]]; cbn; intuition.
  - unfold getTipNode, fingerOrIndex. rewrite FINGER_NODES_none by exact C.
    replace ((0 <=? i)%Z && (i <=? 4)%Z) with false
      by (symmetry; apply andb_false_iff; rewrite Z.leb_gt, Z.leb_gt; lia).
    cbn. intuition.
Qed.

(** X8. [getTipNode] and [ALL_TIPS] are inverse to each other: the tip node
    of finger [i] is entry [i] of [ALL_TIPS] and [ALL_TIPS.indexOf] gives
    [i] back, and every tip node is the tip node of its index in
    [ALL_TIPS].  For anything that is not a finger 0-4, [getTipNode] falls
    back to the index fingertip, node 8. *)
Theorem getTipNode_round_trip :
  forall (i : Z),
    In (getTipNode i) ALL_TIPS /\
    indexOf ALL_TIPS (Some (getTipNode i)) = fingerOrIndex i /\
    item ALL_TIPS (fingerOrIndex i) = Some (getTipNode i) /\
    (~ (0 <= i <= 4)%Z -> getTipNode i = 8%Z) /\
    (forall t, In t ALL_TIPS -> getTipNode (indexOf ALL_TIPS (Some t)) = t).
Proof.
  intros i. destruct (getTipNode_indexOf i) as [H1 [H2 H3]].
  repeat split; try assumption.
  - intros C. unfold getTipNode. now rewrite FINGER_NODES_none.
  - intros t Ht. cbn in Ht. destruct Ht as [<-|[<-|[<-|[<-|[<-|[]]]]]]; reflexivity.
Qed.

(** X9. A pinch between the tip nodes that [getTipNode] gives for any two
    finger indices never throws on 21 or more landmarks, and reports those
    fingers as the involved ones (the index finger for an index that is not
    a finger). *)
Theorem evaluatePinch_of_getTipNode :
  forall (landmarks : list Landmark) (a b : Z),
    (21 <= List.length landmarks)%nat ->
    exists r,
      evaluatePinch landmarks [getTipNode a; getTipNode b] = Returns r /\
      Pinch.involvedFingers r = [fingerOrIndex a; fingerOrIndex b].
Proof.
  intros lm a b Hlen.
  destruct (getTipNode_indexOf a) as [Ha [Ia _]].
  destruct (getTipNode_indexOf b) as [Hb [Ib _]].
  destruct (evaluatePinch_returns lm [getTipNode a; getTipNode b] Hlen) as [r E].
  { exists (getTipNode a), (getTipNode b). auto. }
  exists r. split; [exact E|].
  apply evaluatePinch_result in E.
  destruct E as [frame [t1 [t2 [bd [_ [_ [_ E]]]]]]]. cbn zeta in E.
  destruct E as [_ [_ [Hi _]]]. rewrite Hi, item_head, item_second, Ia, Ib. reflexivity.
Qed.

Lemma evaluatePinch_of_getTipNode_witness :
  (21 <= List.length openHand)%nat /\
  exists r, evaluatePinch openHand [getTipNode 0; getTipNode 9] = Returns r /\
            Pinch.involvedFingers r = [0; 1]%Z.
Proof.
  assert (H1 : (21 <= List.length openHand)%nat) by (cbn; lia).
  split; [exact H1|].
  exact (evaluatePinch_of_getTipNode openHand 0 9 H1).
Defined.

(** ** The thumb's landmarks *)

Section ThumbLandmarks.

Variables landmarks landmarks' : list Landmark.
Hypothesis Hsame : sameButThumb landmarks landmarks'.

Lemma sameButThumb_getHandFrame : getHandFrame landmarks = getHandFrame landmarks'.
Proof.
  unfold getHandFrame.
  rewrite (Hsame 0%Z), (Hsame 5%Z), (Hsame 9%Z), (Hsame 12%Z), (Hsame 13%Z), (Hsame 17%Z) by lia.
  reflexivity.
Qed.

Lemma finger_nodes_not_thumb (i : Z) (nodes : FingerNodes) :
  i <> 0%Z -> FINGER_NODES i = Some nodes ->
  (5 <= mcp nodes /\ 5 <= pip nodes /\ 5 <= dip nodes /\ 5 <= tip nodes)%Z.
Proof.
  intros Hi E.
  destruct (Z_le_dec 0 i), (Z_le_dec i 4);
    try (rewrite FINGER_NODES_none in E by lia; discriminate).
  assert (C : (i = 1 \/ i = 2 \/ i = 3 \/ i = 4)%Z) by lia.
  destruct C as [-> | [-> | [-> | ->]]]; injection E as <-; cbn; lia.
Qed.

Lemma sameButThumb_createBoundaryForFinger (i : Z) (frame : HandFrame) :
  i <> 0%Z ->
  createBoundaryForFinger i landmarks frame = createBoundaryForFinger i landmarks' frame.
Proof.
  intros Hi. unfold createBoundaryForFinger.
  destruct (FINGER_NODES i) as [nodes|] eqn:E; [|reflexivity].
  destruct (finger_nodes_not_thumb i nodes Hi E) as [H1 [H2 [H3 H4]]].
  cbn [deref bind]. rewrite (Hsame (pip nodes)), (Hsame (dip nodes)), (Hsame (mcp nodes)) by lia.
  reflexivity.
Qed.

Lemma nonThumb_not_thumb (ts : list Z) (t : Z) : In t (nonThumb ts) -> t <> 0%Z.
Proof.
  unfold nonThumb. intros H. apply filter_In in H. destruct H as [_ H].
  apply negb_true_iff, Z.eqb_neq in H. exact H.
Qed.

Lemma sameButThumb_createBoundariesForTargets (ts : list Z) (frame : HandFrame) :
  createBoundariesForTargets (nonThumb ts) landmarks frame
  = createBoundariesForTargets (nonThumb ts) landmarks' frame.
Proof.
  pose proof (nonThumb_not_thumb ts) as Hnt.
  unfold createBoundariesForTargets.
  destruct (nonThumb ts) as [|a [|b rest]] eqn:El.
  - cbn [List.length Z.of_nat Z.eqb]. apply sameButThumb_createBoundaryForFinger. lia.
  - cbn [List.length Z.of_nat Z.eqb Pos.of_succ_nat Pos.eqb]. rewrite item_head.
    cbn [deref bind]. apply sameButThumb_createBoundaryForFinger. apply Hnt. now left.
  - set (l := a :: b :: rest) in *.
    destruct (sorted_extremes l) as [lo [hi [Elo [Ehi [Hlo [Hhi _]]]]]]; [discriminate|].
    replace (Z.of_nat (List.length l) =? 0)%Z with false
      by (symmetry; apply Z.eqb_neq; unfold l; cbn [List.length]; lia).
    replace (Z.of_nat (List.length l) =? 1)%Z with false
      by (symmetry; apply Z.eqb_neq; unfold l; cbn [List.length]; lia).
    rewrite Elo, Ehi. cbn [deref bind].
    destruct (FINGER_NODES lo) as [ln|] eqn:EL; [|reflexivity].
    destruct (FINGER_NODES hi) as [rn|] eqn:ER; [|reflexivity].
    destruct (finger_nodes_not_thumb lo ln (Hnt lo Hlo) EL) as [L1 [L2 [L3 _]]].
    destruct (finger_nodes_not_thumb hi rn (Hnt hi Hhi) ER) as [R1 [R2 [R3 _]]].
    cbn [deref bind].
    rewrite (Hsame (pip ln)), (Hsame (pip rn)), (Hsame (dip ln)), (Hsame (dip rn)),
            (Hsame (mcp ln)), (Hsame (mcp rn)) by lia.
    reflexivity.
Qed.

Lemma sameButThumb_evaluateTargetFinger (i : Z) (frame : HandFrame) :
  i <> 0%Z ->
  evaluateTargetFinger i landmarks frame = evaluateTargetFinger i landmarks' frame.
Proof.
  intros Hi. unfold evaluateTargetFinger.
  destruct (FINGER_NODES i) as [nodes|] eqn:E; [|reflexivity].
  destruct (finger_nodes_not_thumb i nodes Hi E) as [H1 [H2 [H3 H4]]].
  cbn [deref bind].
  rewrite (Hsame (tip nodes)), (Hsame (dip nodes)), (Hsame (pip nodes)),
          (Hsame (mcp nodes)), (Hsame 0%Z) by lia.
  reflexivity.
Qed.

Lemma sameButThumb_evaluateNonTargetFinger (i : Z) (b : Boundaries) (frame : HandFrame) :
  i <> 0%Z ->
  evaluateNonTargetFinger i landmarks b frame
  = evaluateNonTargetFinger i landmarks' b frame.
Proof.
  intros Hi. unfold evaluateNonTargetFinger.
  destruct (FINGER_NODES i) as [nodes|] eqn:E; [|reflexivity].
  destruct (finger_nodes_not_thumb i nodes Hi E) as [H1 [H2 [H3 H4]]].
  cbn [deref bind]. rewrite (Hsame (tip nodes)) by lia. reflexivity.
Qed.

End ThumbLandmarks.

Lemma isolationBody_without_thumb (landmarks landmarks' : list Landmark) (ts : list Z)
    (frame : HandFrame) (b : Boundaries) (st st' st1 st1' : IsoLoop) (i : Z) :
  sameButThumb landmarks landmarks' -> includes ts 0 = false ->
  loopWithoutThumb st = loopWithoutThumb st' ->
  isolationBody landmarks ts frame b st i = Returns st1 ->
  isolationBody landmarks' ts frame b st' i = Returns st1' ->
  loopWithoutThumb st1 = loopWithoutThumb st1'.
Proof.
  intros Hsame Hno Hst. unfold isolationBody.
  destruct st as [res s c ok mj], st' as [res' s' c' ok' mj'].
  pose proof (f_equal targetScoreSum Hst) as Hs.
  pose proof (f_equal targetCount Hst) as Hc.
  pose proof (f_equal allTargetsOk Hst) as Hok.
  pose proof (f_equal hasMajorViolation Hst) as Hmj.
  pose proof (f_equal results Hst) as Hres.
  cbn [loopWithoutThumb results targetScoreSum targetCount allTargetsOk hasMajorViolation]
    in Hs, Hc, Hok, Hmj, Hres.
  subst s' c' ok' mj'.
  pose proof (f_equal Iso.targets Hres) as Ht.
  pose proof (f_equal Iso.nonTargets Hres) as Hn.
  pose proof (f_equal Iso.violations Hres) as Hv.
  pose proof (f_equal Iso.overallZone Hres) as Hz.
  pose proof (f_equal Iso.overallScore Hres) as Hsc.
  pose proof (f_equal Iso.passed Hres) as Hp.
  cbn in Ht, Hn, Hv, Hz, Hsc, Hp. clear Hst Hres.
  cbn [results targetScoreSum targetCount allTargetsOk hasMajorViolation].
  destruct (Z.eqb_spec i 0) as [->|Hi].
  - rewrite Hno.
    destruct (evaluateThumb landmarks frame false) as [r|]; [|discriminate].
    destruct (evaluateThumb landmarks' frame false) as [r'|]; [|discriminate].
    cbn [bind]. intros [= <-] [= <-]. unfold loopWithoutThumb, withoutThumb. cbn.
    rewrite ?Ht, ?Hn, ?Hv, ?Hz, ?Hsc, ?Hp; reflexivity.
  - destruct (includes ts i).
    + rewrite (sameButThumb_evaluateTargetFinger _ _ Hsame i frame Hi).
      destruct (evaluateTargetFinger i landmarks' frame) as [r|]; [|discriminate].
      cbn [bind]. intros [= <-] [= <-]. unfold loopWithoutThumb, withoutThumb. cbn.
      rewrite ?Ht, ?Hn, ?Hv, ?Hz, ?Hsc, ?Hp; reflexivity.
    + rewrite (sameButThumb_evaluateNonTargetFinger _ _ Hsame i b frame Hi).
      destruct (evaluateNonTargetFinger i landmarks' b frame) as [r|]; [|discriminate].
      cbn [bind]. intros [= <-] [= <-]. unfold loopWithoutThumb, withoutThumb. cbn.
      rewrite ?Ht, ?Hn, ?Hv, ?Hz, ?Hsc, ?Hp; reflexivity.
Qed.

Lemma isolation_loop_without_thumb (landmarks landmarks' : list Landmark) (ts : list Z)
    (frame : HandFrame) (b : Boundaries) (indices : list Z) :
  sameButThumb landmarks landmarks' -> includes ts 0 = false ->
  forall st st' st1 st1',
    loopWithoutThumb st = loopWithoutThumb st' ->
    forEach (isolationBody landmarks ts frame b) indices st = Returns st1 ->
    forEach (isolationBody landmarks' ts frame b) indices st' = Returns st1' ->
    loopWithoutThumb st1 = loopWithoutThumb st1'.
Proof.
  intros Hsame Hno. induction indices as [|i rest IH]; intros st st' st1 st1' Hst; cbn [forEach].
  - intros [= <-] [= <-]. exact Hst.
  - destruct (isolationBody landmarks ts frame b st i) as [s2|] eqn:E2; [|discriminate].
    destruct (isolationBody landmarks' ts frame b st' i) as [s2'|] eqn:E2'; [|discriminate].
    cbn [bind]. apply IH.
    exact (isolationBody_without_thumb _ _ _ _ _ _ _ _ _ _ Hsame Hno Hst E2 E2').
Qed.

(** X10. The thumb's landmarks do not matter unless the thumb is a target:
    if two landmark arrays agree everywhere but at the thumb's landmarks 1-4
    and the thumb is no target finger, [evaluateIsolation] gives on both the
    same target and non-target entries, violations, score, zone and
    [passed]; only the [thumb] entry can differ. *)
Theorem thumb_landmarks_do_not_matter :
  forall (landmarks landmarks' : list Landmark) (targetFingers : list Z) (r r' : Iso.t),
    sameButThumb landmarks landmarks' ->
    includes targetFingers 0 = false ->
    evaluateIsolation landmarks targetFingers = Returns r ->
    evaluateIsolation landmarks' targetFingers = Returns r' ->
    withoutThumb r = withoutThumb r'.
Proof.
  intros lm lm' ts r r' Hsame Hno. unfold evaluateIsolation.
  rewrite <- (sameButThumb_getHandFrame _ _ Hsame).
  destruct (getHandFrame lm) as [frame|]; [|discriminate]. cbn [bind].
  fold (nonThumb ts).
  rewrite <- (sameButThumb_createBoundariesForTargets _ _ Hsame).
  destruct (createBoundariesForTargets (nonThumb ts) lm frame) as [b|]; [|discriminate].
  cbn [bind].
  destruct (forEach (isolationBody lm ts frame b) _ _) as [st|] eqn:E; [|discriminate].
  destruct (forEach (isolationBody lm' ts frame b) _ _) as [st'|] eqn:E'; [|discriminate].
  cbn [bind]. intros [= <-] [= <-].
  pose proof (isolation_loop_without_thumb _ _ _ _ _ _ Hsame Hno _ _ _ _ eq_refl E E') as H.
  pose proof (f_equal targetScoreSum H) as Hs.
  pose proof (f_equal targetCount H) as Hc.
  pose proof (f_equal allTargetsOk H) as Hok.
  pose proof (f_equal hasMajorViolation H) as Hmj.
  pose proof (f_equal results H) as Hres.
  cbn [loopWithoutThumb results targetScoreSum targetCount allTargetsOk hasMajorViolation]
    in Hs, Hc, Hok, Hmj, Hres.
  pose proof (f_equal Iso.targets Hres) as Ht.
  pose proof (f_equal Iso.nonTargets Hres) as Hn.
  pose proof (f_equal Iso.violations Hres) as Hv.
  cbn in Ht, Hn, Hv.
  unfold withoutThumb. cbn. rewrite Hs, Hc, Hok, Hmj, Ht, Hn, Hv. reflexivity.
Qed.

Lemma openHand_pinchedHand_sameButThumb : sameButThumb openHand pinchedHand.
Proof.
  intros k Hk. unfold item.
  destruct (Z.ltb_spec k 0) as [Hneg|Hpos]; [reflexivity|].
  assert (Hn : (Z.to_nat k = 0 \/ 5 <= Z.to_nat k)%nat) by lia.
  destruct (Z.to_nat k) as [|n]; [reflexivity|].
  do 4 (destruct n as [|n]; [lia|]).
  do 16 (destruct n as [|n]; [reflexivity|]).
  destruct n; reflexivity.
Qed.

Lemma thumb_landmarks_do_not_matter_witness :
  withoutThumb openHandIndexIsolation = withoutThumb pinchedHandIndexIsolation.
Proof.
  apply (thumb_landmarks_do_not_matter openHand pinchedHand [1%Z]).
  - exact openHand_pinchedHand_sameButThumb.
  - reflexivity.
  - vm_compute. reflexivity.
  - vm_compute. reflexivity.
Defined.

(** ** Symmetry of the distance and of the pinch *)

Lemma binary_round_aux_opp (sx : bool) (mx ex : Z) (lx : location) :
  binary_round_aux prec emax (negb sx) mx ex lx
  = SFopp (binary_round_aux prec emax sx mx ex lx).
Proof.
  unfold binary_round_aux.
  destruct (shr_fexp prec emax mx ex lx) as [mrs' e'].
  destruct (shr_fexp prec emax _ e' loc_Exact) as [mrs'' e''].
  destruct (shr_m mrs''); [reflexivity| |reflexivity].
  destruct (e'' <=? emax - prec)%Z; reflexivity.
Qed.

Lemma binary_normalize_opp (m e : Z) :
  m <> 0%Z ->
  binary_normalize prec emax (- m) e false = SFopp (binary_normalize prec emax m e false).
Proof.
  intros Hm. destruct m as [|p|p]; [congruence| |]; cbn [Z.opp binary_normalize];
    unfold binary_round;
    destruct (shl_align p e _) as [mz ez].
  - apply (binary_round_aux_opp false).
  - rewrite (binary_round_aux_opp true). cbn [negb].
    destruct (binary_round_aux prec emax true (Z.pos mz) ez loc_Exact) as [[]|[]| |[] ? ?];
      reflexivity.
Qed.

(** Swapping the operands of a subtraction negates the result, except that
    equal operands give +0 both ways. *)
Lemma SFsub_swap (a b : spec_float) :
  SFsub prec emax b a = SFopp (SFsub prec emax a b) \/
  (SFsub prec emax a b = S754_zero false /\ SFsub prec emax b a = S754_zero false).
Proof.
  destruct a as [sa|sa| |sa ma ea], b as [sb|sb| |sb mb eb]; cbn [SFsub SFopp];
    try (left; reflexivity);
    try (destruct sa, sb; cbn; auto; fail);
    try (destruct sa; cbn; auto; fail);
    try (destruct sb; cbn; auto; fail).
  rewrite Z.min_comm.
  set (ez := Z.min ea eb).
  set (A := cond_Zopp sa (Z.pos (fst (shl_align ma ea ez)))).
  set (B := cond_Zopp sb (Z.pos (fst (shl_align mb eb ez)))).
  destruct (Z.eq_dec (A - B) 0) as [E|E].
  - right. replace (B - A)%Z with 0%Z by lia. rewrite E. split; reflexivity.
  - left. replace (B - A)%Z with (- (A - B))%Z by lia. apply binary_normalize_opp. exact E.
Qed.

Lemma SFeqb_opp (s : spec_float) : SFeqb (SFopp s) (SFopp s) = SFeqb s s.
Proof.
  unfold SFeqb. destruct s as [[]|[]| |sg m e]; cbn [SFopp]; try reflexivity.
  now rewrite !SFcompare_refl_finite.
Qed.

Lemma is_nan_sub_swap (a b : float) : is_nan (a - b) = is_nan (b - a).
Proof.
  unfold is_nan. rewrite !FloatAxioms.eqb_spec, !sub_spec. unfold SF64sub.
  destruct (SFsub_swap (Prim2SF a) (Prim2SF b)) as [-> | [-> ->]].
  - now rewrite SFeqb_opp.
  - reflexivity.
Qed.

Lemma SFabs_opp (s : spec_float) : SFabs (SFopp s) = SFabs s.
Proof. destruct s as [[]|[]| |[] m e]; reflexivity. Qed.

(** The two differences of a pair of numbers have the same absolute value. *)
Lemma abs_sub_swap (a b : float) : abs (a - b) = abs (b - a).
Proof.
  apply Prim2SF_inj. rewrite !abs_spec, !sub_spec. unfold SF64sub.
  destruct (SFsub_swap (Prim2SF a) (Prim2SF b)) as [-> | [-> ->]].
  - now rewrite SFabs_opp.
  - reflexivity.
Qed.

(** [Math.hypot] looks at its arguments only through their absolute values
    and through which of them are NaN. *)
Lemma Math_hypot_abs (args args' : list float) :
  Forall2 (fun v v' => abs v = abs v' /\ is_nan v = is_nan v') args args' ->
  Math_hypot args = Math_hypot args'.
Proof.
  intros H. unfold Math_hypot.
  assert (E : hypotScan args = hypotScan args'); [|now rewrite E].
  unfold hypotScan. generalize (@nil float, false, 0).
  induction H as [|v v' l l' [Ha Hn] _ IH]; intros st; cbn [fold_left]; [reflexivity|].
  destruct st as [[absoluteValues oneArgIsNaN] max].
  rewrite Ha, Hn. apply IH.
Qed.

Lemma distance_swap (p q : Landmark) : distance p q = distance q p.
Proof.
  unfold distance. apply Math_hypot_abs.
  repeat (constructor; [split; [apply abs_sub_swap | apply is_nan_sub_swap]|]).
  constructor.
Qed.

(** X11. [distance] and [distance2D] are symmetric, bit for bit, for all
    points: also when a coordinate is NaN or infinite or a [z] is missing. *)
Theorem distance_symmetric :
  forall (p q : Landmark),
    distance p q = distance q p /\ distance2D p q = distance2D q p.
Proof.
  intros p q. split; [apply distance_swap|].
  unfold distance2D. apply Math_hypot_abs.
  repeat (constructor; [split; [apply abs_sub_swap | apply is_nan_sub_swap]|]).
  constructor.
Qed.

Lemma pinchBody_includes (landmarks : list Landmark) (inv inv' : list Z)
    (b : Boundaries) (frame : HandFrame) (vs : list Viol.t) (i : Z) :
  includes inv i = includes inv' i ->
  pinchBody landmarks inv b frame vs i = pinchBody landmarks inv' b frame vs i.
Proof. intros H. unfold pinchBody. rewrite H. reflexivity. Qed.

(** X12. The pinch does not depend on the order of the pair: with the two
    nodes exchanged [evaluatePinch] returns the same distance, zone, score,
    [passed] and violations, with [involvedFingers] in the opposite order,
    or throws in both cases. *)
Theorem evaluatePinch_symmetric :
  forall (landmarks : list Landmark) (a b : Z),
    evaluatePinch landmarks [b; a]
    = (r <- evaluatePinch landmarks [a; b] ;; Returns (involvedReversed r)).
Proof.
  intros lm a b. unfold evaluatePinch.
  destruct (getHandFrame lm) as [frame|[]]; [|reflexivity]. cbn [bind].
  rewrite !item_head, !item_second. cbn [itemAt].
  destruct (item lm a) as [ta|], (item lm b) as [tb|]; try reflexivity.
  cbn [deref bind].
  rewrite (distance_swap ta tb).
  set (d := distance tb ta / handWidth frame).
  set (band := if d <? 0.05 then _ else _). destruct band as [zn sc].
  cbn [map].
  set (fa := indexOf ALL_TIPS (Some a)). set (fb := indexOf ALL_TIPS (Some b)).
  assert (Hp : Permutation (filter (fun f => negb (f =? 0)%Z) [fb; fa])
                           (filter (fun f => negb (f =? 0)%Z) [fa; fb])).
  { apply filter_Permutation. apply perm_swap. }
  rewrite (Permutation_length Hp).
  rewrite (createBoundariesForTargets_Permutation _ _ lm frame Hp).
  destruct (if (0 <? _)%nat then _ else _) as [bd|[]]; [|reflexivity]. cbn [bind].
  rewrite (forEach_ext _ (pinchBody lm [fa; fb] bd frame)).
  2:{ intros s i. apply pinchBody_includes, includes_same. cbn. tauto. }
  destruct (forEach _ _ _) as [vs|[]]; [|reflexivity]. cbn [bind].
  reflexivity.
Qed.

(** ** Spread, flat hand and fist *)

Lemma extensionBody_entry (landmarks : list Landmark) (frame : HandFrame) (withIndex : bool)
    (st st' : list FR.t * float) (i : Z) :
  extensionBody landmarks frame withIndex st i = Returns st' ->
  exists f, extensionEntry landmarks frame withIndex i f /\
            st' = (fst st ++ [f], snd st + FR.score f).
Proof.
  unfold extensionBody, extensionEntry.
  destruct (if (i =? 0)%Z then _ else _) as [r0|]; [|discriminate]. cbn [bind].
  intros [= <-]. eexists. split; [exists r0; split; reflexivity | reflexivity].
Qed.

Lemma spreadGapBody_entry (landmarks : list Landmark) (frame : HandFrame)
    (st st' : float * list float) (i : Z) :
  spreadGapBody landmarks frame st i = Returns st' ->
  exists g, tipGap landmarks frame i g /\
            st' = (fst st + spreadGapTier g, snd st ++ [g]).
Proof.
  unfold spreadGapBody, tipGap, spreadGapTier.
  destruct (itemAt landmarks (item ALL_TIPS i)) as [a|]; [|discriminate].
  destruct (itemAt landmarks (item ALL_TIPS (i + 1))) as [b|]; [|discriminate].
  cbn [deref bind]. intros E. exists (distance a b / handWidth frame).
  split; [exists a, b; auto|].
  revert E. branches; intros [= <-]; reflexivity.
Qed.

Lemma flatGapBody_entry (landmarks : list Landmark) (frame : HandFrame)
    (s s' : float) (i : Z) :
  flatGapBody landmarks frame s i = Returns s' ->
  exists g, tipGap landmarks frame i g /\ s' = s + flatGapTier g.
Proof.
  unfold flatGapBody, tipGap, flatGapTier.
  destruct (itemAt landmarks (item ALL_TIPS i)) as [a|]; [|discriminate].
  destruct (itemAt landmarks (item ALL_TIPS (i + 1))) as [b|]; [|discriminate].
  cbn [deref bind]. intros E. exists (distance a b / handWidth frame).
  split; [exists a, b; auto|].
  revert E. branches; intros [= <-]; reflexivity.
Qed.

Lemma fistBody_entry (landmarks : list Landmark) (frame : HandFrame)
    (st st' : list FR.t * float) (i : Z) :
  fistBody landmarks frame st i = Returns st' ->
  exists f, fistEntry landmarks frame i f /\ st' = (fst st ++ [f], snd st + FR.score f).
Proof.
  unfold fistBody.
  destruct (FINGER_NODES i) as [nodes|] eqn:En; [|discriminate]. cbn [deref bind].
  destruct (item landmarks (tip nodes)) as [tipP|] eqn:Et; [|discriminate]. cbn [deref bind].
  destruct (item landmarks (mcp nodes)) as [mcpP|] eqn:Em; [|discriminate]. cbn [deref bind].
  destruct (item landmarks 0) as [w|] eqn:Ew; [|discriminate]. cbn [deref bind].
  fold (fistTier ((y tipP - y mcpP) / handLength frame) (distance tipP w / distance mcpP w)).
  destruct (fistTier _ _) as [[zn sc] cu] eqn:T.
  intros [= <-].
  match goal with |- exists f, _ /\ (_ ++ [?r], _) = _ => exists r end.
  split; [|reflexivity].
  exists tipP, mcpP, w.
  split; [exists nodes; split; assumption|].
  split; [exists nodes; split; assumption|].
  split; [exact Ew|].
  cbn zeta. rewrite T. cbn. auto.
Qed.

Ltac entry_step lem :=
  cbn [forEach];
  match goal with
  | |- bind ?c _ = _ -> _ =>
      let st := fresh "st" in
      let B := fresh "B" in
      let f := fresh "f" in
      let F := fresh "F" in
      destruct c as [st|] eqn:B; [|discriminate]; cbn [bind];
      apply lem in B; destruct B as [f [F ->]]; cbn [fst snd app]
  end.

Lemma extension_loop_entries (landmarks : list Landmark) (frame : HandFrame)
    (withIndex : bool) (results : list FR.t) (total : float) :
  forEach (extensionBody landmarks frame withIndex) [0; 1; 2; 3; 4]%Z ([], 0)
  = Returns (results, total) ->
  Forall2 (extensionEntry landmarks frame withIndex) [0; 1; 2; 3; 4]%Z results /\
  total = sumOf (map FR.score results).
Proof.
  do 5 entry_step extensionBody_entry. cbn [forEach]. intros [= <- <-].
  split; [|reflexivity].
  repeat (apply Forall2_cons; [assumption|]). apply Forall2_nil.
Qed.

Lemma spread_gap_loop_entries (landmarks : list Landmark) (frame : HandFrame)
    (gapScore : float) (gaps : list float) :
  forEach (spreadGapBody landmarks frame) [0; 1; 2; 3]%Z (0, []) = Returns (gapScore, gaps) ->
  Forall2 (tipGap landmarks frame) [0; 1; 2; 3]%Z gaps /\
  gapScore = sumOf (map spreadGapTier gaps).
Proof.
  do 4 entry_step spreadGapBody_entry. cbn [forEach]. intros [= <- <-].
  split; [|reflexivity].
  repeat (apply Forall2_cons; [assumption|]). apply Forall2_nil.
Qed.

Lemma flat_gap_loop_entries (landmarks : list Landmark) (frame : HandFrame) (total : float) :
  forEach (flatGapBody landmarks frame) [0; 1; 2; 3]%Z 0 = Returns total ->
  exists gaps, Forall2 (tipGap landmarks frame) [0; 1; 2; 3]%Z gaps /\
               total = sumOf (map flatGapTier gaps).
Proof.
  cbn [forEach].
  destruct (flatGapBody landmarks frame 0 0) as [s0|] eqn:B0; [|discriminate]. cbn [bind].
  destruct (flatGapBody landmarks frame s0 1) as [s1|] eqn:B1; [|discriminate]. cbn [bind].
  destruct (flatGapBody landmarks frame s1 2) as [s2|] eqn:B2; [|discriminate]. cbn [bind].
  destruct (flatGapBody landmarks frame s2 3) as [s3|] eqn:B3; [|discriminate]. cbn [bind].
  intros [= <-].
  apply flatGapBody_entry in B0, B1, B2, B3.
  destruct B0 as [g0 [G0 ->]], B1 as [g1 [G1 ->]], B2 as [g2 [G2 ->]], B3 as [g3 [G3 ->]].
  exists [g0; g1; g2; g3]. split; [|reflexivity].
  repeat (apply Forall2_cons; [assumption|]). apply Forall2_nil.
Qed.

Lemma fist_loop_entries (landmarks : list Landmark) (frame : HandFrame)
    (results : list FR.t) (total : float) :
  forEach (fistBody landmarks frame) [0; 1; 2; 3; 4]%Z ([], 0) = Returns (results, total) ->
  Forall2 (fistEntry landmarks frame) [0; 1; 2; 3; 4]%Z results /\
  total = sumOf (map FR.score results).
Proof.
  do 5 entry_step fistBody_entry. cbn [forEach]. intros [= <- <-].
  split; [|reflexivity].
  repeat (apply Forall2_cons; [assumption|]). apply Forall2_nil.
Qed.

(** X13. What [evaluateSpread] returns is assembled as follows.  The five
    finger entries are the results of the extension classifiers for fingers
    0-4 in order, tagged with name and index; the extension score is the sum
    of their scores over 5; the four gaps are the distances between adjacent
    fingertips in hand widths; the gap score is the sum of their tier values
    over 4; the score is half the one plus half the other; the zone follows
    the scale 0.85 / 0.65 / 0.45 and [passed] is score >= 0.65. *)
Theorem evaluateSpread_aggregate :
  forall (landmarks : list Landmark) (r : Spread.t),
    evaluateSpread landmarks = Returns r ->
    exists frame,
      getHandFrame landmarks = Returns frame /\
      Forall2 (extensionEntry landmarks frame true) [0; 1; 2; 3; 4]%Z (Spread.fingerResults r) /\
      Spread.extensionScore r = sumOf (map FR.score (Spread.fingerResults r)) / 5 /\
      Forall2 (tipGap landmarks frame) [0; 1; 2; 3]%Z (Spread.gaps r) /\
      Spread.gapScore r = sumOf (map spreadGapTier (Spread.gaps r)) / 4 /\
      Spread.score r = Spread.extensionScore r * 0.5 + Spread.gapScore r * 0.5 /\
      Spread.zone r = (if Spread.score r >=? 0.85 then GREEN
                       else if Spread.score r >=? 0.65 then BLUE
                       else if Spread.score r >=? 0.45 then YELLOW else RED) /\
      Spread.passed r = (Spread.score r >=? 0.65).
Proof.
  intros lm r. unfold evaluateSpread.
  destruct (getHandFrame lm) as [frame|]; [|discriminate]. cbn [bind].
  destruct (forEach (extensionBody lm frame true) _ _) as [[rs tot]|] eqn:E1; [|discriminate].
  cbn [bind].
  destruct (forEach (spreadGapBody lm frame) _ _) as [[g gs]|] eqn:E2; [|discriminate].
  cbn [bind]. intros [= <-]. cbn.
  apply extension_loop_entries in E1. destruct E1 as [F1 ->].
  apply spread_gap_loop_entries in E2. destruct E2 as [F2 ->].
  exists frame. repeat split; auto.
Qed.

Lemma evaluateSpread_aggregate_witness :
  evaluateSpread openHand = Returns openHandSpread /\
  Spread.score openHandSpread
  = Spread.extensionScore openHandSpread * 0.5 + Spread.gapScore openHandSpread * 0.5.
Proof.
  assert (H1 : evaluateSpread openHand = Returns openHandSpread)
    by (vm_compute; reflexivity).
  split; [exact H1|].
  destruct (evaluateSpread_aggregate openHand openHandSpread H1)
    as (frame & _ & _ & _ & _ & _ & S & _).
  exact S.
Defined.

(** X14. What [evaluateFlat] returns is assembled as follows.  The five
    finger entries are the results of the extension classifiers for fingers
    0-4 in order, tagged with the name but with no finger index; the
    extension score is the sum of their scores over 5; the together score is
    the sum over 4 of the tier values of the gaps between adjacent
    fingertips (small gaps scoring high); the score is 0.6 times the one
    plus 0.4 times the other; the zone follows the scale 0.85 / 0.65 / 0.45
    and [passed] is score >= 0.65. *)
Theorem evaluateFlat_aggregate :
  forall (landmarks : list Landmark) (r : Flat.t),
    evaluateFlat landmarks = Returns r ->
    exists frame gaps,
      getHandFrame landmarks = Returns frame /\
      Forall2 (extensionEntry landmarks frame false) [0; 1; 2; 3; 4]%Z (Flat.fingerResults r) /\
      Forall (fun f => FR.fingerIndex f = None) (Flat.fingerResults r) /\
      Flat.extensionScore r = sumOf (map FR.score (Flat.fingerResults r)) / 5 /\
      Forall2 (tipGap landmarks frame) [0; 1; 2; 3]%Z gaps /\
      Flat.togetherScore r = sumOf (map flatGapTier gaps) / 4 /\
      Flat.score r = Flat.extensionScore r * 0.6 + Flat.togetherScore r * 0.4 /\
      Flat.zone r = (if Flat.score r >=? 0.85 then GREEN
                     else if Flat.score r >=? 0.65 then BLUE
                     else if Flat.score r >=? 0.45 then YELLOW else RED) /\
      Flat.passed r = (Flat.score r >=? 0.65).
Proof.
  intros lm r. unfold evaluateFlat.
  destruct (getHandFrame lm) as [frame|]; [|discriminate]. cbn [bind].
  destruct (forEach (extensionBody lm frame false) _ _) as [[rs tot]|] eqn:E1; [|discriminate].
  cbn [bind].
  destruct (forEach (flatGapBody lm frame) _ _) as [g|] eqn:E2; [|discriminate].
  cbn [bind]. intros [= <-]. cbn.
  apply extension_loop_entries in E1. destruct E1 as [F1 ->].
  apply flat_gap_loop_entries in E2. destruct E2 as [gaps [F2 ->]].
  exists frame, gaps. repeat split; auto.
  clear - F1. apply Forall2_right in F1. eapply Forall_impl; [|exact F1].
  intros f [i [_ [r0 [_ ->]]]]. reflexivity.
Qed.

Lemma evaluateFlat_aggregate_witness :
  evaluateFlat openHand = Returns openHandFlat /\
  Flat.score openHandFlat
  = Flat.extensionScore openHandFlat * 0.6 + Flat.togetherScore openHandFlat * 0.4.
Proof.
  assert (H1 : evaluateFlat openHand = Returns openHandFlat)
    by (vm_compute; reflexivity).
  split; [exact H1|].
  destruct (evaluateFlat_aggregate openHand openHandFlat H1)
    as (frame & gaps & _ & _ & _ & _ & _ & _ & S & _).
  exact S.
Defined.

(** X15. What [evaluateFist] returns is assembled as follows.  The five
    finger entries are those of fingers 0-4 in order, each with the zone,
    score and [curled] flag of its tier (by the tip's drop below the MCP
    joint in hand lengths and the tip-to-wrist over MCP-to-wrist ratio) and
    with the finger's name and index; the score is the sum of the five
    scores over 5; the zone follows the scale 0.80 / 0.60 / 0.45 and
    [passed] is score >= 0.55. *)
Theorem evaluateFist_aggregate :
  forall (landmarks : list Landmark) (r : Fist.t),
    evaluateFist landmarks = Returns r ->
    exists frame,
      getHandFrame landmarks = Returns frame /\
      Forall2 (fistEntry landmarks frame) [0; 1; 2; 3; 4]%Z (Fist.fingerResults r) /\
      Fist.score r = sumOf (map FR.score (Fist.fingerResults r)) / 5 /\
      Fist.zone r = (if Fist.score r >=? 0.80 then GREEN
                     else if Fist.score r >=? 0.60 then BLUE
                     else if Fist.score r >=? 0.45 then YELLOW else RED) /\
      Fist.passed r = (Fist.score r >=? 0.55).
Proof.
  intros lm r. unfold evaluateFist.
  destruct (getHandFrame lm) as [frame|]; [|discriminate]. cbn [bind].
  destruct (forEach (fistBody lm frame) _ _) as [[rs tot]|] eqn:E1; [|discriminate].
  cbn [bind]. intros [= <-]. cbn.
  apply fist_loop_entries in E1. destruct E1 as [F1 ->].
  exists frame. repeat split; auto.
Qed.

Lemma evaluateFist_aggregate_witness :
  evaluateFist openHand = Returns openHandFist /\
  Fist.score openHandFist = sumOf (map FR.score (Fist.fingerResults openHandFist)) / 5.
Proof.
  assert (H1 : evaluateFist openHand = Returns openHandFist)
    by (vm_compute; reflexivity).
  split; [exact H1|].
  destruct (evaluateFist_aggregate openHand openHandFist H1) as (frame & _ & _ & S & _).
  exact S.
Defined.

(** ** The exercise library *)

Lemma ownProperty_In (props : list (string * HandHeroExercises.ExerciseDef)) (key : string)
    (e : HandHeroExercises.ExerciseDef) :
  HandHeroExercises.ownProperty props key = Some e -> In (key, e) props.
Proof.
  induction props as [|[k e'] rest IH]; cbn [HandHeroExercises.ownProperty]; [discriminate|].
  destruct (String.eqb_spec k key) as [->|Hne].
  - intros [= ->]. now left.
  - intros H. right. now apply IH.
Qed.

Lemma ownProperty_None (props : list (string * HandHeroExercises.ExerciseDef))
    (key : string) :
  HandHeroExercises.ownProperty props key = None -> ~ In key (map fst props).
Proof.
  induction props as [|[k e] rest IH]; cbn [HandHeroExercises.ownProperty map fst In];
    [tauto|].
  destruct (String.eqb_spec k key); [discriminate|].
  intros H [?|?]; [congruence|]. now apply IH.
Qed.

Lemma library_entries_checked :
  Forall (fun ke : string * HandHeroExercises.ExerciseDef =>
            HandHeroExercises.id (snd ke) = fst ke /\
            HandHeroExercises.getExercise (HandHeroExercises.id (snd ke))
            = HandHeroExercises.Found (snd ke) /\
            In (HandHeroExercises.type (snd ke)) engineTypes /\
            validDescriptor (descriptorOf (snd ke)))
         HandHeroExercises.EXERCISES.
Proof.
  unfold HandHeroExercises.EXERCISES.
  repeat (apply Forall_cons;
          [ split; [reflexivity|]; split; [vm_compute; reflexivity|];
            split; [cbn; intuition|];
            split; cbn;
            [ repeat (constructor; try lia)
            | first [ exact I
                    | eexists _, _; split; [reflexivity|]; cbn; intuition ] ] | ]).
  apply Forall_nil.
Qed.

Lemma library_entry (e : HandHeroExercises.ExerciseDef) :
  In e HandHeroExercises.getAllExercises ->
  HandHeroExercises.getExercise (HandHeroExercises.id e) = HandHeroExercises.Found e /\
  In (HandHeroExercises.type e) engineTypes /\
  validDescriptor (descriptorOf e).
Proof.
  unfold HandHeroExercises.getAllExercises. rewrite in_map_iff. intros [[k e'] [<- Hin]].
  pose proof library_entries_checked as H. rewrite Forall_forall in H.
  destruct (H _ Hin) as [_ H']. exact H'.
Qed.

(** X16. Every exercise of the library can be evaluated: on any landmark
    argument [evaluate] returns a result for it and never throws; that
    result is the "Invalid landmarks" failure when the landmarks are missing
    or fewer than 21, and otherwise it is no failure result (no library
    entry has a type unknown to the engine). *)
Theorem library_exercises_are_evaluable :
  forall (e : HandHeroExercises.ExerciseDef) (landmarks : option (list Landmark)),
    In e HandHeroExercises.getAllExercises ->
    exists r,
      evaluate landmarks (Some (descriptorOf e)) = Returns r /\
      (invalidLandmarks landmarks -> r = failureResult "Invalid landmarks") /\
      (~ invalidLandmarks landmarks -> forall message, r <> failureResult message).
Proof.
  intros e landmarks Hin.
  destruct (library_entry e Hin) as [_ [Ht Hv]].
  destruct (evaluate_returns landmarks (descriptorOf e) Hv) as [r E].
  exists r. split; [exact E|]. split.
  - intros Hinv. destruct landmarks as [lm|]; cbn in Hinv.
    + unfold evaluate in E.
      replace (Z.of_nat (List.length lm) <? 21)%Z with true in E
        by (symmetry; apply Z.ltb_lt; lia).
      now injection E as <-.
    + now injection E as <-.
  - intros Hok message ->. destruct landmarks as [lm|]; cbn in Hok; [|tauto].
    rewrite evaluate_long in E by lia.
    cbn [descriptorOf type typeIs] in E.
    cbn in Ht.
    destruct Ht as [Ht|[Ht|[Ht|[Ht|[Ht|[]]]]]]; rewrite <- Ht in E;
      cbn [String.eqb Ascii.eqb Bool.eqb] in E.
    + destruct (evaluateIsolation lm _); cbn in E; discriminate.
    + destruct (evaluatePinch lm _); cbn in E; discriminate.
    + destruct (evaluateSpread lm); cbn in E; discriminate.
    + destruct (evaluateFist lm); cbn in E; discriminate.
    + destruct (evaluateFlat lm); cbn in E; discriminate.
Qed.

Lemma library_exercises_are_evaluable_witness :
  exists e r,
    HandHeroExercises.ownProperty HandHeroExercises.EXERCISES "rock_on" = Some e /\
    evaluate (Some openHand) (Some (descriptorOf e)) = Returns r.
Proof.
  destruct (HandHeroExercises.ownProperty HandHeroExercises.EXERCISES "rock_on")
    as [e|] eqn:E; [|discriminate].
  assert (Hin : In e HandHeroExercises.getAllExercises).
  { apply ownProperty_In in E. unfold HandHeroExercises.getAllExercises.
    apply in_map_iff. exists ("rock_on"%string, e). auto. }
  destruct (library_exercises_are_evaluable e (Some openHand) Hin) as [r [Er _]].
  exists e, r. split; [reflexivity | exact Er].
Defined.

(** X17. [getExercise] and the [id] field are inverse to each other on the
    library: looking up the id of a library exercise gives that exercise,
    whatever [getExercise] finds has the id it was asked for, and no two
    exercises share an id.  The answer is [null] exactly for a key that is
    neither an exercise id nor a property name inherited from
    [Object.prototype] (for the latter, the inherited member is returned). *)
Theorem getExercise_round_trip :
  (forall e, In e HandHeroExercises.getAllExercises ->
             HandHeroExercises.getExercise (HandHeroExercises.id e)
             = HandHeroExercises.Found e) /\
  (forall key e, HandHeroExercises.getExercise key = HandHeroExercises.Found e ->
                 HandHeroExercises.id e = key /\ In e HandHeroExercises.getAllExercises) /\
  (forall key, HandHeroExercises.getExercise key = HandHeroExercises.Null <->
               ~ In key (map fst HandHeroExercises.EXERCISES) /\
               ~ In key HandHeroExercises.ObjectPrototype) /\
  NoDup (map HandHeroExercises.id HandHeroExercises.getAllExercises).
Proof.
  split; [|split; [|split]].
  - intros e Hin. apply library_entry. exact Hin.
  - intros key e. unfold HandHeroExercises.getExercise.
    destruct (HandHeroExercises.ownProperty HandHeroExercises.EXERCISES key) as [e'|] eqn:E.
    + intros [= ->]. apply ownProperty_In in E.
      pose proof library_entries_checked as H. rewrite Forall_forall in H.
      destruct (H _ E) as [Hid _]. cbn in Hid.
      split; [exact Hid|]. unfold HandHeroExercises.getAllExercises. apply in_map_iff.
      exists (key, e). auto.
    + destruct (existsb _ _); discriminate.
  - intros key. unfold HandHeroExercises.getExercise.
    destruct (HandHeroExercises.ownProperty HandHeroExercises.EXERCISES key) as [e'|] eqn:E.
    + split; [discriminate|]. intros [Hno _]. exfalso. apply Hno.
      apply ownProperty_In in E. apply in_map_iff. exists (key, e'). auto.
    + apply ownProperty_None in E.
      destruct (existsb (String.eqb key) HandHeroExercises.ObjectPrototype) eqn:Ep.
      * split; [discriminate|]. intros [_ Hno]. exfalso. apply Hno.
        apply existsb_exists in Ep. destruct Ep as [p [Hp Heq]].
        apply String.eqb_eq in Heq. now subst.
      * split; [|reflexivity]. intros _. split; [exact E|]. intros Hin.
        assert (existsb (String.eqb key) HandHeroExercises.ObjectPrototype = true);
          [|congruence].
        apply existsb_exists. exists key. split; [exact Hin | apply String.eqb_refl].
  - vm_compute. repeat (constructor; [cbn; intuition discriminate|]). constructor.
Qed.

(** X18. [buildCustomSession] keeps what the ids name, in the order asked
    for and with repetitions: for the ids of library exercises it returns
    exactly those exercises.  It never returns a [null] and never more
    entries than ids; an id that names nothing is dropped, while a property
    name inherited from [Object.prototype] lets the inherited member into the
    session. *)
Theorem buildCustomSession_keeps_known :
  (forall es, Forall (fun e => In e HandHeroExercises.getAllExercises) es ->
              HandHeroExercises.buildCustomSession (map HandHeroExercises.id es)
              = map HandHeroExercises.Found es) /\
  (forall ids,
     Forall (fun v => v <> HandHeroExercises.Null)
            (HandHeroExercises.buildCustomSession ids) /\
     (List.length (HandHeroExercises.buildCustomSession ids) <= List.length ids)%nat) /\
  (forall ids key,
     HandHeroExercises.getExercise key = HandHeroExercises.Null ->
     HandHeroExercises.buildCustomSession (key :: ids)
     = HandHeroExercises.buildCustomSession ids) /\
  (forall key, In key HandHeroExercises.ObjectPrototype ->
               HandHeroExercises.buildCustomSession [key]
               = [HandHeroExercises.Inherited key]).
Proof.
  split; [|split; [|split]].
  - induction es as [|e es IH]; intros H; [reflexivity|].
    apply Forall_cons_iff in H. destruct H as [He Hes].
    unfold HandHeroExercises.buildCustomSession in *. cbn [map filter].
    destruct (library_entry e He) as [-> _]. cbn [HandHeroExercises.isNull negb].
    now rewrite IH.
  - intros ids. unfold HandHeroExercises.buildCustomSession. split.
    + apply Forall_forall. intros v Hv. apply filter_In in Hv. destruct Hv as [_ Hv].
      intros ->. discriminate.
    + rewrite <- (length_map HandHeroExercises.getExercise ids). apply filter_length_le.
  - intros ids key E. unfold HandHeroExercises.buildCustomSession. cbn [map filter].
    now rewrite E.
  - intros key Hin. cbn in Hin.
    repeat (destruct Hin as [<-|Hin]; [reflexivity|]). destruct Hin.
Qed.

(** ** Random indices *)

Lemma iter_pos_invariant {A} (f : A -> A) (Inv : Z -> A -> Prop) :
  (forall k a, (0 <= k)%Z -> Inv k a -> Inv (k + 1)%Z (f a)) ->
  forall p k a, (0 <= k)%Z -> Inv k a -> Inv (k + Zpos p)%Z (SpecFloat.iter_pos f p a).
Proof.
  intros Hstep. induction p as [p IH|p IH|]; intros k a Hk Ha; cbn [SpecFloat.iter_pos].
  - replace (k + Zpos p~1)%Z with (k + 1 + Zpos p + Zpos p)%Z by lia.
    apply IH; [lia|]. apply IH; [lia|]. apply Hstep; assumption.
  - replace (k + Zpos p~0)%Z with (k + Zpos p + Zpos p)%Z by lia.
    apply IH; [lia|]. apply IH; assumption.
  - apply Hstep; assumption.
Qed.

Lemma shr_1_shiftedFrom (M k : Z) (mrs : shr_record) :
  (0 <= k)%Z -> shiftedFrom M k mrs -> shiftedFrom M (k + 1) (shr_1 mrs).
Proof.
  intros Hk [H0 [H1 _]]. unfold shiftedFrom.
  rewrite Z.pow_add_r by lia. change (2 ^ 1)%Z with 2%Z.
  assert (P : (0 < 2 ^ k)%Z) by (apply Z.pow_pos_nonneg; lia).
  destruct mrs as [m r s]. cbn [shr_m] in *.
  destruct m as [|[p|p|]|p]; cbn [shr_1 shr_m shr_r]; lia.
Qed.

Lemma shr_round_bound (M : Z) (p : positive) :
  (0 <= M)%Z ->
  let mrs := SpecFloat.iter_pos shr_1 p (shr_record_of_loc M loc_Exact) in
  let mr := round_nearest_even (shr_m mrs) (loc_of_shr_record mrs) in
  (0 <= mr)%Z /\ (2 * mr * 2 ^ Zpos p <= 2 * M + 2 ^ Zpos p)%Z.
Proof.
  intros HM mrs mr.
  assert (I : shiftedFrom M (0 + Zpos p) mrs).
  { apply iter_pos_invariant; [apply shr_1_shiftedFrom | lia |].
    unfold shiftedFrom. cbn. split; [lia|]. split; [lia|]. discriminate. }
  rewrite Z.add_0_l in I. destruct I as [H0 [H1 H2]].
  assert (P : (0 < 2 ^ Zpos p)%Z) by (apply Z.pow_pos_nonneg; lia).
  unfold mr, round_nearest_even, loc_of_shr_record.
  destruct mrs as [m [|] [|]]; cbn [shr_m shr_r] in *.
  - specialize (H2 eq_refl). split; [lia|nia].
  - specialize (H2 eq_refl). destruct (Z.even m); split; try lia; nia.
  - split; [lia|nia].
  - split; [lia|nia].
Qed.

Lemma two_pow_pos (k : Z) : (0 <= k)%Z -> (0 < 2 ^ k)%Z.
Proof. intros H. apply Z.pow_pos_nonneg; lia. Qed.

(** The first shift of [binary_round_aux] and the rounding that follows. *)
Lemma shr_fexp_round (M E : Z) :
  (0 <= M)%Z ->
  let s := (fexp prec emax (Zdigits2 M + E) - E)%Z in
  let mrs := fst (shr_fexp prec emax M E loc_Exact) in
  let e' := snd (shr_fexp prec emax M E loc_Exact) in
  let mr := round_nearest_even (shr_m mrs) (loc_of_shr_record mrs) in
  e' = (E + Z.max s 0)%Z /\ (0 <= mr)%Z /\
  (2 * mr * 2 ^ (e' - E) <= 2 * M + (if (0 <? s)%Z then 2 ^ s else 0))%Z.
Proof.
  intros HM. unfold shr_fexp, shr. cbv zeta.
  destruct (fexp prec emax (Zdigits2 M + E) - E)%Z as [|p|p] eqn:Es; cbn [fst snd].
  - cbn. split; [lia|]. split; [lia|]. rewrite Z.sub_diag. cbn. lia.
  - destruct (shr_round_bound M p HM) as [H0 H1].
    split; [lia|]. split; [exact H0|].
    replace (E + Z.pos p - E)%Z with (Z.pos p) by lia.
    replace (0 <? Z.pos p)%Z with true by reflexivity. exact H1.
  - cbn. split; [lia|]. split; [lia|]. rewrite Z.sub_diag. cbn. lia.
Qed.

(** The second shift of [binary_round_aux], which loses nothing or drops
    low bits. *)
Lemma shr_fexp_exact (mr e' : Z) :
  (0 <= mr)%Z ->
  let mrs := fst (shr_fexp prec emax mr e' loc_Exact) in
  let e'' := snd (shr_fexp prec emax mr e' loc_Exact) in
  e'' = Z.max e' (fexp prec emax (Zdigits2 mr + e')) /\
  (0 <= shr_m mrs)%Z /\ (shr_m mrs * 2 ^ (e'' - e') <= mr)%Z.
Proof.
  intros Hmr. unfold shr_fexp, shr. cbv zeta.
  destruct (fexp prec emax (Zdigits2 mr + e') - e')%Z as [|p|p] eqn:Es; cbn [fst snd].
  - cbn. split; [lia|]. split; [lia|]. rewrite Z.sub_diag. cbn. lia.
  - rewrite iter_pos_shr_1_m by (cbn; lia). cbn [shr_record_of_loc shr_m].
    replace (e' + Z.pos p - e')%Z with (Z.pos p) by lia.
    pose proof (two_pow_pos (Z.pos p) ltac:(lia)) as P.
    split; [lia|]. split; [apply Z.div_pos; lia|].
    rewrite Z.mul_comm. apply Z.mul_div_le. exact P.
  - cbn. split; [lia|]. split; [lia|]. rewrite Z.sub_diag. cbn. lia.
Qed.

Lemma Zdigits2_le (m k : Z) : (0 <= m)%Z -> (0 <= k)%Z -> (m < 2 ^ k)%Z -> (Zdigits2 m <= k)%Z.
Proof.
  intros Hm Hk H. destruct m as [|p|p]; cbn [Zdigits2]; [lia| |lia].
  pose proof (digits2_pos_bounds p) as [Hlo _].
  assert (Z.pos (digits2_pos p) - 1 < k)%Z; [|lia].
  apply (Z.pow_lt_mono_r_iff 2); lia.
Qed.

Lemma fexp_le_0 (d : Z) : (d <= 53)%Z -> (fexp prec emax d <= 0)%Z.
Proof. unfold fexp, SpecFloat.emin, prec, emax. lia. Qed.

(** Rounding a positive number that lies far enough below [K * 2^E] gives a
    number below [K * 2^E]. *)
Lemma binary_round_aux_below (M : positive) (E K : Z) :
  (E <= 0)%Z -> (K <= 2 ^ (53 - E))%Z ->
  (2 * Zpos M
   + (if (0 <? fexp prec emax (Zdigits2 (Zpos M) + E) - E)%Z
      then 2 ^ (fexp prec emax (Zdigits2 (Zpos M) + E) - E) else 0) < 2 * K)%Z ->
  match binary_round_aux prec emax false (Zpos M) E loc_Exact with
  | S754_zero _ => True
  | S754_finite false m e => (E <= e <= 0)%Z /\ (Zpos m * 2 ^ (e - E) < K)%Z
  | _ => False
  end.
Proof.
  intros HE HK HM.
  unfold binary_round_aux.
  pose proof (shr_fexp_round (Zpos M) E ltac:(lia)) as R. cbv zeta in R.
  destruct (shr_fexp prec emax (Zpos M) E loc_Exact) as [mrs' e']. cbn [fst snd] in R.
  set (mr := round_nearest_even (shr_m mrs') (loc_of_shr_record mrs')) in *.
  destruct R as [He' [Hmr0 Hmr]].
  pose proof (shr_fexp_exact mr e' Hmr0) as X. cbv zeta in X.
  destruct (shr_fexp prec emax mr e' loc_Exact) as [mrs'' e'']. cbn [fst snd] in X.
  destruct X as [He'' [Hm0 Hm]].
  set (s := (fexp prec emax (Zdigits2 (Zpos M) + E) - E)%Z) in *.
  assert (HMK : (Zpos M < K)%Z).
  { destruct (0 <? s)%Z eqn:Hs; [|lia].
    pose proof (two_pow_pos s ltac:(apply Z.ltb_lt in Hs; lia)). lia. }
  assert (HdM : (Zdigits2 (Zpos M) + E <= 53)%Z).
  { assert (Zdigits2 (Zpos M) <= 53 - E)%Z; [|lia].
    apply Zdigits2_le; lia. }
  assert (He'0 : (E <= e' <= 0)%Z).
  { pose proof (fexp_le_0 _ HdM). unfold s in He'. lia. }
  pose proof (two_pow_pos (e' - E) ltac:(lia)) as P1.
  assert (HmrK : (mr * 2 ^ (e' - E) < K)%Z) by lia.
  assert (Hdmr : (Zdigits2 mr + e' <= 53)%Z).
  { assert (Zdigits2 mr <= 53 - e')%Z; [|lia].
    apply Zdigits2_le; [lia|lia|].
    assert (mr * 2 ^ (e' - E) < 2 ^ (53 - E))%Z by lia.
    replace (53 - E)%Z with ((53 - e') + (e' - E))%Z in H by lia.
    rewrite Z.pow_add_r in H by lia.
    apply Z.mul_lt_mono_pos_r in H; [exact H | exact P1]. }
  assert (He''0 : (e' <= e'' <= 0)%Z).
  { pose proof (fexp_le_0 _ Hdmr). lia. }
  destruct (shr_m mrs'') as [|m|m] eqn:Em; [exact I| |lia].
  replace (e'' <=? emax - prec)%Z with true
    by (symmetry; apply Z.leb_le; unfold emax, prec; lia).
  split; [lia|].
  replace (e'' - E)%Z with ((e'' - e') + (e' - E))%Z by lia.
  rewrite Z.pow_add_r by lia.
  pose proof (two_pow_pos (e'' - e') ltac:(lia)) as P2.
  eapply Z.le_lt_trans; [|exact HmrK].
  rewrite Z.mul_assoc. apply Z.mul_le_mono_nonneg_r; lia.
Qed.

Lemma digits2_pos_unique (m : positive) (d : Z) :
  (2 ^ (d - 1) <= Zpos m < 2 ^ d)%Z -> (1 <= d)%Z -> Zpos (digits2_pos m) = d.
Proof.
  intros [Hlo Hhi] Hd. pose proof (digits2_pos_bounds m) as [Blo Bhi].
  assert (Zpos (digits2_pos m) - 1 < d)%Z by (apply (Z.pow_lt_mono_r_iff 2); lia).
  assert (d - 1 < Zpos (digits2_pos m))%Z by (apply (Z.pow_lt_mono_r_iff 2); lia).
  lia.
Qed.

Lemma shl_align_snd (m : positive) (e e' : Z) : (e' <= e)%Z -> snd (shl_align m e e') = e'.
Proof.
  intros H. unfold shl_align. destruct (e' - e)%Z as [|d|d] eqn:E; cbn [snd]; lia.
Qed.

(** A normal mantissa with an exponent in range is a number as it stands. *)
Lemma binary_round_aux_exact (m : positive) (e : Z) :
  (2 ^ 52 <= Zpos m < 2 ^ 53)%Z -> (-1021 <= e <= 0)%Z ->
  binary_round_aux prec emax false (Zpos m) e loc_Exact = S754_finite false m e.
Proof.
  intros Hm He.
  assert (Hd : Zpos (digits2_pos m) = 53%Z) by (apply digits2_pos_unique; [exact Hm | lia]).
  unfold binary_round_aux, shr_fexp. cbn [Zdigits2]. rewrite Hd.
  rewrite fexp_normal by lia.
  replace (53 + e - 53 - e)%Z with 0%Z by lia.
  cbn [shr shr_record_of_loc loc_of_shr_record round_nearest_even shr_m shr_r shr_s Zdigits2].
  rewrite Hd. rewrite fexp_normal by lia.
  replace (53 + e - 53 - e)%Z with 0%Z by lia.
  cbn [shr shr_record_of_loc shr_m].
  replace (e <=? emax - prec)%Z with true
    by (symmetry; apply Z.leb_le; unfold emax, prec; lia).
  reflexivity.
Qed.

(** The number an array length or index denotes, below 2^53. *)
Lemma floatOfNat_spec (n : nat) :
  (1 <= n)%nat -> (Z.of_nat n < 2 ^ 53)%Z ->
  exists m e,
    Prim2SF (floatOfNat n) = S754_finite false m e /\
    (-52 <= e <= 0)%Z /\ Zpos m = (Z.of_nat n * 2 ^ (- e))%Z /\ (Zpos m < 2 ^ 53)%Z.
Proof.
  intros H1 H53. unfold floatOfNat. rewrite of_uint63_spec, Uint63.of_Z_spec.
  assert (W : Uint63Axioms.wB = (2 ^ 63)%Z) by reflexivity.
  assert (L : (2 ^ 53 < 2 ^ 63)%Z) by (apply Z.pow_lt_mono_r; lia).
  rewrite Z.mod_small by (rewrite W; lia).
  destruct (Z.of_nat n) as [|pn|pn] eqn:En; [lia| |lia].
  cbn [binary_normalize]. unfold binary_round.
  pose proof (digits2_pos_bounds pn) as [Blo Bhi].
  set (d := Zpos (digits2_pos pn)) in *.
  assert (Hd : (1 <= d <= 53)%Z).
  { split; [unfold d; lia|].
    assert (d - 1 < 53)%Z; [|lia]. apply (Z.pow_lt_mono_r_iff 2); lia. }
  rewrite Z.add_0_r, fexp_normal by lia.
  pose proof (shl_align_fst pn 0 (d - 53) ltac:(lia)) as Hf.
  pose proof (shl_align_snd pn 0 (d - 53) ltac:(lia)) as Hs.
  destruct (shl_align pn 0 (d - 53)) as [mz ez]. cbn [fst snd] in Hf, Hs. subst ez.
  replace (0 - (d - 53))%Z with (53 - d)%Z in Hf by lia.
  assert (Hmz : (2 ^ 52 <= Zpos mz < 2 ^ 53)%Z).
  { rewrite Hf. split.
    - replace 52%Z with ((d - 1) + (53 - d))%Z by lia. rewrite Z.pow_add_r by lia.
      apply Z.mul_le_mono_nonneg_r; [apply Z.pow_nonneg; lia | exact Blo].
    - replace 53%Z with (d + (53 - d))%Z at 2 by lia. rewrite Z.pow_add_r by lia.
      apply Z.mul_lt_mono_pos_r; [apply two_pow_pos; lia | exact Bhi]. }
  rewrite binary_round_aux_exact by (try exact Hmz; lia).
  exists mz, (d - 53)%Z. split; [reflexivity|]. split; [lia|].
  split; [|lia]. rewrite Hf. f_equal. f_equal. lia.
Qed.

(** A number in [0, 1) is a zero, or a positive number [m * 2^e] with
    [m < 2^53] and [e <= -53]. *)
Lemma unitDraw_spec (r : float) :
  unitDraw r ->
  (exists s, Prim2SF r = S754_zero s) \/
  exists m e, Prim2SF r = S754_finite false m e /\
              (-1074 <= e <= -53)%Z /\ (Zpos m < 2 ^ 53)%Z.
Proof.
  intros [H0 H1]. rewrite leb_spec in H0. rewrite ltb_spec in H1.
  pose proof spec_zero as S0. pose proof spec_one as S1. rewrite S0 in H0. rewrite S1 in H1.
  pose proof (Prim2SF_valid r) as V.
  destruct (Prim2SF r) as [s|s| |s m e].
  - left. eauto.
  - destruct s; discriminate.
  - discriminate.
  - right. destruct s; [discriminate|]. exists m, e. split; [reflexivity|].
    unfold SFltb in H1. cbn [SFcompare] in H1.
    cbn [SpecFloat.valid_binary] in V. unfold bounded, canonical_mantissa in V.
    apply andb_prop in V. destruct V as [V1 V2].
    apply Z.eqb_eq in V1. apply Z.leb_le in V2.
    pose proof (digits2_pos_bounds m) as [Blo Bhi].
    set (d := Zpos (digits2_pos m)) in *.
    assert (Hd : (1 <= d)%Z) by (unfold d; lia).
    unfold fexp, SpecFloat.emin, prec, emax in V1.
    assert (Hd53 : (d <= 53)%Z) by lia.
    assert (Hm : (Zpos m < 2 ^ 53)%Z).
    { eapply Z.lt_le_trans; [exact Bhi|]. apply Z.pow_le_mono_r; lia. }
    split; [|exact Hm]. split; [lia|].
    destruct (e ?= -52)%Z eqn:C; [| |discriminate].
    + apply Z.compare_eq in C. subst e.
      destruct (Pos.compare_cont Eq m 4503599627370496) eqn:Cm; try discriminate.
      pose proof (Pos2Z.pos_lt_pos _ _ (proj1 (Pos.compare_lt_iff m 4503599627370496) Cm))
        as Hlt.
      clear Cm H1.
      assert (d = 53)%Z by lia. 
      assert (2 ^ 52 <= Zpos m)%Z by (replace 52%Z with (d - 1)%Z by lia; exact Blo).
      change (2 ^ 52)%Z with (Zpos 4503599627370496) in *. lia.
    + apply -> Z.compare_lt_iff in C. lia.
Qed.

(** The floor of a draw scaled by a length is an index of that length. *)
Lemma scaled_draw_floor :
  forall (r : float) (n : nat),
    unitDraw r -> (1 <= n)%nat -> (Z.of_nat n < 2 ^ 53)%Z ->
    exists j, Math_floor (r * floatOfNat n) = Some j /\ (0 <= j < Z.of_nat n)%Z.
Proof.
  intros r n Hr H1 H53.
  destruct (floatOfNat_spec n H1 H53) as [m2 [e2 [F2 [He2 [Hm2 Hm2lt]]]]].
  unfold Math_floor. rewrite mul_spec. unfold SF64mul. rewrite F2.
  destruct (unitDraw_spec r Hr) as [[s ->] | [m1 [e1 [-> [He1 Hm1]]]]].
  { cbn. exists 0%Z. split; [reflexivity | lia]. }
  cbn [SFmul xorb].
  set (E := (e1 + e2)%Z). set (M := (m1 * m2)%positive).
  set (K := (Zpos m2 * 2 ^ (- e1))%Z).
  pose proof (two_pow_pos (- e1) ltac:(lia)) as P1.
  pose proof (two_pow_pos (- e2) ltac:(lia)) as P2.
  assert (Hm1' : (Zpos m1 < 2 ^ (- e1))%Z).
  { eapply Z.lt_le_trans; [exact Hm1|]. apply Z.pow_le_mono_r; lia. }
  assert (HMK : (Zpos M + Zpos m2 <= K)%Z).
  { unfold M, K. rewrite Pos2Z.inj_mul. nia. }
  assert (HK : (K <= 2 ^ (53 - E))%Z).
  { unfold K, E. replace (53 - (e1 + e2))%Z with (53 + (- e1) + (- e2))%Z by lia.
    rewrite !Z.pow_add_r by lia. nia. }
  assert (Hs : (2 * Zpos M
                + (if (0 <? fexp prec emax (Zdigits2 (Zpos M) + E) - E)%Z
                   then 2 ^ (fexp prec emax (Zdigits2 (Zpos M) + E) - E) else 0)
                < 2 * K)%Z).
  { destruct (0 <? fexp prec emax (Zdigits2 (Zpos M) + E) - E)%Z eqn:Cs; [|lia].
    apply Z.ltb_lt in Cs.
    assert (2 ^ (fexp prec emax (Zdigits2 (Zpos M) + E) - E) < 2 * Zpos m2)%Z; [|lia].
    clear HMK HK. cbn [Zdigits2] in *.
    pose proof (digits2_pos_bounds M) as [Blo _].
    set (d := Zpos (digits2_pos M)) in *.
    unfold fexp, SpecFloat.emin, prec, emax in *.
    destruct (Z.max_spec (d + E - 53) (3 - 1024 - 53)) as [[_ Hmax]|[_ Hmax]];
      rewrite Hmax in *.
    - replace (3 - 1024 - 53 - E)%Z with ((-1074 - e1) + (- e2))%Z by (unfold E; lia).
      assert (2 ^ (-1074 - e1 + - e2) <= 2 ^ (- e2))%Z by (apply Z.pow_le_mono_r; lia).
      nia.
    - replace (d + E - 53 - E)%Z with (d - 53)%Z in * by lia.
      assert (B : (2 ^ (d - 1) < 2 ^ 53 * Zpos m2)%Z).
      { eapply Z.le_lt_trans; [exact Blo|]. unfold M. rewrite Pos2Z.inj_mul.
        apply Z.mul_lt_mono_pos_r; lia. }
      replace (d - 1)%Z with ((d - 53) + 52)%Z in B by lia.
      rewrite Z.pow_add_r in B by lia.
      change (2 ^ 53)%Z with (2 * 2 ^ 52)%Z in B.
      pose proof (two_pow_pos 52 ltac:(lia)). nia. }
  pose proof (binary_round_aux_below M E K ltac:(unfold E; lia) HK Hs) as R.
  destruct (binary_round_aux prec emax false (Zpos M) E loc_Exact) as [sz|sz| |sz m e];
    try contradiction.
  { exists 0%Z. split; [reflexivity | lia]. }
  destruct sz; [contradiction|]. destruct R as [He R].
  eexists. split; [reflexivity|].
  assert (HKn : K = (Z.of_nat n * 2 ^ (- E))%Z).
  { unfold K, E. rewrite Hm2. replace (- (e1 + e2))%Z with ((- e2) + (- e1))%Z by lia.
    rewrite Z.pow_add_r by lia. ring. }
  pose proof (two_pow_pos (- E) ltac:(unfold E; lia)) as PE.
  pose proof (two_pow_pos (e - E) ltac:(lia)) as PeE.
  pose proof (two_pow_pos (- e) ltac:(lia)) as Pe.
  assert (Hsplit : (2 ^ (- E) = 2 ^ (- e) * 2 ^ (e - E))%Z).
  { rewrite <- Z.pow_add_r by lia. f_equal. lia. }
  destruct (0 <=? e)%Z eqn:Ce.
  - apply Z.leb_le in Ce. assert (e = 0%Z) by lia. subst e.
    rewrite Z.pow_0_r, Z.mul_1_r. split; [lia|].
    rewrite Z.sub_0_l in R. rewrite HKn in R. nia.
  - split; [apply Z.div_pos; lia|].
    assert (D : (Zpos m / 2 ^ (- e) * 2 ^ (- e) <= Zpos m)%Z).
    { rewrite Z.mul_comm. apply Z.mul_div_le. exact Pe. }
    rewrite HKn, Hsplit in R.
    set (j := (Zpos m / 2 ^ (- e))%Z) in *.
    assert (j * 2 ^ (- e) * 2 ^ (e - E) < Z.of_nat n * (2 ^ (- e) * 2 ^ (e - E)))%Z by nia.
    nia.
Qed.

(** X19. [Math.floor(Math.random() * n)] is an index below [n]: for every
    number [r] with 0 <= r < 1 and every length [n] from 1 up to 2^53, the
    binary64 product of [r] and [n] is finite and its floor lies in
    0 .. n-1 (rounding never carries the product up to [n]). *)
Theorem random_index_in_range :
  forall (r : float) (n : nat),
    unitDraw r -> (1 <= n)%nat -> (Z.of_nat n < 2 ^ 53)%Z ->
    exists j, Math_floor (r * floatOfNat n) = Some j /\ (0 <= j < Z.of_nat n)%Z.
Proof. exact scaled_draw_floor. Qed.

Lemma random_index_in_range_witness :
  exists j, Math_floor (0.99 * floatOfNat 7) = Some j /\ (0 <= j < 7)%Z.
Proof.
  apply (random_index_in_range 0.99 7).
  - split; vm_compute; reflexivity.
  - lia.
  - cbn. lia.
Defined.

(** ** Shuffling *)

Lemma update_length {A} (arr : list A) (k : nat) (v : A) :
  List.length (update arr k v) = List.length arr.
Proof.
  revert k. induction arr as [|a rest IH]; intros [|k]; cbn; try reflexivity.
  now rewrite IH.
Qed.

Lemma update_same {A} (arr : list A) (k : nat) (v : A) :
  nth_error arr k = Some v -> update arr k v = arr.
Proof.
  revert k. induction arr as [|a rest IH]; intros [|k]; cbn; try discriminate.
  - now intros [= ->].
  - intros H. now rewrite IH.
Qed.

Lemma update_twice {A} (arr : list A) (k : nat) (v w : A) :
  update (update arr k v) k w = update arr k w.
Proof.
  revert k. induction arr as [|a rest IH]; intros [|k]; cbn; try reflexivity.
  now rewrite IH.
Qed.

(** Putting [x] where [b] was brings [b] to the front. *)
Lemma update_front {A} (rest : list A) (k : nat) (x b : A) :
  nth_error rest k = Some b -> Permutation (x :: rest) (b :: update rest k x).
Proof.
  revert k. induction rest as [|y r IH]; intros [|k]; cbn; try discriminate.
  - intros [= ->]. apply perm_swap.
  - intros H. eapply Permutation_trans; [apply perm_swap|].
    eapply Permutation_trans; [apply perm_skip, IH, H|]. apply perm_swap.
Qed.

Lemma update_exchange {A} (arr : list A) (i j : nat) (a b : A) :
  nth_error arr i = Some a -> nth_error arr j = Some b ->
  Permutation arr (update (update arr i b) j a).
Proof.
  revert i j. induction arr as [|x rest IH]; intros [|i] [|j]; cbn; try discriminate.
  - intros [= ->] [= ->]. apply Permutation_refl.
  - intros [= ->] H. apply update_front. exact H.
  - intros H [= ->]. apply Permutation_sym.
    eapply Permutation_trans; [|apply Permutation_sym, update_front, H].
    apply Permutation_refl.
  - intros Hi Hj. apply perm_skip. apply IH; assumption.
Qed.

Lemma item_nth_error {A} (arr : list A) (i : Z) (a : A) :
  item arr i = Some a -> nth_error arr (Z.to_nat i) = Some a.
Proof. unfold item. destruct (i <? 0)%Z; [discriminate | auto]. Qed.

Lemma swap_Permutation {A} (arr arr' : list A) (i j : Z) :
  swap arr i j = Some arr' ->
  Permutation arr arr' /\ List.length arr' = List.length arr.
Proof.
  unfold swap. destruct (item arr i) as [a|] eqn:Ei; [|discriminate].
  destruct (item arr j) as [b|] eqn:Ej; [|discriminate]. intros [= <-].
  split.
  - apply update_exchange; apply item_nth_error; assumption.
  - now rewrite !update_length.
Qed.

Lemma swap_defined {A} (arr : list A) (i j : Z) :
  (0 <= i < Z.of_nat (List.length arr))%Z -> (0 <= j < Z.of_nat (List.length arr))%Z ->
  exists arr', swap arr i j = Some arr'.
Proof.
  intros Hi Hj. unfold swap.
  destruct (item_some arr i Hi) as [a ->]. destruct (item_some arr j Hj) as [b ->]. eauto.
Qed.

Section Shuffle.

Variable random : Draws.
Hypothesis random_contract : forall k, unitDraw (random k).

Lemma shuffleFrom_permutes {A} (i : nat) :
  forall (arr : list A) (calls : nat),
    (i < List.length arr)%nat -> (Z.of_nat (List.length arr) < 2 ^ 53)%Z ->
    exists arr',
      HandHeroExercises.shuffleFrom random i arr calls = Some (arr', (calls + i)%nat) /\
      Permutation arr arr'.
Proof.
  induction i as [|i IH]; intros arr calls Hi Hlen; cbn [HandHeroExercises.shuffleFrom].
  - exists arr. rewrite Nat.add_0_r. split; [reflexivity | apply Permutation_refl].
  - assert (P : (0 < 2 ^ 53)%Z) by (apply two_pow_pos; lia).
    destruct (scaled_draw_floor (random calls) (S i + 1) (random_contract calls))
      as [j [-> Hj]]; [lia|lia|].
    destruct (swap_defined arr (Z.of_nat (S i)) j) as [arr1 E1]; [lia|lia|].
    rewrite E1. destruct (swap_Permutation _ _ _ _ E1) as [P1 L1].
    destruct (IH arr1 (S calls)) as [arr' [-> P2]]; [lia|lia|].
    exists arr'. split; [f_equal; f_equal; lia|].
    eapply Permutation_trans; eassumption.
Qed.

(** What [shuffle] returns, and how many draws it makes. *)
Lemma shuffle_arrangement :
  forall (A : Type) (array : list A) (calls : nat),
    (Z.of_nat (List.length array) < 2 ^ 53)%Z ->
    exists arr,
      HandHeroExercises.shuffle random array calls
      = Some (arr, (calls + (List.length array - 1))%nat) /\
      Permutation array arr.
Proof.
  intros A array calls Hlen. unfold HandHeroExercises.shuffle.
  destruct array as [|a rest].
  - cbn. exists []. rewrite Nat.add_0_r. split; [reflexivity | constructor].
  - apply shuffleFrom_permutes; [cbn [List.length]; lia | exact Hlen].
Qed.

(** X20. [shuffle] returns a permutation of its argument (which it leaves
    alone), and makes one call of [Math.random] for each element but the
    first; this for every run of [Math.random] results in [0, 1) and every
    array of fewer than 2^53 elements. *)
Theorem shuffle_permutes :
  forall (A : Type) (array : list A) (calls : nat),
    (Z.of_nat (List.length array) < 2 ^ 53)%Z ->
    exists arr,
      HandHeroExercises.shuffle random array calls
      = Some (arr, (calls + (List.length array - 1))%nat) /\
      Permutation array arr.
Proof. exact shuffle_arrangement. Qed.

End Shuffle.

(** A run of [Math.random] that always returns one half. *)
Lemma constant_draws_contract : forall k : nat, unitDraw ((fun _ => 0.5) k).
Proof. intros k. split; vm_compute; reflexivity. Qed.

Lemma shuffle_permutes_witness :
  exists arr,
    HandHeroExercises.shuffle (fun _ => 0.5) [1; 2; 3; 4]%Z 0 = Some (arr, 3%nat) /\
    Permutation [1; 2; 3; 4]%Z arr.
Proof.
  assert (H : (Z.of_nat (List.length [1; 2; 3; 4]%Z) < 2 ^ 53)%Z) by (cbn; lia).
  exact (shuffle_permutes (fun _ => 0.5) constant_draws_contract Z [1; 2; 3; 4]%Z 0 H).
Defined.

(** ** Sessions *)

Lemma firstn_In {A} (k : nat) (s : list A) (a : A) : In a (firstn k s) -> In a s.
Proof.
  intros H. rewrite <- (firstn_skipn k s). apply in_or_app. now left.
Qed.

Lemma firstn_NoDup {A} (k : nat) (s : list A) : NoDup s -> NoDup (firstn k s).
Proof.
  intros H. rewrite <- (firstn_skipn k s) in H. now apply NoDup_app_remove_r in H.
Qed.

Lemma sliceTo_firstn {A} (s : list A) (end_ : Z) :
  (0 <= end_)%Z -> sliceTo s end_ = firstn (Z.to_nat end_) s.
Proof.
  intros H. unfold sliceTo.
  now replace (end_ <? 0)%Z with false by (symmetry; apply Z.ltb_ge; exact H).
Qed.

Lemma sliceTo_sub {A} (s : list A) (end_ : Z) :
  exists k, sliceTo s end_ = firstn k s /\
            k = (if (end_ <? 0)%Z then Z.to_nat (Z.of_nat (List.length s) + end_)
                 else Z.to_nat end_).
Proof. unfold sliceTo. destruct (end_ <? 0)%Z; eauto. Qed.

(** The first [k] elements of an arrangement of [L]. *)
Lemma firstn_of_arrangement {A} (L s : list A) (k : nat) :
  Permutation L s -> NoDup L ->
  NoDup (firstn k s) /\ incl (firstn k s) L /\
  List.length (firstn k s) = Nat.min k (List.length L).
Proof.
  intros P N. split; [|split].
  - apply firstn_NoDup. eapply Permutation_NoDup; eassumption.
  - intros a Ha. apply firstn_In in Ha.
    eapply Permutation_in; [apply Permutation_sym; exact P | exact Ha].
  - rewrite length_firstn. now rewrite (Permutation_length P).
Qed.

Lemma library_NoDup : NoDup HandHeroExercises.getAllExercises.
Proof.
  apply (NoDup_map_inv HandHeroExercises.id).
  vm_compute. repeat (constructor; [cbn; intuition discriminate|]). constructor.
Qed.

Lemma byDifficulty_eq (d : Z) :
  HandHeroExercises.getByDifficulty d
  = filter (fun e => (HandHeroExercises.difficulty e =? d)%Z)
           HandHeroExercises.getAllExercises.
Proof. reflexivity. Qed.

Lemma byDifficulty_NoDup (d : Z) : NoDup (HandHeroExercises.getByDifficulty d).
Proof. rewrite byDifficulty_eq. apply NoDup_filter, library_NoDup. Qed.

Lemma byDifficulty_incl (d : Z) :
  incl (HandHeroExercises.getByDifficulty d) HandHeroExercises.getAllExercises.
Proof. rewrite byDifficulty_eq. intros e H. apply filter_In in H. tauto. Qed.

Lemma byDifficulty_difficulty (d : Z) (e : HandHeroExercises.ExerciseDef) :
  In e (HandHeroExercises.getByDifficulty d) -> HandHeroExercises.difficulty e = d.
Proof.
  rewrite byDifficulty_eq. intros H. apply filter_In in H. destruct H as [_ H].
  now apply Z.eqb_eq.
Qed.

Lemma byDifficulty_sizes :
  List.length (HandHeroExercises.getByDifficulty 1) = 3%nat /\
  List.length (HandHeroExercises.getByDifficulty 2) = 7%nat /\
  List.length (HandHeroExercises.getByDifficulty 3) = 6%nat /\
  List.length (HandHeroExercises.getByDifficulty 4) = 2%nat /\
  List.length HandHeroExercises.getAllExercises = 18%nat.
Proof. repeat split; reflexivity. Qed.

Lemma map_difficulty_constant (d : Z) (l : list HandHeroExercises.ExerciseDef) :
  (forall e, In e l -> HandHeroExercises.difficulty e = d) ->
  map HandHeroExercises.difficulty l = repeat d (List.length l).
Proof.
  induction l as [|e l IH]; intros H; cbn; [reflexivity|].
  rewrite (H e) by now left. f_equal. apply IH. intros e' He'. apply H. now right.
Qed.

Lemma NoDup_app_difficulty (d : Z) (l1 l2 : list HandHeroExercises.ExerciseDef) :
  NoDup l1 -> NoDup l2 ->
  (forall e, In e l1 -> HandHeroExercises.difficulty e = d) ->
  (forall e, In e l2 -> HandHeroExercises.difficulty e <> d) ->
  NoDup (l1 ++ l2).
Proof.
  intros N1 N2 H1 H2. apply NoDup_app; try assumption.
  intros e He1 He2. apply (H2 e He2). now apply H1.
Qed.

Section Sessions.

Variable random : Draws.
Hypothesis random_contract : forall k, unitDraw (random k).

(** A shuffled part of the library, cut to [k] exercises. *)
Lemma shuffled_part (L : list HandHeroExercises.ExerciseDef) (calls : nat) (k : Z) :
  (0 <= k)%Z -> NoDup L -> (List.length L <= 18)%nat ->
  exists s calls',
    HandHeroExercises.shuffle random L calls = Some (s, calls') /\
    NoDup (sliceTo s k) /\ incl (sliceTo s k) L /\
    List.length (sliceTo s k) = Nat.min (Z.to_nat k) (List.length L).
Proof.
  intros Hk N Hlen.
  destruct (shuffle_arrangement random random_contract _ L calls) as [s [E P]].
  { assert (2 ^ 5 < 2 ^ 53)%Z by (apply Z.pow_lt_mono_r; lia).
    change (2 ^ 5)%Z with 32%Z in *. lia. }
  exists s, (calls + (List.length L - 1))%nat. split; [exact E|].
  rewrite sliceTo_firstn by exact Hk. now apply firstn_of_arrangement.
Qed.

Lemma shuffled_difficulty (d : Z) (calls : nat) (k : Z) :
  (0 <= k)%Z -> (Z.to_nat k <= List.length (HandHeroExercises.getByDifficulty d))%nat ->
  exists s calls',
    HandHeroExercises.shuffle random (HandHeroExercises.getByDifficulty d) calls
    = Some (s, calls') /\
    NoDup (sliceTo s k) /\ incl (sliceTo s k) HandHeroExercises.getAllExercises /\
    (forall e, In e (sliceTo s k) -> HandHeroExercises.difficulty e = d) /\
    map HandHeroExercises.difficulty (sliceTo s k) = repeat d (Z.to_nat k).
Proof.
  intros Hk Hle.
  destruct (shuffled_part (HandHeroExercises.getByDifficulty d) calls k Hk)
    as [s [calls' [E [N [I L]]]]].
  { apply byDifficulty_NoDup. }
  { rewrite byDifficulty_eq.
    eapply Nat.le_trans; [apply filter_length_le | reflexivity]. }
  exists s, calls'. split; [exact E|]. split; [exact N|].
  assert (D : forall e, In e (sliceTo s k) -> HandHeroExercises.difficulty e = d).
  { intros e He. apply byDifficulty_difficulty. apply I. exact He. }
  split; [|split; [exact D|]].
  - intros e He. apply byDifficulty_incl with (d := d). apply I. exact He.
  - rewrite (map_difficulty_constant d _ D), L. f_equal. lia.
Qed.

Ltac shuffled d k c :=
  let s := fresh "s" in let c' := fresh "c" in
  let E := fresh "E" in let N := fresh "N" in let I := fresh "I" in
  let D := fresh "D" in let M := fresh "M" in
  destruct (shuffled_difficulty d c k) as [s [c' [E [N [I [D M]]]]]];
  [lia | cbn; lia |];
  rewrite <- (byDifficulty_eq d), E.

(** The size and the composition of a session. *)
Lemma buildSession_shape :
  forall (count : option Z) (calls : nat),
    exists session calls',
      HandHeroExercises.buildSession random count calls = Some (session, calls') /\
      List.length session = sessionSize (orElse count 8%Z) /\
      NoDup session /\ incl session HandHeroExercises.getAllExercises /\
      ((5 <= orElse count 8)%Z ->
       Permutation (map HandHeroExercises.difficulty session)
                   (sessionDifficulties (orElse count 8%Z))).
Proof.
  intros count calls. unfold HandHeroExercises.buildSession, sessionSize, sessionDifficulties.
  set (c := orElse count 8%Z). cbv zeta.
  destruct (Z.leb_spec 8 c) as [H8|H8].
  { shuffled 1%Z 2%Z calls. shuffled 2%Z 3%Z c0. shuffled 3%Z 2%Z c1. shuffled 4%Z 1%Z c2.
    set (sel := sliceTo s 2 ++ sliceTo s0 3 ++ sliceTo s1 2 ++ sliceTo s2 1).
    assert (Nsel : NoDup sel).
    { unfold sel.
      apply (NoDup_app_difficulty 1); [assumption| |assumption|].
      2:{ intros e He. repeat (apply in_app_or in He; destruct He as [He|He]);
            [rewrite (D0 e He)|rewrite (D1 e He)|rewrite (D2 e He)]; lia. }
      apply (NoDup_app_difficulty 2); [assumption| |assumption|].
      2:{ intros e He. repeat (apply in_app_or in He; destruct He as [He|He]);
            [rewrite (D1 e He)|rewrite (D2 e He)]; lia. }
      apply (NoDup_app_difficulty 3); try assumption.
      intros e He. rewrite (D2 e He). lia. }
    assert (Isel : incl sel HandHeroExercises.getAllExercises).
    { unfold sel. repeat apply incl_app; assumption. }
    assert (Msel : map HandHeroExercises.difficulty sel = [1; 1; 2; 2; 2; 3; 3; 4]%Z).
    { unfold sel. rewrite !map_app, M, M0, M1, M2. reflexivity. }
    assert (Lsel : List.length sel = 8%nat).
    { rewrite <- (length_map HandHeroExercises.difficulty), Msel. reflexivity. }
    destruct (shuffled_part sel c3 c) as [sf [cf [Ef [Nf [If Lf]]]]];
      [lia | exact Nsel | lia |].
    rewrite Ef. exists (sliceTo sf c), cf. split; [reflexivity|].
    destruct (shuffle_arrangement random random_contract _ sel c3) as [sf' [Ef' Pf]].
    { rewrite Lsel. cbn. assert (0 < 2 ^ 53)%Z by (apply two_pow_pos; lia).
      assert (2 ^ 4 < 2 ^ 53)%Z by (apply Z.pow_lt_mono_r; lia).
      change (2 ^ 4)%Z with 16%Z in *. lia. }
    rewrite Ef in Ef'. injection Ef' as <- _.
    assert (Hall : sliceTo sf c = sf).
    { rewrite sliceTo_firstn by lia. apply firstn_all2.
      rewrite <- (Permutation_length Pf), Lsel. lia. }
    split; [rewrite Lf, Lsel; lia|]. split; [exact Nf|].
    split; [intros e He; apply Isel, If, He|].
    intros _. rewrite Hall, <- Msel. apply Permutation_sym, Permutation_map. exact Pf. }
  destruct (Z.leb_spec 5 c) as [H5|H5].
  { shuffled 1%Z 1%Z calls. shuffled 2%Z 2%Z c0. shuffled 3%Z 2%Z c1.
    set (sel := sliceTo s 1 ++ sliceTo s0 2 ++ sliceTo s1 2).
    assert (Nsel : NoDup sel).
    { unfold sel.
      apply (NoDup_app_difficulty 1); [assumption| |assumption|].
      2:{ intros e He. repeat (apply in_app_or in He; destruct He as [He|He]);
            [rewrite (D0 e He)|rewrite (D1 e He)]; lia. }
      apply (NoDup_app_difficulty 2); try assumption.
      intros e He. rewrite (D1 e He). lia. }
    assert (Isel : incl sel HandHeroExercises.getAllExercises).
    { unfold sel. repeat apply incl_app; assumption. }
    assert (Msel : map HandHeroExercises.difficulty sel = [1; 2; 2; 3; 3]%Z).
    { unfold sel. rewrite !map_app, M, M0, M1. reflexivity. }
    assert (Lsel : List.length sel = 5%nat).
    { rewrite <- (length_map HandHeroExercises.difficulty), Msel. reflexivity. }
    destruct (shuffled_part sel c2 c) as [sf [cf [Ef [Nf [If Lf]]]]];
      [lia | exact Nsel | lia |].
    rewrite Ef. exists (sliceTo sf c), cf. split; [reflexivity|].
    destruct (shuffle_arrangement random random_contract _ sel c2) as [sf' [Ef' Pf]].
    { rewrite Lsel. cbn. assert (2 ^ 3 < 2 ^ 53)%Z by (apply Z.pow_lt_mono_r; lia).
      change (2 ^ 3)%Z with 8%Z in *. lia. }
    rewrite Ef in Ef'. injection Ef' as <- _.
    assert (Hall : sliceTo sf c = sf).
    { rewrite sliceTo_firstn by lia. apply firstn_all2.
      rewrite <- (Permutation_length Pf), Lsel. lia. }
    split; [rewrite Lf, Lsel; lia|]. split; [exact Nf|].
    split; [intros e He; apply Isel, If, He|].
    intros _. rewrite Hall, <- Msel. apply Permutation_sym, Permutation_map. exact Pf. }
  destruct (shuffle_arrangement random random_contract _ HandHeroExercises.getAllExercises calls)
    as [s [E P]].
  { cbn. assert (2 ^ 5 < 2 ^ 53)%Z by (apply Z.pow_lt_mono_r; lia).
    change (2 ^ 5)%Z with 32%Z in *. lia. }
  rewrite E.
  destruct (sliceTo_sub s c) as [k [Ek Hk]]. rewrite Ek.
  destruct (firstn_of_arrangement _ s k P library_NoDup) as [N1 [I1 L1]].
  destruct (shuffle_arrangement random random_contract _ (firstn k s)
                             (calls + (List.length HandHeroExercises.getAllExercises - 1)))
    as [sf [Ef Pf]].
  { rewrite L1. assert (2 ^ 5 < 2 ^ 53)%Z by (apply Z.pow_lt_mono_r; lia).
    change (2 ^ 5)%Z with 32%Z in *. cbn. lia. }
  rewrite Ef. eexists _, _. split; [reflexivity|].
  destruct (sliceTo_sub sf c) as [k' [Ek' Hk']]. rewrite Ek'.
  destruct (firstn_of_arrangement _ sf k' Pf N1) as [N2 [I2 L2]].
  split; [|split; [exact N2|split; [|lia]]].
  - rewrite L2, L1, Hk', Hk. rewrite <- (Permutation_length Pf), L1, Hk.
    rewrite <- (Permutation_length P).
    replace (List.length HandHeroExercises.getAllExercises) with 18%nat by reflexivity.
    destruct (Z.ltb_spec c 0); destruct (Z.leb_spec 0 c); lia.
  - intros e He. apply I1, I2, He.
Qed.

(** X21. [buildSession(count)], for every run of [Math.random] results in
    [0, 1): it returns a session of library exercises without repetition;
    of 8 exercises whenever [count >= 8] (two, three, two and one of
    difficulty 1, 2, 3 and 4), of 5 exercises whenever [count] is 5, 6 or
    7 (one, two and two of difficulty 1, 2 and 3), of [count] exercises for
    [count] from 0 to 4, and of [18 + 2 count] exercises, if that is
    positive, for a negative [count]. *)
Theorem buildSession_sizes :
  forall (count : option Z) (calls : nat),
    exists session calls',
      HandHeroExercises.buildSession random count calls = Some (session, calls') /\
      List.length session = sessionSize (orElse count 8%Z) /\
      NoDup session /\ incl session HandHeroExercises.getAllExercises /\
      ((5 <= orElse count 8)%Z ->
       Permutation (map HandHeroExercises.difficulty session)
                   (sessionDifficulties (orElse count 8%Z))).
Proof. exact buildSession_shape. Qed.

End Sessions.

Lemma buildSession_sizes_witness :
  exists session calls',
    HandHeroExercises.buildSession (fun _ => 0.5) (Some 7%Z) 0 = Some (session, calls') /\
    List.length session = 5%nat.
Proof.
  destruct (buildSession_sizes (fun _ => 0.5) constant_draws_contract (Some 7%Z) 0)
    as [session [calls' [E [L _]]]].
  exists session, calls'. split; [exact E | exact L].
Defined.

(** ** Progressive, category and type sessions *)

Lemma library_ids_NoDup :
  NoDup (map HandHeroExercises.id HandHeroExercises.getAllExercises).
Proof. vm_compute. repeat (constructor; [cbn; intuition discriminate|]). constructor. Qed.

Lemma NoDup_map_injective {A B} (f : A -> B) (l : list A) :
  NoDup (map f l) -> forall a b, In a l -> In b l -> f a = f b -> a = b.
Proof.
  induction l as [|x l IH]; cbn; intros N a b Ha Hb E; [contradiction|].
  apply NoDup_cons_iff in N. destruct N as [Nx N].
  destruct Ha as [Ha|Ha], Hb as [Hb|Hb].
  - congruence.
  - exfalso. apply Nx. rewrite Ha, E. now apply in_map.
  - exfalso. apply Nx. rewrite Hb, <- E. now apply in_map.
  - now apply IH.
Qed.

Lemma count_difficulty (d : Z) (exs : list HandHeroExercises.ExerciseDef) :
  List.length (filter (fun ex => (HandHeroExercises.difficulty ex =? d)%Z) exs)
  = count_occ Z.eq_dec (map HandHeroExercises.difficulty exs) d.
Proof.
  induction exs as [|e exs IH]; cbn; [reflexivity|].
  destruct (Z.eq_dec (HandHeroExercises.difficulty e) d) as [E|E].
  - rewrite (proj2 (Z.eqb_eq _ _) E). cbn. now rewrite IH.
  - rewrite (proj2 (Z.eqb_neq _ _) E). exact IH.
Qed.

(** [exercises.find(ex => ex.id === e.id)] finds something exactly when [e]
    was chosen before. *)
Lemma found_by_id (exs : list HandHeroExercises.ExerciseDef)
    (e : HandHeroExercises.ExerciseDef) :
  incl exs HandHeroExercises.getAllExercises -> In e HandHeroExercises.getAllExercises ->
  existsb (fun ex => String.eqb (HandHeroExercises.id ex) (HandHeroExercises.id e)) exs = true
  <-> In e exs.
Proof.
  intros I He. rewrite existsb_exists. split.
  - intros [ex [Hex E]]. apply String.eqb_eq in E.
    rewrite <- (NoDup_map_injective _ _ library_ids_NoDup ex e (I ex Hex) He E). exact Hex.
  - intros H. exists e. split; [exact H | apply String.eqb_refl].
Qed.

Lemma found_by_id_ids (exs : list HandHeroExercises.ExerciseDef)
    (e : HandHeroExercises.ExerciseDef) :
  existsb (fun ex => String.eqb (HandHeroExercises.id ex) (HandHeroExercises.id e)) exs = false ->
  ~ In (HandHeroExercises.id e) (map HandHeroExercises.id exs).
Proof.
  intros F H. apply in_map_iff in H. destruct H as [ex [E Hex]].
  assert (T : existsb (fun ex => String.eqb (HandHeroExercises.id ex) (HandHeroExercises.id e))
                      exs = true).
  { apply existsb_exists. exists ex. split; [exact Hex | now apply String.eqb_eq]. }
  congruence.
Qed.

(** The exercises of a difficulty that are still available are at least
    those the library has less those chosen before. *)
Lemma available_bound (d : Z) (exs : list HandHeroExercises.ExerciseDef) :
  incl exs HandHeroExercises.getAllExercises ->
  (List.length (HandHeroExercises.getByDifficulty d)
   <= List.length
        (filter (fun e => negb (existsb (fun ex => String.eqb (HandHeroExercises.id ex)
                                                              (HandHeroExercises.id e)) exs))
                (HandHeroExercises.getByDifficulty d))
      + count_occ Z.eq_dec (map HandHeroExercises.difficulty exs) d)%nat.
Proof.
  intros I.
  pose proof (filter_length
                (fun e => existsb (fun ex => String.eqb (HandHeroExercises.id ex)
                                                        (HandHeroExercises.id e)) exs)
                (HandHeroExercises.getByDifficulty d)) as F.
  cbv beta in F. rewrite <- F, <- count_difficulty.
  rewrite Nat.add_comm. apply Nat.add_le_mono_l.
  apply NoDup_incl_length; [apply NoDup_filter, byDifficulty_NoDup|].
  intros e He. apply filter_In in He. destruct He as [Hd Hf].
  apply filter_In. split.
  - apply (found_by_id exs e I); [apply (byDifficulty_incl d), Hd | exact Hf].
  - apply Z.eqb_eq. now apply byDifficulty_difficulty.
Qed.

Section Progressive.

Variable random : Draws.
Hypothesis random_contract : forall k, unitDraw (random k).

Lemma progressiveStep_chooses (d : Z) (exs : list HandHeroExercises.ExerciseDef)
    (calls : nat) :
  incl exs HandHeroExercises.getAllExercises ->
  (count_occ Z.eq_dec (map HandHeroExercises.difficulty exs) d
   < List.length (HandHeroExercises.getByDifficulty d))%nat ->
  exists e,
    HandHeroExercises.progressiveStep random (exs, calls) d = Some (exs ++ [e], S calls) /\
    In e HandHeroExercises.getAllExercises /\ HandHeroExercises.difficulty e = d /\
    ~ In (HandHeroExercises.id e) (map HandHeroExercises.id exs).
Proof.
  intros I Hc. pose proof (available_bound d exs I) as B.
  unfold HandHeroExercises.progressiveStep.
  set (available := filter _ (HandHeroExercises.getByDifficulty d)) in *.
  assert (L18 : (List.length available <= 18)%nat).
  { unfold available. eapply Nat.le_trans; [apply filter_length_le|].
    rewrite byDifficulty_eq. eapply Nat.le_trans; [apply filter_length_le | reflexivity]. }
  replace (0 <? List.length available)%nat with true
    by (symmetry; apply Nat.ltb_lt; lia).
  destruct (scaled_draw_floor (random calls) (List.length available) (random_contract calls))
    as [j [-> Hj]]; [lia| |].
  { assert (2 ^ 5 < 2 ^ 53)%Z by (apply Z.pow_lt_mono_r; lia).
    change (2 ^ 5)%Z with 32%Z in *. lia. }
  destruct (item_some available j Hj) as [e Ee]. rewrite Ee. exists e.
  split; [reflexivity|].
  apply item_nth_error, nth_error_In in Ee. unfold available in Ee.
  apply filter_In in Ee. destruct Ee as [Hd Hf]. apply negb_true_iff in Hf.
  split; [apply (byDifficulty_incl d), Hd|].
  split; [now apply byDifficulty_difficulty | now apply found_by_id_ids].
Qed.

Lemma progressiveLoop_chooses (diffs : list Z) :
  forall (exs : list HandHeroExercises.ExerciseDef) (calls : nat),
    incl exs HandHeroExercises.getAllExercises ->
    NoDup (map HandHeroExercises.id exs) ->
    feasible (map HandHeroExercises.difficulty exs) diffs = true ->
    exists session,
      HandHeroExercises.progressiveLoop random diffs (exs, calls)
      = Some (exs ++ session, (calls + List.length diffs)%nat) /\
      map HandHeroExercises.difficulty session = diffs /\
      incl (exs ++ session) HandHeroExercises.getAllExercises /\
      NoDup (map HandHeroExercises.id (exs ++ session)).
Proof.
  induction diffs as [|d rest IH]; intros exs calls I N;
    cbn [HandHeroExercises.progressiveLoop feasible List.length]; intros F.
  - exists []. rewrite app_nil_r, Nat.add_0_r. repeat split; assumption.
  - apply andb_true_iff in F. destruct F as [Fd Fr]. apply Nat.ltb_lt in Fd.
    destruct (progressiveStep_chooses d exs calls I Fd) as [e [-> [He [Hd Hn]]]].
    destruct (IH (exs ++ [e]) (S calls)) as [session [-> [M [I' N']]]].
    + apply incl_app; [exact I|]. intros a [<-|[]]. exact He.
    + rewrite map_app. cbn [map].
      apply NoDup_incl_NoDup with (l := HandHeroExercises.id e :: map HandHeroExercises.id exs).
      * constructor; assumption.
      * rewrite length_app. cbn. lia.
      * intros a [<-|Ha]; apply in_or_app; [right; now left | now left].
    + rewrite map_app. cbn [map]. rewrite Hd. exact Fr.
    + exists (e :: session). rewrite <- app_assoc in *. cbn [app] in *.
      split; [f_equal; f_equal; lia|]. cbn [map]. rewrite Hd, M.
      repeat split; assumption.
Qed.

(** X22. [buildProgressiveSession(count)], for an integer [count] and every
    run of [Math.random] results in [0, 1), returns [min(count, 8)]
    exercises (none for a negative [count]) whose difficulties are the first
    [min(count, 8)] entries of 1, 1, 2, 2, 2, 3, 3, 4 in this order; the
    exercises are library exercises with pairwise different ids, no round
    of the loop is skipped for want of an available exercise, and each round
    calls [Math.random] once. *)
Theorem buildProgressiveSession_progressive :
  forall (count : option Z) (calls : nat),
    let rounds := Z.to_nat (Z.min (orElse count 8%Z) 8) in
    exists session,
      HandHeroExercises.buildProgressiveSession random count calls
      = Some (session, (calls + rounds)%nat) /\
      List.length session = rounds /\
      map HandHeroExercises.difficulty session = firstn rounds [1; 1; 2; 2; 2; 3; 3; 4]%Z /\
      NoDup (map HandHeroExercises.id session) /\
      incl session HandHeroExercises.getAllExercises.
Proof.
  intros count calls rounds. unfold HandHeroExercises.buildProgressiveSession.
  cbv zeta. change (Z.of_nat (List.length [1; 1; 2; 2; 2; 3; 3; 4]%Z)) with 8%Z.
  fold rounds.
  assert (R : (rounds <= 8)%nat) by (unfold rounds; lia).
  assert (F : feasible [] (firstn rounds [1; 1; 2; 2; 2; 3; 3; 4]%Z) = true).
  { clearbody rounds. do 9 (destruct rounds as [|rounds]; [vm_compute; reflexivity|]). lia. }
  assert (L : List.length (firstn rounds [1; 1; 2; 2; 2; 3; 3; 4]%Z) = rounds).
  { rewrite length_firstn. cbn [List.length]. lia. }
  destruct (progressiveLoop_chooses _ [] calls (incl_nil_l _) (NoDup_nil _) F)
    as [session [E [M [I N]]]].
  cbn [app] in *. rewrite L in E. exists session.
  split; [exact E|]. split; [|auto].
  rewrite <- (length_map HandHeroExercises.difficulty), M. exact L.
Qed.

End Progressive.

Lemma buildProgressiveSession_progressive_witness :
  exists session,
    HandHeroExercises.buildProgressiveSession (fun _ => 0.5) (Some 3%Z) 0
    = Some (session, 3%nat) /\
    map HandHeroExercises.difficulty session = [1; 1; 2]%Z.
Proof.
  destruct (buildProgressiveSession_progressive (fun _ => 0.5) constant_draws_contract
              (Some 3%Z) 0) as [session [E [_ [M _]]]].
  exists session. split; [exact E | exact M].
Defined.

(** ** Category and type sessions *)

Lemma sliceTo_length {A} (s : list A) (end_ : Z) :
  List.length (sliceTo s end_) = sliceSize (List.length s) end_.
Proof.
  unfold sliceTo, sliceSize. destruct (Z.ltb_spec end_ 0); rewrite length_firstn; lia.
Qed.

Section Focused.

Variable random : Draws.
Hypothesis random_contract : forall k, unitDraw (random k).

(** [shuffle(L).slice(0, count)] for a part [L] of the library. *)
Lemma shuffled_slice (L : list HandHeroExercises.ExerciseDef) (calls : nat) (k : Z) :
  NoDup L -> incl L HandHeroExercises.getAllExercises ->
  exists s calls',
    HandHeroExercises.shuffle random L calls = Some (s, calls') /\
    NoDup (sliceTo s k) /\ incl (sliceTo s k) L /\
    List.length (sliceTo s k) = sliceSize (List.length L) k.
Proof.
  intros N I.
  assert (L18 : (List.length L <= 18)%nat).
  { change 18%nat with (List.length HandHeroExercises.getAllExercises).
    now apply NoDup_incl_length. }
  destruct (shuffle_arrangement random random_contract _ L calls) as [s [E P]].
  { assert (2 ^ 5 < 2 ^ 53)%Z by (apply Z.pow_lt_mono_r; lia).
    change (2 ^ 5)%Z with 32%Z in *. lia. }
  exists s, (calls + (List.length L - 1))%nat. split; [exact E|].
  rewrite sliceTo_length, <- (Permutation_length P).
  destruct (sliceTo_sub s k) as [n [-> _]].
  destruct (firstn_of_arrangement L s n P N) as [N1 [I1 _]]. auto.
Qed.

(** A session drawn from the exercises that pass [keep], or a balanced
    session when there is none. *)
Lemma focused_session (keep : HandHeroExercises.ExerciseDef -> bool) (count : Z)
    (calls : nat) :
  let part := filter keep HandHeroExercises.getAllExercises in
  exists session calls',
    (if (Z.of_nat (List.length part) =? 0)%Z
     then HandHeroExercises.buildSession random (Some count) calls
     else match HandHeroExercises.shuffle random part calls with
          | Some (s, c') => Some (sliceTo s count, c')
          | None => None
          end) = Some (session, calls') /\
    NoDup session /\ incl session HandHeroExercises.getAllExercises /\
    (part <> [] ->
     (forall e, In e session -> keep e = true) /\
     List.length session = sliceSize (List.length part) count) /\
    (part = [] -> List.length session = sessionSize count).
Proof.
  intros part.
  assert (Ip : incl part HandHeroExercises.getAllExercises).
  { intros e He. apply filter_In in He. tauto. }
  destruct (Z.eqb_spec (Z.of_nat (List.length part)) 0) as [E0|E0].
  - assert (Ep : part = []) by (apply length_zero_iff_nil; lia).
    destruct (buildSession_shape random random_contract (Some count) calls)
      as [session [calls' [E [L [N [I _]]]]]].
    exists session, calls'. split; [exact E|]. split; [exact N|]. split; [exact I|].
    split; [congruence | intros _; exact L].
  - destruct (shuffled_slice part calls count) as [s [calls' [-> [N [I L]]]]];
      [apply NoDup_filter, library_NoDup | exact Ip |].
    exists (sliceTo s count), calls'. split; [reflexivity|]. split; [exact N|].
    split; [intros e He; apply Ip, I, He|].
    split; [|intros Ep; rewrite Ep in E0; cbn in E0; lia].
    intros _. split; [|exact L].
    intros e He. apply I in He. apply filter_In in He. tauto.
Qed.

(** X23. [buildCategorySession(category, count)] and [buildTypeSession(type,
    count)], for an integer [count] (6 when omitted) and every run of
    [Math.random] results in [0, 1), return library exercises without
    repetition. When the library has exercises of the category (type), all
    returned exercises are of it and there are as many as
    [slice(0, count)] keeps of them: [min(count, available)] for
    [count >= 0]. When it has none, the result is that of
    [buildSession(count)], so the default [count] of 6 gives 5 exercises. *)
Theorem focused_sessions_stay_in_focus :
  forall (category type : string) (count : option Z) (calls : nat),
    (exists session calls',
       HandHeroExercises.buildCategorySession random category count calls
       = Some (session, calls') /\
       NoDup session /\ incl session HandHeroExercises.getAllExercises /\
       (HandHeroExercises.getByCategory category <> [] ->
        (forall e, In e session -> HandHeroExercises.category e = category) /\
        List.length session
        = sliceSize (List.length (HandHeroExercises.getByCategory category))
                    (orElse count 6%Z)) /\
       (HandHeroExercises.getByCategory category = [] ->
        List.length session = sessionSize (orElse count 6%Z))) /\
    (exists session calls',
       HandHeroExercises.buildTypeSession random type count calls
       = Some (session, calls') /\
       NoDup session /\ incl session HandHeroExercises.getAllExercises /\
       (HandHeroExercises.getByType type <> [] ->
        (forall e, In e session -> HandHeroExercises.type e = type) /\
        List.length session
        = sliceSize (List.length (HandHeroExercises.getByType type)) (orElse count 6%Z)) /\
       (HandHeroExercises.getByType type = [] ->
        List.length session = sessionSize (orElse count 6%Z))).
Proof.
  intros category type count calls. split.
  - unfold HandHeroExercises.buildCategorySession, HandHeroExercises.getByCategory.
    cbv zeta.
    destruct (focused_session
                (fun e => String.eqb (HandHeroExercises.category e) category)
                (orElse count 6%Z) calls)
      as [session [calls' [E [N [I [F B]]]]]].
    exists session, calls'. split; [exact E|]. split; [exact N|]. split; [exact I|].
    split; [|exact B].
    intros H. destruct (F H) as [K L]. split; [|exact L].
    intros e He. apply String.eqb_eq. exact (K e He).
  - unfold HandHeroExercises.buildTypeSession, HandHeroExercises.getByType.
    cbv zeta.
    destruct (focused_session
                (fun e => String.eqb (HandHeroExercises.type e) type)
                (orElse count 6%Z) calls)
      as [session [calls' [E [N [I [F B]]]]]].
    exists session, calls'. split; [exact E|]. split; [exact N|]. split; [exact I|].
    split; [|exact B].
    intros H. destruct (F H) as [K L]. split; [|exact L].
    intros e He. apply String.eqb_eq. exact (K e He).
Qed.

End Focused.

Lemma focused_sessions_stay_in_focus_witness :
  exists session calls',
    HandHeroExercises.buildCategorySession (fun _ => 0.5) "Precision" None 0
    = Some (session, calls') /\
    List.length session = 4%nat.
Proof.
  destruct (focused_sessions_stay_in_focus (fun _ => 0.5) constant_draws_contract
              "Precision" "pinch" None 0)
    as [[session [calls' [E [_ [_ [F _]]]]]] _].
  exists session, calls'. split; [exact E|].
  apply F. vm_compute. discriminate.
Defined.

(** ** The visualizer's finger of a node *)

(** X24. [getFingerForNode] of the visualizer agrees with the engine's
    [FINGER_NODES]: the four nodes of finger [f] are mapped to [f]; every
    node from 1 to 20 is one of the four nodes of the finger it is mapped
    to; and the result is -1 (no finger) exactly for node 0, the wrist. *)
Theorem getFingerForNode_agrees_with_FINGER_NODES :
  (forall (f : Z) (nodes : FingerNodes),
     FINGER_NODES f = Some nodes ->
     BoundaryVisualizer.getFingerForNode (mcp nodes) = f /\
     BoundaryVisualizer.getFingerForNode (pip nodes) = f /\
     BoundaryVisualizer.getFingerForNode (dip nodes) = f /\
     BoundaryVisualizer.getFingerForNode (tip nodes) = f) /\
  (forall node : Z,
     (1 <= node <= 20)%Z ->
     exists nodes,
       FINGER_NODES (BoundaryVisualizer.getFingerForNode node) = Some nodes /\
       In node [mcp nodes; pip nodes; dip nodes; tip nodes]) /\
  (forall node : Z, BoundaryVisualizer.getFingerForNode node = (-1)%Z <-> node = 0%Z).
Proof.
  split; [|split].
  - intros f nodes H.
    assert (C : (f = 0 \/ f = 1 \/ f = 2 \/ f = 3 \/ f = 4)%Z).
    { destruct (Z.ltb_spec f 0); [rewrite FINGER_NODES_none in H by lia; discriminate|].
      destruct (Z.ltb_spec 4 f); [rewrite FINGER_NODES_none in H by lia; discriminate|].
      lia. }
    destruct C as [-> | [-> | [-> | [-> | ->]]]]; injection H as <-;
      repeat split; reflexivity.
  - intros node H.
    assert (C : (node = 1 \/ node = 2 \/ node = 3 \/ node = 4 \/ node = 5 \/ node = 6 \/
                node = 7 \/ node = 8 \/ node = 9 \/ node = 10 \/ node = 11 \/ node = 12 \/
                node = 13 \/ node = 14 \/ node = 15 \/ node = 16 \/ node = 17 \/
                node = 18 \/ node = 19 \/ node = 20)%Z) by lia.
    repeat (destruct C as [->|C]); try subst node;
      (eexists; split; [reflexivity | cbn; tauto]).
  - intros node. unfold BoundaryVisualizer.getFingerForNode.
    destruct (Z.eqb_spec node 0); [tauto|].
    repeat match goal with |- context [(?a <=? ?b)%Z] => destruct (Z.leb_spec a b) end;
      split; intros; (discriminate || lia).
Qed.
